(** * The trio transport of azure-core: [send] and the streaming download

    A shallow embedding of
    [sdk/core/azure-core/azure/core/pipeline/transport/_requests_trio.py]:
    the [TrioStreamDownloadGenerator] ([__init__], [__len__], [__anext__]),
    [TrioRequestsTransportResponse.stream_download] and
    [TrioRequestsTransport.send].

    Python exceptions are values of an error monad; the mutable pieces
    (the local [kwargs] dictionary of [send], the blocking iterator of a
    download, the connection and the log) are threaded as explicit state,
    and every externally visible effect is appended to a trace of events,
    so that the order of effects can be stated. *)

From Stdlib Require Import ZArith List Bool Ascii String Lia.
From stdpp Require Import base decidable option strings gmap.
Import ListNotations.
Local Open Scope string_scope.
Local Open Scope Z_scope.

(** ** Exception classes

    The classes named by the module, together with their ancestors and
    siblings in the libraries they are imported from.  [bases] lists the
    direct base classes in the order of the [class] statements of
    [builtins], [urllib3.exceptions] (1.26), [requests.exceptions],
    [azure.core.exceptions] and
    [azure.core.pipeline.transport._base_async].  The last two
    constructors stand for every other class: one derived directly from
    [Exception], one derived directly from [BaseException] (keyboard
    interrupts, cancellation of the calling task, ...). *)

Inductive exc_class : Type :=
  (* builtins *)
  | BaseException
  | Exception
  | AttributeError
  | TypeError
  | ValueError
  | OSError
  | StopAsyncIteration
  (* urllib3.exceptions *)
  | urllib3_HTTPError
  | urllib3_PoolError
  | urllib3_RequestError
  | urllib3_ProtocolError
  | urllib3_MaxRetryError
  | urllib3_TimeoutError
  | urllib3_ReadTimeoutError
  | urllib3_ConnectTimeoutError
  | urllib3_NewConnectionError
  (* requests.exceptions *)
  | requests_RequestException
  | requests_HTTPError
  | requests_ConnectionError
  | requests_ProxyError
  | requests_SSLError
  | requests_Timeout
  | requests_ConnectTimeout
  | requests_ReadTimeout
  | requests_URLRequired
  | requests_TooManyRedirects
  | requests_MissingSchema
  | requests_InvalidSchema
  | requests_InvalidURL
  | requests_InvalidHeader
  | requests_InvalidProxyURL
  | requests_ChunkedEncodingError
  | requests_ContentDecodingError
  | requests_StreamConsumedError
  | requests_RetryError
  | requests_UnrewindableBodyError
  (* azure.core.exceptions *)
  | AzureError
  | ServiceRequestError
  | ServiceResponseError
  | HttpResponseError
  | DecodeError
  | IncompleteReadError
  (* azure.core.pipeline.transport._base_async *)
  | _ResponseStopIteration
  (* everything else *)
  | OtherException (name : string)
  | OtherBaseException (name : string).

#[global] Instance exc_class_eq_dec : EqDecision exc_class.
Proof. solve_decision. Defined.

Definition bases (c : exc_class) : list exc_class :=
  match c with
  | BaseException => []
  | Exception => [BaseException]
  | AttributeError | TypeError | ValueError | OSError
  | StopAsyncIteration => [Exception]
  | urllib3_HTTPError => [Exception]
  | urllib3_PoolError => [urllib3_HTTPError]
  | urllib3_RequestError => [urllib3_PoolError]
  | urllib3_ProtocolError => [urllib3_HTTPError]
  | urllib3_MaxRetryError => [urllib3_RequestError]
  | urllib3_TimeoutError => [urllib3_HTTPError]
  | urllib3_ReadTimeoutError => [urllib3_TimeoutError; urllib3_RequestError]
  | urllib3_ConnectTimeoutError => [urllib3_TimeoutError]
  | urllib3_NewConnectionError => [urllib3_ConnectTimeoutError; urllib3_PoolError]
  | requests_RequestException => [OSError]
  | requests_HTTPError => [requests_RequestException]
  | requests_ConnectionError => [requests_RequestException]
  | requests_ProxyError => [requests_ConnectionError]
  | requests_SSLError => [requests_ConnectionError]
  | requests_Timeout => [requests_RequestException]
  | requests_ConnectTimeout => [requests_ConnectionError; requests_Timeout]
  | requests_ReadTimeout => [requests_Timeout]
  | requests_URLRequired => [requests_RequestException]
  | requests_TooManyRedirects => [requests_RequestException]
  | requests_MissingSchema => [requests_RequestException; ValueError]
  | requests_InvalidSchema => [requests_RequestException; ValueError]
  | requests_InvalidURL => [requests_RequestException; ValueError]
  | requests_InvalidHeader => [requests_RequestException; ValueError]
  | requests_InvalidProxyURL => [requests_InvalidURL]
  | requests_ChunkedEncodingError => [requests_RequestException]
  | requests_ContentDecodingError => [requests_RequestException; urllib3_HTTPError]
  | requests_StreamConsumedError => [requests_RequestException; TypeError]
  | requests_RetryError => [requests_RequestException]
  | requests_UnrewindableBodyError => [requests_RequestException]
  | AzureError => [Exception]
  | ServiceRequestError => [AzureError]
  | ServiceResponseError => [AzureError]
  | HttpResponseError => [AzureError]
  | DecodeError => [HttpResponseError]
  | IncompleteReadError => [DecodeError]
  | _ResponseStopIteration => [Exception]
  | OtherException _ => [Exception]
  | OtherBaseException _ => [BaseException]
  end.

(** [issubclass c k]: [k] is [c] or an ancestor of [c].  The recursion
    follows [bases]; the fuel bounds the depth of the search. *)
Fixpoint issubclass_upto (fuel : nat) (c k : exc_class) : bool :=
  bool_decide (c = k) ||
  match fuel with
  | O => false
  | S fuel' => existsb (fun b => issubclass_upto fuel' b k) (bases c)
  end.

(** The longest chain of the table has five links
    ([urllib3_NewConnectionError] up to [BaseException] through
    [urllib3_ConnectTimeoutError]). *)
Definition issubclass (c k : exc_class) : bool := issubclass_upto 8 c k.

(** ** Objects and exception values

    [PyRef] is any object the adapter only passes along (a limiter, a
    certificate, a hook table, ...), named by its identity.  An
    exception carries its class, its positional [args] and, for the
    azure-core errors built with [error=...], the [inner_exception]. *)

#[local] Unset Elimination Schemes.
Inductive pyobj : Type :=
  | PyNone
  | PyBool (b : bool)
  | PyInt (z : Z)
  | PyStr (s : string)
  | PyRef (id : nat)
  | PyError (e : pyexc)
with pyexc : Type :=
  | Exc (cls : exc_class) (args : list pyobj) (inner : option pyexc).
#[local] Set Elimination Schemes.

Definition exc_type (e : pyexc) : exc_class :=
  match e with Exc c _ _ => c end.

Definition exc_args (e : pyexc) : list pyobj :=
  match e with Exc _ a _ => a end.

Definition inner_exception (e : pyexc) : option pyexc :=
  match e with Exc _ _ i => i end.

(** [isinstance(err, K)] for an exception value. *)
Definition isinstance (e : pyexc) (k : exc_class) : bool :=
  issubclass (exc_type e) k.

(** [isinstance(obj, K)] for an arbitrary object: only exception objects
    are instances of exception classes. *)
Definition isinstance_obj (o : pyobj) (k : exc_class) : bool :=
  match o with
  | PyError e => isinstance e k
  | _ => false
  end.

(** ** The error-and-state monad *)

Inductive result (A : Type) : Type :=
  | Return (a : A)
  | Raise (e : pyexc).
Arguments Return {A} a.
Arguments Raise {A} e.

(** The value of a result, if it is one. *)
Definition result_value {A} (r : result A) : option A :=
  match r with
  | Return a => Some a
  | Raise _ => None
  end.

(** The outcome is an exception that [except AttributeError] catches. *)
Definition raises_AttributeError {A} (r : result A) : bool :=
  match r with
  | Raise e => isinstance e AttributeError
  | Return _ => false
  end.

Definition M (S A : Type) : Type := S -> result A * S.

Definition ret {S A} (a : A) : M S A := fun s => (Return a, s).

Definition raise {S A} (e : pyexc) : M S A := fun s => (Raise e, s).

Definition bind {S A B} (m : M S A) (k : A -> M S B) : M S B :=
  fun s =>
    match m s with
    | (Return a, s') => k a s'
    | (Raise e, s') => (Raise e, s')
    end.

Definition get_state {S} : M S S := fun s => (Return s, s).

Definition modify {S} (f : S -> S) : M S unit := fun s => (Return tt, f s).

(** [try: body; except ...: ...].  [handlers e] is the body of the first
    [except] clause that matches [e], or [None] when no clause matches
    and [e] keeps propagating.  The handler runs in the state the body
    left behind. *)
Definition try_except {S A} (body : M S A)
    (handlers : pyexc -> option (M S A)) : M S A :=
  fun s =>
    match body s with
    | (Return a, s') => (Return a, s')
    | (Raise e, s') =>
        match handlers e with
        | Some h => h s'
        | None => (Raise e, s')
        end
    end.

Declare Scope py_scope.
Delimit Scope py_scope with py.
Notation "x <~ c ;; k" := (bind c (fun x => k))
  (at level 100, c at next level, right associativity) : py_scope.
Notation "c ;;; k" := (bind c (fun _ => k))
  (at level 100, right associativity) : py_scope.
Local Open Scope py_scope.

(** ** Requests, blocking calls and responses *)

Abbreviation bytes := (list Byte.byte).

(** The body of a request, by the way [requests] can read it: nothing,
    a byte string, a synchronous iterable of parts, or an asynchronous
    iterable of parts (an object with [__aiter__]). *)
Inductive request_data : Type :=
  | NoData
  | BytesData (b : bytes)
  | IterData (parts : list bytes)
  | AsyncIterData (parts : list bytes).

Record HttpRequest : Type := {
  method : string;
  url : string;
  headers : gmap string string;
  data : request_data;
  files : pyobj
}.

Record ConnectionConfiguration : Type := {
  verify : pyobj;
  timeout : pyobj;
  cert : pyobj;
  data_block_size : nat
}.

(** The arguments of one [session.request(...)] call, as
    [functools.partial] fixes them. *)
Record blocking_call : Type := {
  call_method : string;
  call_url : string;
  call_headers : gmap string string;
  call_data : request_data;
  call_files : pyobj;
  call_verify : pyobj;
  call_timeout : pyobj;
  call_cert : pyobj;
  call_allow_redirects : bool;
  call_hooks : pyobj;
  call_kwargs : gmap string pyobj
}.

(** One [next] of a blocking chunk iterator: a chunk ([None] for an
    absent one) or an exception.  An iterator is the list of the
    outcomes it still has to give; [next] on the empty list is
    [StopIteration]. *)
Inductive pull : Type :=
  | Yield (chunk : option bytes)
  | Throw (e : pyexc).

(** The [requests.Response] behind a transport response.  Its headers
    are a [requests.structures.CaseInsensitiveDict], given by the fields
    that were set on it, name and value, in the order in which they
    were set.  Its body is read through one of two blocking iterators,
    by block size: [iter_content], which decodes the content, and
    [raw_stream], what [_read_raw_stream] of [_requests_basic] reads
    undecoded. *)
Record raw_response : Type := {
  status_code : Z;
  resp_headers : list (string * string);
  iter_content : nat -> list pull;
  raw_stream : nat -> list pull
}.

(** [TrioRequestsTransportResponse(request, internal_response, block_size)];
    its [headers] are those of the internal response. *)
Record TrioRequestsTransportResponse : Type := {
  request : HttpRequest;
  internal_response : raw_response;
  block_size : nat
}.

(** The two getters of [_tools] read the attributes they are named
    after. *)
Definition _get_internal_response (response : TrioRequestsTransportResponse)
  : raw_response := internal_response response.

Definition _get_block_size (response : TrioRequestsTransportResponse) : nat :=
  block_size response.

(** ** The runtime and the trace of effects *)

(** The two worker-dispatch primitives of trio. *)
Inductive primitive : Type :=
  | to_thread_run_sync
  | run_sync_in_worker_thread.

(** What a run leaves behind, in order: a blocking request dispatched
    with a limiter and what it gave; a blocking pull of the next chunk and
    what it gave; a record logged at warning level; the connection of the
    internal response being closed. *)
Inductive event : Type :=
  | EvRequest (p : primitive) (limiter : pyobj) (c : blocking_call)
      (r : result raw_response)
  | EvPull (p : primitive) (r : result (option bytes))
  | EvWarning (msg : string) (err : pyexc)
  | EvClose.

(** What the module finds around it: which of the two dispatch
    primitives the installed trio has ([trio.to_thread] exists from
    0.12.1 on), the helper [_get_request_hooks] of [_requests_basic],
    and the text [str] gives for an exception, by the [__str__] of its
    class; the last two are taken as they come. *)
Record environment : Type := {
  has_to_thread : bool;
  has_run_sync_in_worker_thread : bool;
  _get_request_hooks : pyobj -> pyobj;
  str : pyexc -> string
}.

(** The transport object: its configuration, the session (the [n]-th
    blocking call it is asked either returns a response or raises) and
    the inherited [_retrieve_request_data], which is taken as it comes. *)
Record TrioRequestsTransport : Type := {
  connection_config : ConnectionConfiguration;
  session_request : nat -> blocking_call -> result raw_response;
  _retrieve_request_data : HttpRequest -> request_data
}.

(** The state [send] works on: its local [kwargs] dictionary, whether
    the session is open, how many blocking calls the session has
    served, and the trace. *)
Record frame : Type := {
  kwargs : gmap string pyobj;
  opened : bool;
  calls : nat;
  trace : list event
}.

Definition call_frame (kw : gmap string pyobj) : frame :=
  {| kwargs := kw; opened := false; calls := 0; trace := [] |}.

(** [getattr(trio, name)]: an absent attribute raises [AttributeError]. *)
Definition missing_attribute (name : string) : pyexc :=
  Exc AttributeError
    [PyStr ("module 'trio' has no attribute '" ++ name ++ "'")] None.

Definition trio_attribute {S} (present : bool) (name : string) : M S unit :=
  if present then ret tt else raise (missing_attribute name).

(** ** [TrioRequestsTransport.send] *)

Section Send.
Variable env : environment.
Variable self : TrioRequestsTransport.
Variable req : HttpRequest.

(** [self.open()]: opens the session if it is not open yet. *)
Definition open : M frame unit :=
  modify (fun s => {| kwargs := kwargs s; opened := true;
                      calls := calls s; trace := trace s |}).

(** [kwargs.get(key, default)] on the local dictionary. *)
Definition kwargs_get (key : string) (dflt : pyobj) : M frame pyobj :=
  fun s => (Return (default dflt (kwargs s !! key)), s).

(** [kwargs.pop(key, default)]: the entry leaves the dictionary. *)
Definition kwargs_pop (key : string) (dflt : pyobj) : M frame pyobj :=
  fun s =>
    (Return (default dflt (kwargs s !! key)),
     {| kwargs := delete key (kwargs s); opened := opened s;
        calls := calls s; trace := trace s |}).

(** The keywords [functools.partial] is given by name; one of them
    coming again through [**kwargs] is a [TypeError] of the call, raised
    once all keyword values are evaluated.  When several are repeated
    the error names one of them; here the first of [named_keywords]. *)
Definition named_keywords : list string :=
  ["headers"; "data"; "files"; "verify"; "timeout"; "cert";
   "allow_redirects"; "hooks"].

Definition repeated_keyword (kw : gmap string pyobj) : option string :=
  List.find (fun k => bool_decide (is_Some (kw !! k))) named_keywords.

Definition repeated_keyword_error (k : string) : pyexc :=
  Exc TypeError
    [PyStr ("got multiple values for keyword argument '" ++ k ++ "'")] None.

(** [functools.partial(self.session.request, request.method, request.url,
    headers=..., data=body, files=..., verify=kwargs.pop(...),
    timeout=kwargs.pop(...), cert=kwargs.pop(...), allow_redirects=False,
    hooks=_get_request_hooks(kwargs.pop('hooks', None)), **kwargs)]:
    the keyword values are evaluated left to right, then what is left
    of [kwargs] is merged in. *)
Definition partial_request (body : request_data) : M frame blocking_call :=
  v <~ kwargs_pop "connection_verify" (verify (connection_config self)) ;;
  t <~ kwargs_pop "connection_timeout" (timeout (connection_config self)) ;;
  c <~ kwargs_pop "connection_cert" (cert (connection_config self)) ;;
  h <~ kwargs_pop "hooks" PyNone ;;
  s <~ get_state ;;
  match repeated_keyword (kwargs s) with
  | Some k => raise (repeated_keyword_error k)
  | None =>
      ret {| call_method := method req;
             call_url := url req;
             call_headers := headers req;
             call_data := body;
             call_files := files req;
             call_verify := v;
             call_timeout := t;
             call_cert := c;
             call_allow_redirects := false;
             call_hooks := _get_request_hooks env h;
             call_kwargs := kwargs s |}
  end.

(** Either dispatch primitive runs the partial call on a worker thread
    and hands back what the session returned or raised. *)
Definition run_sync (p : primitive) (c : blocking_call) (limiter : pyobj)
  : M frame raw_response :=
  fun s =>
    let r := session_request self (calls s) c in
    (r,
     {| kwargs := kwargs s; opened := opened s; calls := S (calls s);
        trace := trace s ++ [EvRequest p limiter c r] |}).

(** Lines 156-170: the callee [trio.to_thread.run_sync] is looked up
    before its arguments are evaluated. *)
Definition primary_dispatch (data_to_send : request_data) (trio_limiter : pyobj)
  : M frame raw_response :=
  trio_attribute (has_to_thread env) "to_thread" ;;;
  c <~ partial_request data_to_send ;;
  run_sync to_thread_run_sync c trio_limiter.

(** Lines 172-186, the handler of [except AttributeError]. *)
Definition fallback_dispatch (trio_limiter : pyobj) : M frame raw_response :=
  trio_attribute (has_run_sync_in_worker_thread env) "run_sync_in_worker_thread" ;;;
  c <~ partial_request (data req) ;;
  run_sync run_sync_in_worker_thread c trio_limiter.

(** [err.args and isinstance(err.args[0], urllib3.exceptions.ProtocolError)] *)
Definition first_arg_is_protocol_error (err : pyexc) : bool :=
  match exc_args err with
  | [] => false
  | a :: _ => isinstance_obj a urllib3_ProtocolError
  end.

(** Modelled from the spec: the classes of [azure.core.exceptions] are
    not part of the sources at hand.  [Kind(err, error=err)] is a
    wrapper of class [Kind] "preserving the original cause":
    [AzureError.__init__(message, *args, **kwargs)] keeps the keyword
    [error] as [inner_exception] and hands [str(message)], here
    [str(err)], to [Exception.__init__] as the only argument. *)
Definition wrap (kind : exc_class) (err : pyexc) : pyexc :=
  Exc kind [PyStr (str env err)] (Some err).

(** Lines 188-200: the [except] clauses of the outer [try], in order.
    [None]: no clause matches. *)
Definition translate (err : pyexc) : option pyexc :=
  if isinstance err urllib3_NewConnectionError then
    Some (wrap ServiceRequestError err)
  else if isinstance err requests_ReadTimeout then
    Some (wrap ServiceResponseError err)
  else if isinstance err requests_ConnectionError then
    if first_arg_is_protocol_error err then
      Some (wrap ServiceResponseError err)
    else
      Some (wrap ServiceRequestError err)
  else if isinstance err requests_ChunkedEncodingError then
    Some (wrap IncompleteReadError err)
  else if isinstance err requests_RequestException then
    Some (wrap ServiceRequestError err)
  else None.

(** The whole method.  The outer [try] leaves either [response] or
    [error] set; [if error: raise error] follows. *)
Definition send : M frame TrioRequestsTransportResponse :=
  open ;;;
  trio_limiter <~ kwargs_get "trio_limiter" PyNone ;;
  let data_to_send := _retrieve_request_data self req in
  outcome <~
    try_except
      (response <~
         try_except
           (primary_dispatch data_to_send trio_limiter)
           (fun err =>
              if isinstance err AttributeError
              then Some (fallback_dispatch trio_limiter)
              else None) ;;
       ret (inl response))
      (fun err =>
         match translate err with
         | Some error => Some (ret (inr error))
         | None => None
         end) ;;
  match outcome with
  | inr error => raise error
  | inl response =>
      ret {| request := req;
             internal_response := response;
             block_size := data_block_size (connection_config self) |}
  end.

End Send.

(** ** Builtins used by the download generator *)

(** Truth value of an object, as [if obj:] takes it. *)
Definition truthy (o : pyobj) : bool :=
  match o with
  | PyNone => false
  | PyBool b => b
  | PyInt z => negb (z =? 0)
  | PyStr s => negb (bool_decide (s = ""))
  | PyRef _ => true
  | PyError _ => true
  end.

(** [not chunk]: the chunk is absent or empty. *)
Definition not_chunk (chunk : option bytes) : bool :=
  match chunk with
  | None => true
  | Some [] => true
  | Some (_ :: _) => false
  end.

(** A string is the sequence of its characters, each a code point
    below 256: the header fields of a response are decoded as Latin-1. *)

(** The characters [int] skips around a number: tab to carriage return
    and the space, and the white space beyond ASCII, which [int] turns
    into spaces first (next line, no-break space).  The separators 28
    to 31 are no white space for [int]. *)
Definition is_space (c : ascii) : bool :=
  let n := nat_of_ascii c in
  ((9 <=? n) && (n <=? 13) || (n =? 32) || (n =? 133) || (n =? 160))%nat.

Definition digit_of (c : ascii) : option Z :=
  let n := nat_of_ascii c in
  if ((48 <=? n) && (n <=? 57))%nat then Some (Z.of_nat n - 48) else None.

Fixpoint lstrip (l : list ascii) : list ascii :=
  match l with
  | c :: l' => if is_space c then lstrip l' else l
  | [] => []
  end.

Definition strip (l : list ascii) : list ascii :=
  rev (lstrip (rev (lstrip l))).

(** Decimal digits, with single underscores allowed between digits.
    [after_digit]: the previous character was a digit. *)
Fixpoint digits_value (acc : Z) (after_digit : bool) (l : list ascii)
  : option Z :=
  match l with
  | [] => if after_digit then Some acc else None
  | c :: l' =>
      match digit_of c with
      | Some d => digits_value (10 * acc + d) true l'
      | None =>
          if bool_decide (c = "_"%char) && after_digit
          then digits_value acc false l'
          else None
      end
  end.

(** [int(s)]: surrounding white space, an optional sign, decimal digits.
    [None]: [int] raises [ValueError].  (The bound on the number of
    digits that later interpreters put on the conversion, 4300 unless
    configured otherwise, is left out.) *)
Definition int_of_str (s : string) : option Z :=
  match strip (list_ascii_of_string s) with
  | [] => None
  | c :: l =>
      if bool_decide (c = "+"%char) then digits_value 0 false l
      else if bool_decide (c = "-"%char) then Z.opp <$> digits_value 0 false l
      else digits_value 0 false (c :: l)
  end.

(** [str.lower]: the capital letters of ASCII and of Latin-1 (192 to
    222 but for the multiplication sign) move to their small ones. *)
Definition lower_char (c : ascii) : ascii :=
  let n := nat_of_ascii c in
  if ((65 <=? n) && (n <=? 90)
      || (192 <=? n) && (n <=? 222) && negb (n =? 215))%nat
  then ascii_of_nat (n + 32)
  else c.

Fixpoint lower (s : string) : string :=
  match s with
  | EmptyString => EmptyString
  | String c s' => String (lower_char c) (lower s')
  end.

(** [requests.structures.CaseInsensitiveDict]: [_store] maps the
    lower-cased name of a field to the name as it was last set and the
    value. *)
Module CaseInsensitiveDict.

Definition t : Type := gmap string (string * string).

Definition __setitem__ (self : t) (key value : string) : t :=
  <[lower key := (key, value)]> self.

(** [self._store[key.lower()][1]]; [None]: [KeyError]. *)
Definition __getitem__ (self : t) (key : string) : option string :=
  snd <$> self !! lower key.

(** [get(key, default)] of the [Mapping] mixin. *)
Definition get (self : t) (key : string) (dflt : pyobj) : pyobj :=
  match __getitem__ self key with
  | Some value => PyStr value
  | None => dflt
  end.

(** The dictionary on which the fields [items] were set in order. *)
Definition of_items (items : list (string * string)) : t :=
  fold_left (fun self item => __setitem__ self (fst item) (snd item)) items ∅.

End CaseInsensitiveDict.

(** [int(x)]: an integer is itself, a string is parsed, and an object
    that is neither is a [TypeError]. *)
Definition int (x : pyobj) : result Z :=
  match x with
  | PyInt z => Return z
  | PyBool b => Return (if b then 1 else 0)
  | PyStr s =>
      match int_of_str s with
      | Some z => Return z
      | None =>
          Raise (Exc ValueError
                   [PyStr ("invalid literal for int() with base 10: " ++ s)]
                   None)
      end
  | _ =>
      Raise (Exc TypeError
               [PyStr "int() argument must be a string, a bytes-like object or a number"]
               None)
  end.

(** ** [TrioStreamDownloadGenerator] and [stream_download] *)

Module TrioStreamDownloadGenerator.

Definition request_of (r : TrioRequestsTransportResponse) : HttpRequest :=
  request r.

(** [response.headers]: those of the internal response. *)
Definition headers_of (r : TrioRequestsTransportResponse)
  : CaseInsensitiveDict.t :=
  CaseInsensitiveDict.of_items (resp_headers (internal_response r)).

(** The attributes [__init__] sets. *)
Record t : Type := {
  pipeline : pyobj;
  request : HttpRequest;
  response : TrioRequestsTransportResponse;
  block_size : nat;
  iter_content_func : list pull;
  content_length : Z
}.

(** [__init__(self, pipeline, response, **kwargs)].  Which of several
    unexpected keywords the [TypeError] names is the first of the
    dictionary's enumeration. *)
Definition __init__ (pipeline : pyobj) (response : TrioRequestsTransportResponse)
    (kwargs : gmap string pyobj) : result t :=
  let block_size := _get_block_size response in
  let decompress := default (PyBool true) (kwargs !! "decompress") in
  let kwargs := delete "decompress" kwargs in
  match map_to_list kwargs with
  | (k, _) :: _ =>
      Raise (Exc TypeError
               [PyStr ("Got an unexpected keyword argument: " ++ k)] None)
  | [] =>
      let internal_response := _get_internal_response response in
      let iter_content_func :=
        if truthy decompress
        then iter_content internal_response block_size
        else raw_stream internal_response block_size in
      let declared := CaseInsensitiveDict.get (headers_of response)
                        "Content-Length" (PyInt 0) in
      match int declared with
      | Return n =>
          Return {| pipeline := pipeline; request := request_of response;
                    response := response; block_size := block_size;
                    iter_content_func := iter_content_func;
                    content_length := n |}
      | Raise e => Raise e
      end
  end.

Definition __len__ (self : t) : Z := content_length self.

(** The generator object together with the trace of what its pulls
    did to the connection and the log. *)
Record state : Type := {
  this : t;
  trace : list event
}.

Definition emit (ev : event) : M state unit :=
  modify (fun s => {| this := this s; trace := trace s ++ [ev] |}).

(** The generator after its iterator moved on to [rest]. *)
Definition advanced (self : t) (rest : list pull) : t :=
  {| pipeline := pipeline self; request := request self;
     response := response self; block_size := block_size self;
     iter_content_func := rest;
     content_length := content_length self |}.

(** Modelled from the spec: [_iterate_response_content] of
    [_base_async.py] is not part of the sources at hand.  It takes the
    next chunk of the blocking iterator, and the end of the iterator
    reaches [__anext__] as [_ResponseStopIteration] (an exhausted
    stream yields no further chunks and does not raise).  [next_of]
    is what one such step gives and what it leaves of the iterator. *)
Definition next_of (it : list pull) : result (option bytes) * list pull :=
  match it with
  | [] => (Raise (Exc _ResponseStopIteration [] None), [])
  | Yield chunk :: rest => (Return chunk, rest)
  | Throw e :: rest => (Raise e, rest)
  end.

(** The step on the iterator the generator holds. *)
Definition _iterate_response_content : M state (option bytes) :=
  fun s =>
    let '(r, rest) := next_of (iter_content_func (this s)) in
    (r, {| this := advanced (this s) rest; trace := trace s |}).

Section Pull.
Variable env : environment.

(** Either dispatch primitive runs [_iterate_response_content] on a
    worker thread. *)
Definition run_sync (p : primitive) : M state (option bytes) :=
  fun s =>
    let '(r, s') := _iterate_response_content s in
    (r, {| this := this s'; trace := trace s' ++ [EvPull p r] |}).

Definition close : M state unit := emit EvClose.

Definition warning (msg : string) (err : pyexc) : M state unit :=
  emit (EvWarning msg err).

(** [__anext__(self)], lines 80-104. *)
Definition __anext__ : M state (option bytes) :=
  try_except
    (chunk <~
       try_except
         (trio_attribute (has_to_thread env) "to_thread" ;;;
          run_sync to_thread_run_sync)
         (fun err =>
            if isinstance err AttributeError
            then Some (trio_attribute (has_run_sync_in_worker_thread env)
                         "run_sync_in_worker_thread" ;;;
                       run_sync run_sync_in_worker_thread)
            else None) ;;
     if not_chunk chunk
     then raise (Exc _ResponseStopIteration [] None)
     else ret chunk)
    (fun err =>
       if isinstance err _ResponseStopIteration then
         Some (close ;;; raise (Exc StopAsyncIteration [] None))
       else if isinstance err requests_StreamConsumedError then
         Some (raise err)
       else if isinstance err Exception then
         Some (warning "Unable to stream download: %s" err ;;;
               close ;;;
               raise err)
       else None).

(** [n] pulls in a row, whatever each of them gives. *)
Fixpoint pulls (n : nat) (s : state) : state :=
  match n with
  | O => s
  | S n' => pulls n' (snd (__anext__ s))
  end.

(** The chunks a consumer collects with [async for]: it pulls until
    the first exception; [StopAsyncIteration] ends the loop. *)
Fixpoint collect (fuel : nat) (s : state)
  : list (option bytes) * option pyexc * state :=
  match fuel with
  | O => ([], None, s)
  | S fuel' =>
      match __anext__ s with
      | (Return chunk, s') =>
          let '(chunks, err, s'') := collect fuel' s' in
          (chunk :: chunks, err, s'')
      | (Raise e, s') =>
          if isinstance e StopAsyncIteration
          then ([], None, s')
          else ([], Some e, s')
      end
  end.
End Pull.

(** *** What a pull amounts to

    [settled r]: what [__anext__] gives, and which effects follow,
    once its last dispatch has given [r]. *)
Definition unable : string := "Unable to stream download: %s".

Definition settled (r : result (option bytes))
  : result (option bytes) * list event :=
  match r with
  | Return chunk =>
      if not_chunk chunk
      then (Raise (Exc StopAsyncIteration [] None), [EvClose])
      else (Return chunk, [])
  | Raise e =>
      if isinstance e _ResponseStopIteration then
        (Raise (Exc StopAsyncIteration [] None), [EvClose])
      else if isinstance e requests_StreamConsumedError then
        (Raise e, [])
      else if isinstance e Exception then
        (Raise e, [EvWarning unable e; EvClose])
      else (Raise e, [])
  end.

(** The runs of one [__anext__] on an iterator [it]: the result, what
    is left of the iterator, and the events, by the dispatch
    primitives at hand and by what the pulls give. *)
Section Runs.
Variable env : environment.
Variable it : list pull.

Inductive anext_run
  : result (option bytes) -> list pull -> list event -> Prop :=
| pull_no_primitive :
    has_to_thread env = false ->
    has_run_sync_in_worker_thread env = false ->
    anext_run (Raise (missing_attribute "run_sync_in_worker_thread")) it
      [EvWarning unable (missing_attribute "run_sync_in_worker_thread");
       EvClose]
| pull_primary r rest :
    has_to_thread env = true ->
    next_of it = (r, rest) ->
    raises_AttributeError r = false ->
    anext_run (fst (settled r)) rest
      (EvPull to_thread_run_sync r :: snd (settled r))
| pull_primary_then_nothing r rest :
    has_to_thread env = true ->
    next_of it = (r, rest) ->
    raises_AttributeError r = true ->
    has_run_sync_in_worker_thread env = false ->
    anext_run (Raise (missing_attribute "run_sync_in_worker_thread")) rest
      [EvPull to_thread_run_sync r;
       EvWarning unable (missing_attribute "run_sync_in_worker_thread");
       EvClose]
| pull_primary_then_fallback r rest r2 rest2 :
    has_to_thread env = true ->
    next_of it = (r, rest) ->
    raises_AttributeError r = true ->
    has_run_sync_in_worker_thread env = true ->
    next_of rest = (r2, rest2) ->
    anext_run (fst (settled r2)) rest2
      (EvPull to_thread_run_sync r :: EvPull run_sync_in_worker_thread r2
         :: snd (settled r2))
| pull_fallback r rest :
    has_to_thread env = false ->
    has_run_sync_in_worker_thread env = true ->
    next_of it = (r, rest) ->
    anext_run (fst (settled r)) rest
      (EvPull run_sync_in_worker_thread r :: snd (settled r)).
End Runs.

(** A generator that has not pulled yet. *)
Definition fresh (g : t) : state := {| this := g; trace := [] |}.

Definition is_warning (ev : event) : bool :=
  match ev with EvWarning _ _ => true | _ => false end.

Definition is_close (ev : event) : bool :=
  match ev with EvClose => true | _ => false end.

End TrioStreamDownloadGenerator.

Module Gen := TrioStreamDownloadGenerator.

(** [TrioRequestsTransportResponse.stream_download(pipeline, **kwargs)] *)
Definition stream_download (self : TrioRequestsTransportResponse)
    (pipeline : pyobj) (kwargs : gmap string pyobj)
  : result TrioStreamDownloadGenerator.t :=
  TrioStreamDownloadGenerator.__init__ pipeline self kwargs.

(** ** What a [send] amounts to *)

(** What is left of [kwargs] once [partial_request] has popped its four
    keys. *)
Definition leftover (kw : gmap string pyobj) : gmap string pyobj :=
  delete "hooks" (delete "connection_cert"
    (delete "connection_timeout" (delete "connection_verify" kw))).

(** The call [partial_request] builds from the dictionary [kw]. *)
Definition request_arguments (env : environment) (self : TrioRequestsTransport)
    (req : HttpRequest) (body : request_data) (kw : gmap string pyobj)
  : blocking_call :=
  {| call_method := method req;
     call_url := url req;
     call_headers := headers req;
     call_data := body;
     call_files := files req;
     call_verify :=
       default (verify (connection_config self)) (kw !! "connection_verify");
     call_timeout :=
       default (timeout (connection_config self)) (kw !! "connection_timeout");
     call_cert :=
       default (cert (connection_config self)) (kw !! "connection_cert");
     call_allow_redirects := false;
     call_hooks := _get_request_hooks env (default PyNone (kw !! "hooks"));
     call_kwargs := leftover kw |}.

Definition with_kwargs (s : frame) (kw : gmap string pyobj) : frame :=
  {| kwargs := kw; opened := opened s; calls := calls s; trace := trace s |}.

(** What [send] gives once its last dispatch has given [r]. *)
Definition surfaced (env : environment) (self : TrioRequestsTransport)
    (req : HttpRequest) (r : result raw_response)
  : result TrioRequestsTransportResponse :=
  match r with
  | Return response =>
      Return {| request := req; internal_response := response;
                block_size := data_block_size (connection_config self) |}
  | Raise e =>
      match translate env e with
      | Some error => Raise error
      | None => Raise e
      end
  end.

(** The runs of [send] on the keyword options [kw]: the result and the
    blocking calls dispatched, by the dispatch primitives at hand and by
    what the session gives. *)
Section SendRuns.
Variable env : environment.
Variable self : TrioRequestsTransport.
Variable req : HttpRequest.
Variable kw : gmap string pyobj.

Let limiter : pyobj := default PyNone (kw !! "trio_limiter").
Let first_call : blocking_call :=
  request_arguments env self req (_retrieve_request_data self req) kw.

Inductive send_run
  : result TrioRequestsTransportResponse -> list event -> Prop :=
| run_no_primitive :
    has_to_thread env = false ->
    has_run_sync_in_worker_thread env = false ->
    send_run (Raise (missing_attribute "run_sync_in_worker_thread")) []
| run_repeated_keyword k :
    has_to_thread env || has_run_sync_in_worker_thread env = true ->
    repeated_keyword (leftover kw) = Some k ->
    send_run (Raise (repeated_keyword_error k)) []
| run_primary r :
    has_to_thread env = true ->
    repeated_keyword (leftover kw) = None ->
    r = session_request self 0 first_call ->
    raises_AttributeError r = false ->
    send_run (surfaced env self req r)
      [EvRequest to_thread_run_sync limiter first_call r]
| run_primary_then_nothing r :
    has_to_thread env = true ->
    repeated_keyword (leftover kw) = None ->
    r = session_request self 0 first_call ->
    raises_AttributeError r = true ->
    has_run_sync_in_worker_thread env = false ->
    send_run (Raise (missing_attribute "run_sync_in_worker_thread"))
      [EvRequest to_thread_run_sync limiter first_call r]
| run_primary_then_fallback r c2 r2 :
    has_to_thread env = true ->
    repeated_keyword (leftover kw) = None ->
    r = session_request self 0 first_call ->
    raises_AttributeError r = true ->
    has_run_sync_in_worker_thread env = true ->
    c2 = request_arguments env self req (data req) (leftover kw) ->
    r2 = session_request self 1 c2 ->
    send_run (surfaced env self req r2)
      [EvRequest to_thread_run_sync limiter first_call r;
       EvRequest run_sync_in_worker_thread limiter c2 r2]
| run_fallback c2 r2 :
    has_to_thread env = false ->
    has_run_sync_in_worker_thread env = true ->
    repeated_keyword (leftover kw) = None ->
    c2 = request_arguments env self req (data req) kw ->
    r2 = session_request self 0 c2 ->
    send_run (surfaced env self req r2)
      [EvRequest run_sync_in_worker_thread limiter c2 r2].
End SendRuns.

(** The blocking calls a trace holds, in order. *)
Definition dispatched (tr : list event) : list blocking_call :=
  flat_map (fun ev => match ev with EvRequest _ _ c _ => [c] | _ => [] end) tr.


(** [err.args and isinstance(err.args[0], K)] *)
Definition first_arg_isinstance (err : pyexc) (k : exc_class) : bool :=
  match exc_args err with
  | [] => false
  | a :: _ => isinstance_obj a k
  end.

(** A failure to establish the connection, as the two libraries report
    one before anything is read: the connect timeout of [urllib3], with
    the refused or unroutable connection below it
    ([NewConnectionError]), and the connect timeout of [requests]. *)
Definition connection_level (e : pyexc) : bool :=
  isinstance e urllib3_ConnectTimeoutError
  || isinstance e requests_ConnectTimeout.

(** A read timeout on an established connection, as [requests] reports
    one: [ReadTimeout] while it waits for the response, a
    [ConnectionError] carrying the [ReadTimeoutError] of [urllib3]
    while it reads the body. *)
Definition read_timeout (e : pyexc) : bool :=
  isinstance e requests_ReadTimeout
  || isinstance e requests_ConnectionError
     && first_arg_isinstance e urllib3_ReadTimeoutError.

(** The decimal digit [d] as a character, a string of digits, and the
    number the digits spell. *)
Definition digit_char (d : nat) : ascii := ascii_of_nat (48 + d).

Definition decimal_value (ds : list nat) : Z :=
  fold_left (fun acc d => 10 * acc + Z.of_nat d) ds 0.

(** The code points [int] takes for white space around a number, and
    those a string that spells an integer is made of: white space, the
    signs, the underscore, the digits. *)
Definition white_space : list nat := [9; 10; 11; 12; 13; 32; 133; 160]%nat.

Definition integer_alphabet : list nat :=
  (white_space ++ [43; 45; 95] ++ seq 48 10)%list%nat.

(** A response with the header fields [fields] and nothing to read,
    and the value of a field that spells no integer for [int]: a number
    followed by the unit separator. *)
Definition with_headers (fields : list (string * string))
  : TrioRequestsTransportResponse :=
  {| request :=
       {| method := "GET"; url := "https://example.org/blob";
          headers := ∅; data := NoData; files := PyNone |};
     internal_response :=
       {| status_code := 200; resp_headers := fields;
          iter_content := fun _ => []; raw_stream := fun _ => [] |};
     block_size := 4096 |}.

Definition twelve_then_separator : string :=
  String "1" (String "2" (String (ascii_of_nat 31) EmptyString)).

(** ** The claims that do not hold as they are written *)

(** "A failure at the connection level, before any read, makes [send]
    fail with a [ServiceRequestError], and no response is returned." *)
Definition connection_failures_become_request_failures : Prop :=
  forall env self req kw p l c e,
    In (EvRequest p l c (Raise e))
       (trace (snd (send env self req (call_frame kw)))) ->
    connection_level e = true ->
    (exists w,
       fst (send env self req (call_frame kw)) = Raise w
       /\ isinstance w ServiceRequestError = true)
    /\ forall response,
         fst (send env self req (call_frame kw)) <> Return response.

(** "A read timeout after the connection was established makes [send]
    fail with a [ServiceResponseError]." *)
Definition read_timeouts_become_response_failures : Prop :=
  forall env self req kw p l c e,
    In (EvRequest p l c (Raise e))
       (trace (snd (send env self req (call_frame kw)))) ->
    read_timeout e = true ->
    exists w,
      fst (send env self req (call_frame kw)) = Raise w
      /\ isinstance w ServiceResponseError = true.


(** "Where only the older primitive exists, the blocking call issued is
    the one the current primitive would have been given." *)
Definition fallback_issues_the_same_call : Prop :=
  forall current legacy self req kw,
    has_to_thread current = true ->
    has_to_thread legacy = false ->
    has_run_sync_in_worker_thread legacy = true ->
    _get_request_hooks current = _get_request_hooks legacy ->
    dispatched (trace (snd (send legacy self req (call_frame kw))))
    = dispatched (trace (snd (send current self req (call_frame kw)))).

(** "A read error other than stream-consumed is logged, the connection
    is closed, and the error reaches the caller." *)
Definition read_errors_logged_closed_surfaced : Prop :=
  forall env g p e,
    let run := TrioStreamDownloadGenerator.__anext__ env
                 (TrioStreamDownloadGenerator.fresh g) in
    In (EvPull p (Raise e)) (TrioStreamDownloadGenerator.trace (snd run)) ->
    isinstance e Exception = true ->
    isinstance e _ResponseStopIteration = false ->
    isinstance e requests_StreamConsumedError = false ->
    fst run = Raise e
    /\ exists before,
         TrioStreamDownloadGenerator.trace (snd run)
         = (before ++ [EvWarning TrioStreamDownloadGenerator.unable e; EvClose])%list.

(** ** Concrete runs *)

Definition literal (s : string) : bytes := list_byte_of_string s.

(** Modelled from the spec: [_retrieve_request_data] of
    [RequestsAsyncTransportBase] ([_base_requests_async.py]) is not part
    of the sources at hand.  It "serializes the outbound body if
    needed": a body that can only be read asynchronously is read to its
    end and handed on as a synchronous iterable of its parts; any other
    body is handed on as it is. *)
Definition retrieve_request_data (request : HttpRequest) : request_data :=
  match data request with
  | AsyncIterData parts => IterData parts
  | body => body
  end.

Definition default_configuration : ConnectionConfiguration :=
  {| verify := PyBool true; timeout := PyInt 300; cert := PyNone;
     data_block_size := 4096 |}.

(** [str] on the exceptions of the runs below, which carry no
    argument, one string or one other exception:
    [BaseException.__str__] gives the empty string, the string, and
    the [str] of the exception carried. *)
Fixpoint message_of (e : pyexc) : string :=
  match e with
  | Exc _ [PyStr s] _ => s
  | Exc _ [PyError e'] _ => message_of e'
  | _ => ""
  end.

(** trio from 0.15 on, trio before 0.12.1, and the releases between
    them, which have both primitives. *)
Definition trio_current : environment :=
  {| has_to_thread := true; has_run_sync_in_worker_thread := false;
     _get_request_hooks := fun hooks => hooks;
     str := message_of |}.

Definition trio_legacy : environment :=
  {| has_to_thread := false; has_run_sync_in_worker_thread := true;
     _get_request_hooks := fun hooks => hooks;
     str := message_of |}.

Definition trio_transitional : environment :=
  {| has_to_thread := true; has_run_sync_in_worker_thread := true;
     _get_request_hooks := fun hooks => hooks;
     str := message_of |}.

Definition get_request : HttpRequest :=
  {| method := "GET"; url := "https://example.org/blob";
     headers := ∅; data := NoData; files := PyNone |}.

Definition upload_request : HttpRequest :=
  {| method := "PUT"; url := "https://example.org/blob";
     headers := ∅;
     data := AsyncIterData [literal "hello "; literal "world!"];
     files := PyNone |}.

Definition hello_response : raw_response :=
  {| status_code := 200;
     resp_headers := [("Content-Length", "12")];
     iter_content := fun _ =>
       [Yield (Some (literal "hell")); Yield (Some (literal "o wo"));
        Yield (Some (literal "rld!"))];
     raw_stream := fun _ =>
       [Yield (Some (literal "hell")); Yield (Some (literal "o wo"));
        Yield (Some (literal "rld!"))] |}.

Definition hello : TrioRequestsTransportResponse :=
  {| request := get_request; internal_response := hello_response;
     block_size := 4096 |}.

(** A session whose every call raises [e], and one whose every call
    answers [hello_response]. *)
Definition failing_transport (e : pyexc) : TrioRequestsTransport :=
  {| connection_config := default_configuration;
     session_request := fun _ _ => Raise e;
     _retrieve_request_data := retrieve_request_data |}.

Definition answering_transport : TrioRequestsTransport :=
  {| connection_config := default_configuration;
     session_request := fun _ _ => Return hello_response;
     _retrieve_request_data := retrieve_request_data |}.


Definition read_timed_out : pyexc :=
  Exc requests_ReadTimeout
    [PyError (Exc urllib3_ReadTimeoutError [PyStr "Read timed out."] None)]
    None.

Definition connection_refused : pyexc :=
  Exc requests_ConnectionError
    [PyError (Exc urllib3_MaxRetryError
                [PyStr "Max retries exceeded with url: /blob"] None)]
    None.

Definition transfer_truncated : pyexc :=
  Exc requests_ChunkedEncodingError
    [PyError (Exc urllib3_ProtocolError
                [PyStr "Connection broken: IncompleteRead"] None)]
    None.

(** A connect timeout as [urllib3] raises it, and a read timeout on
    the body as [requests] reports it. *)
Definition connect_timed_out : pyexc :=
  Exc urllib3_ConnectTimeoutError
    [PyStr "Connection to example.org timed out. (connect timeout=300)"] None.

Definition body_read_timed_out : pyexc :=
  Exc requests_ConnectionError
    [PyError (Exc urllib3_ReadTimeoutError [PyStr "Read timed out."] None)]
    None.

Definition stream_consumed : pyexc :=
  Exc requests_StreamConsumedError [] None.

Definition no_read_attribute : pyexc :=
  Exc AttributeError [PyStr "'NoneType' object has no attribute 'read'"] None.

(** A generator over [hello] whose iterator is [it]. *)
Definition generator_over (it : list pull) : TrioStreamDownloadGenerator.t :=
  {| TrioStreamDownloadGenerator.pipeline := PyNone;
     TrioStreamDownloadGenerator.request := get_request;
     TrioStreamDownloadGenerator.response := hello;
     TrioStreamDownloadGenerator.block_size := 4096;
     TrioStreamDownloadGenerator.iter_content_func := it;
     TrioStreamDownloadGenerator.content_length := 12 |}.

(** ** Vocabulary for the further properties of the transport *)

(** The keyword options [partial_request] takes out of [kwargs]. *)
Definition connection_options : list string :=
  ["connection_verify"; "connection_timeout"; "connection_cert"; "hooks"].

(** The dispatch primitive a first dispatch goes through. *)
Definition first_primitive (env : environment) : primitive :=
  if has_to_thread env then to_thread_run_sync else run_sync_in_worker_thread.

(** The iterator that gives the chunks [chunks] and then ends. *)
Definition yielding (chunks : list bytes) : list pull :=
  map (fun chunk => Yield (Some chunk)) chunks.

(** A connection that broke while the request was under way. *)
Definition connection_aborted : pyexc :=
  Exc requests_ConnectionError
    [PyError (Exc urllib3_ProtocolError [PyStr "Connection aborted."] None)]
    None.

(** The cancellation of the calling task, which is no [Exception]. *)
Definition cancelled : pyexc := Exc (OtherBaseException "Cancelled") [] None.

(** A module [trio] with neither dispatch primitive. *)
Definition trio_without_primitives : environment :=
  {| has_to_thread := false; has_run_sync_in_worker_thread := false;
     _get_request_hooks := fun hooks => hooks;
     str := message_of |}.

(** The keywords of [named_keywords] that [partial_request] does not
    take out of [kwargs] itself. *)
Definition reserved_keywords : list string :=
  ["headers"; "data"; "files"; "verify"; "timeout"; "cert"; "allow_redirects"].

(** ** The models of [azure.mgmt.hanaonazure]

    [models/_models_py3.py]: each class with its [_validation] and
    [_attribute_map] tables and its [__init__].  An object is the
    dictionary of its attributes.  [msrest.serialization.Model] is not
    among the sources: what its [__init__] sets from the keyword
    arguments it is handed, for an instance of a given class, is taken
    as it comes. *)

Module Models.

Inductive model_class : Type :=
  | Resource
  | AzureEntityResource
  | CloudError
  | Display
  | ErrorResponse
  | ErrorResponseError
  | Operation
  | ProxyResource
  | ProviderInstance
  | TrackedResource
  | SapMonitor
  | Tags.

Inductive rule : Type :=
  | readonly
  | required.

(** [_validation]: attribute, rule (the rule's value is [True]
    throughout).  A class without a table of its own has the empty one
    of [Model]. *)
Definition _validation (c : model_class) : list (string * rule) :=
  match c with
  | Resource =>
      [("id", readonly); ("name", readonly); ("type", readonly)]
  | AzureEntityResource =>
      [("id", readonly); ("name", readonly); ("type", readonly);
       ("etag", readonly)]
  | CloudError => []
  | Display =>
      [("provider", readonly); ("resource", readonly);
       ("operation", readonly); ("description", readonly);
       ("origin", readonly)]
  | ErrorResponse => []
  | ErrorResponseError => [("code", readonly); ("message", readonly)]
  | Operation => [("name", readonly)]
  | ProxyResource =>
      [("id", readonly); ("name", readonly); ("type", readonly)]
  | ProviderInstance =>
      [("id", readonly); ("name", readonly); ("type", readonly);
       ("provisioning_state", readonly)]
  | TrackedResource =>
      [("id", readonly); ("name", readonly); ("type", readonly);
       ("location", required)]
  | SapMonitor =>
      [("id", readonly); ("name", readonly); ("type", readonly);
       ("location", required); ("provisioning_state", readonly);
       ("managed_resource_group_name", readonly);
       ("sap_monitor_collector_version", readonly)]
  | Tags => []
  end.

(** [_attribute_map]: attribute, key on the wire, type. *)
Definition _attribute_map (c : model_class) : list (string * (string * string)) :=
  match c with
  | Resource =>
      [("id", ("id", "str")); ("name", ("name", "str"));
       ("type", ("type", "str"))]
  | AzureEntityResource =>
      [("id", ("id", "str")); ("name", ("name", "str"));
       ("type", ("type", "str")); ("etag", ("etag", "str"))]
  | CloudError => []
  | Display =>
      [("provider", ("provider", "str")); ("resource", ("resource", "str"));
       ("operation", ("operation", "str"));
       ("description", ("description", "str"));
       ("origin", ("origin", "str"))]
  | ErrorResponse => [("error", ("error", "ErrorResponseError"))]
  | ErrorResponseError =>
      [("code", ("code", "str")); ("message", ("message", "str"))]
  | Operation =>
      [("name", ("name", "str")); ("display", ("display", "Display"))]
  | ProxyResource =>
      [("id", ("id", "str")); ("name", ("name", "str"));
       ("type", ("type", "str"))]
  | ProviderInstance =>
      [("id", ("id", "str")); ("name", ("name", "str"));
       ("type", ("type", "str"));
       ("provider_instance_type", ("properties.type", "str"));
       ("properties", ("properties.properties", "str"));
       ("metadata", ("properties.metadata", "str"));
       ("provisioning_state", ("properties.provisioningState", "str"))]
  | TrackedResource =>
      [("id", ("id", "str")); ("name", ("name", "str"));
       ("type", ("type", "str")); ("tags", ("tags", "{str}"));
       ("location", ("location", "str"))]
  | SapMonitor =>
      [("id", ("id", "str")); ("name", ("name", "str"));
       ("type", ("type", "str")); ("tags", ("tags", "{str}"));
       ("location", ("location", "str"));
       ("provisioning_state", ("properties.provisioningState", "str"));
       ("managed_resource_group_name",
        ("properties.managedResourceGroupName", "str"));
       ("log_analytics_workspace_arm_id",
        ("properties.logAnalyticsWorkspaceArmId", "str"));
       ("enable_customer_analytics",
        ("properties.enableCustomerAnalytics", "bool"));
       ("log_analytics_workspace_id",
        ("properties.logAnalyticsWorkspaceId", "str"));
       ("log_analytics_workspace_shared_key",
        ("properties.logAnalyticsWorkspaceSharedKey", "str"));
       ("sap_monitor_collector_version",
        ("properties.sapMonitorCollectorVersion", "str"));
       ("monitor_subnet", ("properties.monitorSubnet", "str"))]
  | Tags => [("tags", ("tags", "{str}"))]
  end.

(** A call that leaves out a keyword-only argument without default
    (the message as CPython words it up to 3.9; later versions put the
    name of the class in front). *)
Definition missing_keyword (name : string) : pyexc :=
  Exc TypeError
    [PyStr ("__init__() missing 1 required keyword-only argument: '"
            ++ name ++ "'")] None.

(** The value of a keyword argument with default [None]. *)
Definition keyword (kwargs : gmap string pyobj) (name : string) : pyobj :=
  default PyNone (kwargs !! name).

(** [**kwargs] of a signature: the keyword arguments it does not name. *)
Definition others (named : list string) (kwargs : gmap string pyobj)
  : gmap string pyobj :=
  foldr delete kwargs named.

Section Init.
(** [Model.__init__(self, **kwargs)] for an instance of class [cls]:
    the attributes it leaves on the object. *)
Variable Model___init__ : model_class -> gmap string pyobj -> gmap string pyobj.
(** The class of the object under construction. *)
Variable cls : model_class.

(** [Resource.__init__(self, **kwargs)] *)
Definition Resource___init__ (kwargs : gmap string pyobj)
  : result (gmap string pyobj) :=
  let self := Model___init__ cls kwargs in
  let self := <["id" := PyNone]> self in
  let self := <["name" := PyNone]> self in
  let self := <["type" := PyNone]> self in
  Return self.

(** [AzureEntityResource.__init__(self, **kwargs)] *)
Definition AzureEntityResource___init__ (kwargs : gmap string pyobj)
  : result (gmap string pyobj) :=
  match Resource___init__ kwargs with
  | Raise e => Raise e
  | Return self => Return (<["etag" := PyNone]> self)
  end.

(** [CloudError] has no [__init__] of its own. *)
Definition CloudError___init__ (kwargs : gmap string pyobj)
  : result (gmap string pyobj) :=
  Return (Model___init__ cls kwargs).

(** [Display.__init__(self, **kwargs)] *)
Definition Display___init__ (kwargs : gmap string pyobj)
  : result (gmap string pyobj) :=
  let self := Model___init__ cls kwargs in
  let self := <["provider" := PyNone]> self in
  let self := <["resource" := PyNone]> self in
  let self := <["operation" := PyNone]> self in
  let self := <["description" := PyNone]> self in
  let self := <["origin" := PyNone]> self in
  Return self.

(** [ErrorResponse.__init__(self, *, error=None, **kwargs)] *)
Definition ErrorResponse___init__ (kwargs : gmap string pyobj)
  : result (gmap string pyobj) :=
  let error := keyword kwargs "error" in
  let kwargs := others ["error"] kwargs in
  let self := Model___init__ cls kwargs in
  Return (<["error" := error]> self).

(** [ErrorResponseError.__init__(self, **kwargs)] *)
Definition ErrorResponseError___init__ (kwargs : gmap string pyobj)
  : result (gmap string pyobj) :=
  let self := Model___init__ cls kwargs in
  let self := <["code" := PyNone]> self in
  let self := <["message" := PyNone]> self in
  Return self.

(** [Operation.__init__(self, *, display=None, **kwargs)] *)
Definition Operation___init__ (kwargs : gmap string pyobj)
  : result (gmap string pyobj) :=
  let display := keyword kwargs "display" in
  let kwargs := others ["display"] kwargs in
  let self := Model___init__ cls kwargs in
  let self := <["name" := PyNone]> self in
  let self := <["display" := display]> self in
  Return self.

(** [ProxyResource.__init__(self, **kwargs)] *)
Definition ProxyResource___init__ (kwargs : gmap string pyobj)
  : result (gmap string pyobj) :=
  Resource___init__ kwargs.

(** [ProviderInstance.__init__(self, *, provider_instance_type=None,
    properties=None, metadata=None, **kwargs)] *)
Definition ProviderInstance___init__ (kwargs : gmap string pyobj)
  : result (gmap string pyobj) :=
  let provider_instance_type := keyword kwargs "provider_instance_type" in
  let properties := keyword kwargs "properties" in
  let metadata := keyword kwargs "metadata" in
  let kwargs :=
    others ["provider_instance_type"; "properties"; "metadata"] kwargs in
  match ProxyResource___init__ kwargs with
  | Raise e => Raise e
  | Return self =>
      let self := <["provider_instance_type" := provider_instance_type]> self in
      let self := <["properties" := properties]> self in
      let self := <["metadata" := metadata]> self in
      let self := <["provisioning_state" := PyNone]> self in
      Return self
  end.

(** [TrackedResource.__init__(self, *, location, tags=None, **kwargs)] *)
Definition TrackedResource___init__ (kwargs : gmap string pyobj)
  : result (gmap string pyobj) :=
  match kwargs !! "location" with
  | None => Raise (missing_keyword "location")
  | Some location =>
      let tags := keyword kwargs "tags" in
      let kwargs := others ["location"; "tags"] kwargs in
      match Resource___init__ kwargs with
      | Raise e => Raise e
      | Return self =>
          let self := <["tags" := tags]> self in
          let self := <["location" := location]> self in
          Return self
      end
  end.

(** [SapMonitor.__init__(self, *, location, tags=None,
    log_analytics_workspace_arm_id=None, enable_customer_analytics=None,
    log_analytics_workspace_id=None,
    log_analytics_workspace_shared_key=None, monitor_subnet=None,
    **kwargs)], which hands [tags] and [location] on by keyword. *)
Definition SapMonitor___init__ (kwargs : gmap string pyobj)
  : result (gmap string pyobj) :=
  match kwargs !! "location" with
  | None => Raise (missing_keyword "location")
  | Some location =>
      let tags := keyword kwargs "tags" in
      let log_analytics_workspace_arm_id :=
        keyword kwargs "log_analytics_workspace_arm_id" in
      let enable_customer_analytics :=
        keyword kwargs "enable_customer_analytics" in
      let log_analytics_workspace_id :=
        keyword kwargs "log_analytics_workspace_id" in
      let log_analytics_workspace_shared_key :=
        keyword kwargs "log_analytics_workspace_shared_key" in
      let monitor_subnet := keyword kwargs "monitor_subnet" in
      let kwargs :=
        others ["location"; "tags"; "log_analytics_workspace_arm_id";
                "enable_customer_analytics"; "log_analytics_workspace_id";
                "log_analytics_workspace_shared_key"; "monitor_subnet"]
          kwargs in
      match TrackedResource___init__
              (<["tags" := tags]> (<["location" := location]> kwargs)) with
      | Raise e => Raise e
      | Return self =>
          let self := <["provisioning_state" := PyNone]> self in
          let self := <["managed_resource_group_name" := PyNone]> self in
          let self :=
            <["log_analytics_workspace_arm_id" :=
                log_analytics_workspace_arm_id]> self in
          let self :=
            <["enable_customer_analytics" := enable_customer_analytics]> self in
          let self :=
            <["log_analytics_workspace_id" := log_analytics_workspace_id]> self in
          let self :=
            <["log_analytics_workspace_shared_key" :=
                log_analytics_workspace_shared_key]> self in
          let self := <["sap_monitor_collector_version" := PyNone]> self in
          let self := <["monitor_subnet" := monitor_subnet]> self in
          Return self
      end
  end.

(** [Tags.__init__(self, *, tags=None, **kwargs)] *)
Definition Tags___init__ (kwargs : gmap string pyobj)
  : result (gmap string pyobj) :=
  let tags := keyword kwargs "tags" in
  let kwargs := others ["tags"] kwargs in
  let self := Model___init__ cls kwargs in
  Return (<["tags" := tags]> self).

End Init.

(** Calling the class with keyword arguments: the object the class's
    own [__init__] builds. *)
Definition construct
    (Model___init__ : model_class -> gmap string pyobj -> gmap string pyobj)
    (cls : model_class) (kwargs : gmap string pyobj)
  : result (gmap string pyobj) :=
  match cls with
  | Resource => Resource___init__ Model___init__ cls kwargs
  | AzureEntityResource => AzureEntityResource___init__ Model___init__ cls kwargs
  | CloudError => CloudError___init__ Model___init__ cls kwargs
  | Display => Display___init__ Model___init__ cls kwargs
  | ErrorResponse => ErrorResponse___init__ Model___init__ cls kwargs
  | ErrorResponseError => ErrorResponseError___init__ Model___init__ cls kwargs
  | Operation => Operation___init__ Model___init__ cls kwargs
  | ProxyResource => ProxyResource___init__ Model___init__ cls kwargs
  | ProviderInstance => ProviderInstance___init__ Model___init__ cls kwargs
  | TrackedResource => TrackedResource___init__ Model___init__ cls kwargs
  | SapMonitor => SapMonitor___init__ Model___init__ cls kwargs
  | Tags => Tags___init__ Model___init__ cls kwargs
  end.

(** The attributes a class declares in [_attribute_map], and those
    among them that [_validation] marks with a rule. *)
Definition attributes (c : model_class) : list string :=
  map fst (_attribute_map c).

Definition marked (r : rule) (c : model_class) (a : string) : Prop :=
  In (a, r) (_validation c).

(** A [Model.__init__] that sets nothing, and one that sets every
    keyword it is handed. *)
Definition sets_nothing (_ : model_class) (_ : gmap string pyobj)
  : gmap string pyobj := ∅.

Definition sets_everything (_ : model_class) (kwargs : gmap string pyobj)
  : gmap string pyobj := kwargs.

End Models.

(** The object a construction gives, the empty one where it raises. *)
Definition built (r : result (gmap string pyobj)) : gmap string pyobj :=
  match r with
  | Return self => self
  | Raise _ => ∅
  end.

Definition provider_instance_arguments : gmap string pyobj :=
  {[ "id" := PyStr "/subscriptions/0"; "metadata" := PyStr "{}" ]}.

Definition sap_monitor_arguments : gmap string pyobj :=
  {[ "location" := PyStr "westus2"; "enable_customer_analytics" := PyBool true;
     "provisioning_state" := PyStr "Succeeded" ]}.

(** ** The aggregated-cost operations of [azure.mgmt.consumption]

    [aio/operations/_aggregated_cost_operations.py].  The client, its
    pipeline, the serializer, the deserializer and [map_error] are not
    among the sources: what each of them gives for the arguments it is
    handed is taken as it comes, and the calls that reach the client,
    the pipeline, [map_error], the deserializer and the [cls] callback
    are written to a trace. *)

Module AggregatedCostOperations.

(** The exception classes an [error_map] maps status codes to. *)
Inductive error_type : Type :=
  | ClientAuthenticationError
  | ResourceNotFoundError
  | ResourceExistsError
  | OtherError (name : string).

(** The values a keyword option can have: [None], a boolean, an
    integer, a string, a function, or a dictionary from status codes to
    exception classes. *)
Inductive value : Type :=
  | VNone
  | VBool (b : bool)
  | VInt (z : Z)
  | VStr (s : string)
  | VCallable (f : nat)
  | VDict (m : gmap Z error_type).

(** An HTTP response and the pipeline response around it; objects the
    operations only hand on are named by their identity. *)
Record HttpResponse : Type := {
  status_code : Z;
  response_id : nat
}.

Record PipelineResponse : Type := {
  http_response : HttpResponse;
  pipeline_response_id : nat
}.

(** What [self._deserialize] is asked to build, and from what. *)
Inductive target : Type :=
  | model_class (name : string)
  | model_name (name : string).

Inductive call : Type :=
  | Get (url : string) (query_parameters header_parameters : gmap string string)
  | Run (request : nat) (stream : bool) (kwargs : gmap string value)
  | MapError (status : Z) (response : HttpResponse)
      (error_map : gmap Z error_type)
  | Deserialize (t : target) (data : HttpResponse + PipelineResponse)
  | Cls (f : nat) (pipeline_response : PipelineResponse) (deserialized : nat).

Record collaborators : Type := {
  (* self._serialize.url / .query / .header (name, data, data_type) *)
  serialize_url : string -> string -> string -> result string;
  serialize_query : string -> string -> string -> result string;
  serialize_header : string -> string -> string -> result string;
  (* self._client.format_url(url, path arguments) *)
  format_url : string -> gmap string string -> result string;
  (* self._client.get(url, query_parameters, header_parameters) *)
  client_get : string -> gmap string string -> gmap string string -> result nat;
  (* self._client._pipeline.run(request, stream=..., keyword options) *)
  pipeline_run : nat -> bool -> gmap string value -> result PipelineResponse;
  (* map_error(status_code=..., response=..., error_map=...) *)
  map_error : Z -> HttpResponse -> gmap Z error_type -> result unit;
  (* self._deserialize(target, data) *)
  deserialize : target -> HttpResponse + PipelineResponse -> result nat;
  (* a callable called with (pipeline_response, deserialized, {}) *)
  apply_callable : nat -> PipelineResponse -> nat -> result nat
}.

(** A step without a trace, and a call written to the trace. *)
Definition lift {A} (r : result A) : M (list call) A := fun tr => (r, tr).

Definition perform {A} (c : call) (r : result A) : M (list call) A :=
  fun tr => (r, (tr ++ [c])%list).

(** Truth value of a keyword option, as [if cls:] takes it. *)
Definition truthy_value (v : value) : bool :=
  match v with
  | VNone => false
  | VBool b => b
  | VInt z => negb (z =? 0)
  | VStr s => negb (bool_decide (s = ""))
  | VCallable _ => true
  | VDict m => negb (bool_decide (m = ∅))
  end.

(** [error_map.update(other)]: the entries of a dictionary replace
    those of the same key; an empty string has no entries to give; a
    longer string has characters where pairs are due; anything else is
    not iterable. *)
Definition update (error_map : gmap Z error_type) (other : value)
  : result (gmap Z error_type) :=
  match other with
  | VDict m => Return (m ∪ error_map)
  | VStr s =>
      if bool_decide (s = "") then Return error_map
      else Raise (Exc ValueError
                    [PyStr "dictionary update sequence element #0 has length 1; 2 is required"]
                    None)
  | _ => Raise (Exc TypeError [PyStr "object is not iterable"] None)
  end.

(** Calling what is no function, and repeating the keyword [stream]. *)
Definition not_callable : pyexc :=
  Exc TypeError [PyStr "object is not callable"] None.

Definition stream_repeated : pyexc :=
  Exc TypeError [PyStr "got multiple values for keyword argument 'stream'"] None.

(** [cls(pipeline_response, deserialized, {})] *)
Definition call_cls (svc : collaborators) (cls : value)
    (pipeline_response : PipelineResponse) (deserialized : nat)
  : M (list call) nat :=
  match cls with
  | VCallable f =>
      perform (Cls f pipeline_response deserialized)
        (apply_callable svc f pipeline_response deserialized)
  | _ => raise not_callable
  end.

(** [HttpResponseError(response=response, model=error,
    error_format=ARMErrorFormat)]; the response and the model are kept
    as its arguments. *)
Definition http_response_error (response : HttpResponse) (model : nat) : pyexc :=
  Exc HttpResponseError
    [PyInt (status_code response); PyRef (response_id response); PyRef model]
    None.

(** [self._client._pipeline.run(request, stream=False, keyword options)]:
    a [stream] among the keyword options repeats a keyword of the call. *)
Definition run_pipeline (svc : collaborators) (request : nat)
    (kwargs : gmap string value) : M (list call) PipelineResponse :=
  match kwargs !! "stream" with
  | Some _ => raise stream_repeated
  | None => perform (Run request false kwargs) (pipeline_run svc request false kwargs)
  end.

Definition default_error_map : gmap Z error_type :=
  {[ 401 := ClientAuthenticationError; 404 := ResourceNotFoundError;
     409 := ResourceExistsError ]}.

(** Lines 93-96 and 152-155: a status other than 200. *)
Definition check_status (svc : collaborators) (response : HttpResponse)
    (error_map : gmap Z error_type) : M (list call) unit :=
  if negb (bool_decide (In (status_code response) [200])) then
    perform (MapError (status_code response) response error_map)
      (map_error svc (status_code response) response error_map) ;;;
    error <~ perform (Deserialize (model_class "ErrorResponse") (inl response))
               (deserialize svc (model_class "ErrorResponse") (inl response)) ;;
    raise (http_response_error response error)
  else ret tt.

Definition get_by_management_group_url : string :=
  "/providers/Microsoft.Management/managementGroups/{managementGroupId}/providers/Microsoft.Consumption/aggregatedcost".

Definition get_for_billing_period_by_management_group_url : string :=
  "/providers/Microsoft.Management/managementGroups/{managementGroupId}/providers/Microsoft.Billing/billingPeriods/{billingPeriodName}/Microsoft.Consumption/aggregatedcost".

(** [get_by_management_group(self, management_group_id, filter=None,
    keyword options)], lines 43-103. *)
Definition get_by_management_group (svc : collaborators)
    (management_group_id : string) (filter : option string)
    (kwargs : gmap string value) : M (list call) nat :=
  let cls := default VNone (kwargs !! "cls") in
  let kwargs := delete "cls" kwargs in
  let error_map := default_error_map in
  let other := default (VDict ∅) (kwargs !! "error_map") in
  let kwargs := delete "error_map" kwargs in
  error_map <~ lift (update error_map other) ;;
  let api_version := "2019-10-01" in
  let accept := "application/json" in
  (* Construct URL *)
  let url := get_by_management_group_url in
  id <~ lift (serialize_url svc "management_group_id" management_group_id "str") ;;
  let path_format_arguments : gmap string string :=
    {[ "managementGroupId" := id ]} in
  url <~ lift (format_url svc url path_format_arguments) ;;
  (* Construct parameters *)
  let query_parameters : gmap string string := ∅ in
  v <~ lift (serialize_query svc "api_version" api_version "str") ;;
  let query_parameters := <["api-version" := v]> query_parameters in
  query_parameters <~
    match filter with
    | Some f =>
        v <~ lift (serialize_query svc "filter" f "str") ;;
        ret (<["$filter" := v]> query_parameters)
    | None => ret query_parameters
    end ;;
  (* Construct headers *)
  let header_parameters : gmap string string := ∅ in
  v <~ lift (serialize_header svc "accept" accept "str") ;;
  let header_parameters := <["Accept" := v]> header_parameters in
  request <~ perform (Get url query_parameters header_parameters)
               (client_get svc url query_parameters header_parameters) ;;
  pipeline_response <~ run_pipeline svc request kwargs ;;
  let response := http_response pipeline_response in
  check_status svc response error_map ;;;
  deserialized <~
    perform (Deserialize (model_name "ManagementGroupAggregatedCostResult")
               (inr pipeline_response))
      (deserialize svc (model_name "ManagementGroupAggregatedCostResult")
         (inr pipeline_response)) ;;
  if truthy_value cls then call_cls svc cls pipeline_response deserialized
  else ret deserialized.

(** [get_for_billing_period_by_management_group(self,
    management_group_id, billing_period_name, keyword options)],
    lines 106-162. *)
Definition get_for_billing_period_by_management_group (svc : collaborators)
    (management_group_id : string) (billing_period_name : string)
    (kwargs : gmap string value) : M (list call) nat :=
  let cls := default VNone (kwargs !! "cls") in
  let kwargs := delete "cls" kwargs in
  let error_map := default_error_map in
  let other := default (VDict ∅) (kwargs !! "error_map") in
  let kwargs := delete "error_map" kwargs in
  error_map <~ lift (update error_map other) ;;
  let api_version := "2019-10-01" in
  let accept := "application/json" in
  (* Construct URL *)
  let url := get_for_billing_period_by_management_group_url in
  id <~ lift (serialize_url svc "management_group_id" management_group_id "str") ;;
  period <~ lift (serialize_url svc "billing_period_name" billing_period_name
                    "str") ;;
  let path_format_arguments : gmap string string :=
    {[ "managementGroupId" := id; "billingPeriodName" := period ]} in
  url <~ lift (format_url svc url path_format_arguments) ;;
  (* Construct parameters *)
  let query_parameters : gmap string string := ∅ in
  v <~ lift (serialize_query svc "api_version" api_version "str") ;;
  let query_parameters := <["api-version" := v]> query_parameters in
  (* Construct headers *)
  let header_parameters : gmap string string := ∅ in
  v <~ lift (serialize_header svc "accept" accept "str") ;;
  let header_parameters := <["Accept" := v]> header_parameters in
  request <~ perform (Get url query_parameters header_parameters)
               (client_get svc url query_parameters header_parameters) ;;
  pipeline_response <~ run_pipeline svc request kwargs ;;
  let response := http_response pipeline_response in
  check_status svc response error_map ;;;
  deserialized <~
    perform (Deserialize (model_name "ManagementGroupAggregatedCostResult")
               (inr pipeline_response))
      (deserialize svc (model_name "ManagementGroupAggregatedCostResult")
         (inr pipeline_response)) ;;
  if truthy_value cls then call_cls svc cls pipeline_response deserialized
  else ret deserialized.

(** Either operation, by its arguments after the management group. *)
Inductive operation : Type :=
  | by_management_group (filter : option string)
  | for_billing_period (billing_period_name : string).

Definition invoke (svc : collaborators) (op : operation)
    (management_group_id : string) (kwargs : gmap string value)
  : M (list call) nat :=
  match op with
  | by_management_group filter =>
      get_by_management_group svc management_group_id filter kwargs
  | for_billing_period billing_period_name =>
      get_for_billing_period_by_management_group svc management_group_id
        billing_period_name kwargs
  end.

(** What the keyword options hand to the pipeline. *)
Definition forwarded (kwargs : gmap string value) : gmap string value :=
  delete "error_map" (delete "cls" kwargs).

(** *** What an operation amounts to

    The URL, the query parameters and the headers an operation
    prepares (lines 72-87 and 132-146). *)
Definition prepared (svc : collaborators) (op : operation)
    (management_group_id : string)
  : result (string * gmap string string * gmap string string) :=
  match op with
  | by_management_group filter =>
      match serialize_url svc "management_group_id" management_group_id "str" with
      | Raise e => Raise e
      | Return id =>
      match format_url svc get_by_management_group_url
              {[ "managementGroupId" := id ]} with
      | Raise e => Raise e
      | Return url =>
      match serialize_query svc "api_version" "2019-10-01" "str" with
      | Raise e => Raise e
      | Return version =>
      match
        match filter with
        | Some f =>
            match serialize_query svc "filter" f "str" with
            | Raise e => Raise e
            | Return v => Return (<["$filter" := v]> {[ "api-version" := version ]})
            end
        | None => Return {[ "api-version" := version ]}
        end
      with
      | Raise e => Raise e
      | Return query =>
      match serialize_header svc "accept" "application/json" "str" with
      | Raise e => Raise e
      | Return accept => Return (url, query, {[ "Accept" := accept ]})
      end end end end end
  | for_billing_period billing_period_name =>
      match serialize_url svc "management_group_id" management_group_id "str" with
      | Raise e => Raise e
      | Return id =>
      match serialize_url svc "billing_period_name" billing_period_name "str" with
      | Raise e => Raise e
      | Return period =>
      match format_url svc get_for_billing_period_by_management_group_url
              {[ "managementGroupId" := id; "billingPeriodName" := period ]} with
      | Raise e => Raise e
      | Return url =>
      match serialize_query svc "api_version" "2019-10-01" "str" with
      | Raise e => Raise e
      | Return version =>
      match serialize_header svc "accept" "application/json" "str" with
      | Raise e => Raise e
      | Return accept =>
          Return (url, {[ "api-version" := version ]}, {[ "Accept" := accept ]})
      end end end end end
  end.

(** The result and the calls that follow once the pipeline answered. *)
Definition answered (svc : collaborators) (cls : value)
    (error_map : gmap Z error_type) (pr : PipelineResponse)
  : result nat * list call :=
  let response := http_response pr in
  if bool_decide (status_code response = 200) then
    let wanted := model_name "ManagementGroupAggregatedCostResult" in
    match deserialize svc wanted (inr pr) with
    | Raise e => (Raise e, [Deserialize wanted (inr pr)])
    | Return d =>
        if truthy_value cls then
          match cls with
          | VCallable f =>
              (apply_callable svc f pr d,
               [Deserialize wanted (inr pr); Cls f pr d])
          | _ => (Raise not_callable, [Deserialize wanted (inr pr)])
          end
        else (Return d, [Deserialize wanted (inr pr)])
    end
  else
    let mapped := MapError (status_code response) response error_map in
    let wanted := model_class "ErrorResponse" in
    match map_error svc (status_code response) response error_map with
    | Raise e => (Raise e, [mapped])
    | Return _ =>
        match deserialize svc wanted (inl response) with
        | Raise e => (Raise e, [mapped; Deserialize wanted (inl response)])
        | Return model =>
            (Raise (http_response_error response model),
             [mapped; Deserialize wanted (inl response)])
        end
    end.

(** The result and the calls of a whole operation. *)
Definition amounts_to (svc : collaborators) (op : operation)
    (management_group_id : string) (kwargs : gmap string value)
  : result nat * list call :=
  match update default_error_map (default (VDict ∅) (kwargs !! "error_map")) with
  | Raise e => (Raise e, [])
  | Return error_map =>
  match prepared svc op management_group_id with
  | Raise e => (Raise e, [])
  | Return (url, query, headers) =>
  match client_get svc url query headers with
  | Raise e => (Raise e, [Get url query headers])
  | Return request =>
  match forwarded kwargs !! "stream" with
  | Some _ => (Raise stream_repeated, [Get url query headers])
  | None =>
  match pipeline_run svc request false (forwarded kwargs) with
  | Raise e =>
      (Raise e, [Get url query headers; Run request false (forwarded kwargs)])
  | Return pr =>
      let '(r, calls) :=
        answered svc (default VNone (kwargs !! "cls")) error_map pr in
      (r, Get url query headers :: Run request false (forwarded kwargs) :: calls)
  end end end end end.

(** A service that answers every request with the status [status]:
    serializers that hand strings on, a client and a pipeline that
    never fail, a [map_error] that raises nothing, a deserializer that
    gives object 7, callables that give object 9. *)
Definition answering (status : Z) : collaborators :=
  {| serialize_url := fun _ data _ => Return data;
     serialize_query := fun _ data _ => Return data;
     serialize_header := fun _ data _ => Return data;
     format_url := fun url _ => Return url;
     client_get := fun _ _ _ => Return 1%nat;
     pipeline_run := fun _ _ _ =>
       Return {| http_response := {| status_code := status; response_id := 2 |};
                 pipeline_response_id := 3 |};
     map_error := fun _ _ _ => Return tt;
     deserialize := fun _ _ => Return 7%nat;
     apply_callable := fun _ _ _ => Return 9%nat |}.

End AggregatedCostOperations.

Module Ops := AggregatedCostOperations.

(** * Proofs *)

(** ** The class table *)

(** Five steps up the table reach every ancestor: more fuel changes
    nothing. *)
Lemma issubclass_fuel_enough n c k :
  issubclass_upto (5 + n) c k = issubclass_upto 5 c k.
Proof. destruct c; destruct n; reflexivity. Qed.

Lemma missing_attribute_caught name :
  isinstance (missing_attribute name) AttributeError = true.
Proof. reflexivity. Qed.

Lemma missing_attribute_untranslated env name :
  translate env (missing_attribute name) = None.
Proof. reflexivity. Qed.

(** Instances of the classes the handlers name are told apart by the
    table alone: none of them is an [AttributeError], and the order of
    the clauses never decides between two of them. *)
Lemma read_timeout_translated env e :
  isinstance e requests_ReadTimeout = true ->
  translate env e = Some (wrap env ServiceResponseError e)
  /\ isinstance e AttributeError = false.
Proof.
  destruct e as [c a i]. unfold translate, isinstance. cbn [exc_type].
  intros H. destruct c; try discriminate H; split; reflexivity.
Qed.

Lemma connect_failure_translated env e :
  isinstance e urllib3_NewConnectionError = true
  \/ (isinstance e requests_ConnectionError = true
      /\ first_arg_is_protocol_error e = false) ->
  translate env e = Some (wrap env ServiceRequestError e)
  /\ isinstance e AttributeError = false.
Proof.
  destruct e as [c a i]. unfold translate, isinstance. cbn [exc_type].
  intros [H | [H Hp]].
  - destruct c; try discriminate H; split; reflexivity.
  - rewrite Hp. destruct c; try discriminate H; split; reflexivity.
Qed.

Lemma chunked_encoding_translated env e :
  isinstance e requests_ChunkedEncodingError = true ->
  translate env e = Some (wrap env IncompleteReadError e)
  /\ isinstance e AttributeError = false.
Proof.
  destruct e as [c a i]. unfold translate, isinstance. cbn [exc_type].
  intros H. destruct c; try discriminate H; split; reflexivity.
Qed.


(** ** The runs of [send] *)

Lemma partial_request_run env self req body s :
  partial_request env self req body s =
  (match repeated_keyword (leftover (kwargs s)) with
   | Some k => Raise (repeated_keyword_error k)
   | None => Return (request_arguments env self req body (kwargs s))
   end, with_kwargs s (leftover (kwargs s))).
Proof.
  unfold partial_request, bind, kwargs_pop, get_state, request_arguments,
    leftover, with_kwargs.
  cbn [kwargs opened calls trace].
  destruct (repeated_keyword _); cbn.
  - reflexivity.
  - rewrite !lookup_delete_ne by done. reflexivity.
Qed.

Lemma leftover_idemp kw : leftover (leftover kw) = leftover kw.
Proof.
  unfold leftover. apply map_eq. intros i.
  rewrite !lookup_delete. repeat case_decide; reflexivity.
Qed.

Lemma leftover_keeps_limiter kw :
  leftover kw !! "trio_limiter" = kw !! "trio_limiter".
Proof. unfold leftover. rewrite !lookup_delete_ne by done. reflexivity. Qed.

Lemma primary_dispatch_run env self req body l s :
  primary_dispatch env self req body l s =
  if has_to_thread env then
    match repeated_keyword (leftover (kwargs s)) with
    | Some k =>
        (Raise (repeated_keyword_error k), with_kwargs s (leftover (kwargs s)))
    | None =>
        let c := request_arguments env self req body (kwargs s) in
        let r := session_request self (calls s) c in
        (r, {| kwargs := leftover (kwargs s); opened := opened s;
               calls := S (calls s);
               trace := trace s ++ [EvRequest to_thread_run_sync l c r] |})
    end
  else (Raise (missing_attribute "to_thread"), s).
Proof.
  unfold primary_dispatch, bind, trio_attribute.
  destruct (has_to_thread env); [|reflexivity].
  unfold ret. rewrite partial_request_run.
  destruct (repeated_keyword _); reflexivity.
Qed.

Lemma fallback_dispatch_run env self req l s :
  fallback_dispatch env self req l s =
  if has_run_sync_in_worker_thread env then
    match repeated_keyword (leftover (kwargs s)) with
    | Some k =>
        (Raise (repeated_keyword_error k), with_kwargs s (leftover (kwargs s)))
    | None =>
        let c := request_arguments env self req (data req) (kwargs s) in
        let r := session_request self (calls s) c in
        (r, {| kwargs := leftover (kwargs s); opened := opened s;
               calls := S (calls s);
               trace := trace s ++ [EvRequest run_sync_in_worker_thread l c r] |})
    end
  else (Raise (missing_attribute "run_sync_in_worker_thread"), s).
Proof.
  unfold fallback_dispatch, bind, trio_attribute.
  destruct (has_run_sync_in_worker_thread env); [|reflexivity].
  unfold ret. rewrite partial_request_run.
  destruct (repeated_keyword _); reflexivity.
Qed.

(** Every run of [send] is one of the runs of [send_run]. *)
Lemma send_runs env self req kw :
  send_run env self req kw
    (fst (send env self req (call_frame kw)))
    (trace (snd (send env self req (call_frame kw)))).
Proof.
  unfold send, bind, try_except, open, modify, kwargs_get, call_frame.
  cbn [kwargs opened calls trace fst snd].
  rewrite primary_dispatch_run. cbn [kwargs opened calls trace fst snd].
  destruct (has_to_thread env) eqn:Hp.
  - destruct (repeated_keyword (leftover kw)) as [k|] eqn:Hk.
    + cbn. apply run_repeated_keyword; [by rewrite Hp | done].
    + cbn zeta.
      destruct (session_request self 0%nat _) as [resp|e1] eqn:Hs.
      * cbn. eapply (run_primary _ _ _ _ (Return resp)); eauto.
      * destruct (isinstance e1 AttributeError) eqn:Ha.
        -- rewrite fallback_dispatch_run. cbn [kwargs opened calls trace fst snd].
           destruct (has_run_sync_in_worker_thread env) eqn:Hl.
           ++ rewrite leftover_idemp, Hk. cbn zeta.
              destruct (session_request self 1%nat _) as [resp2|e2] eqn:Hs2.
              ** cbn.
                 eapply (run_primary_then_fallback _ _ _ _ (Raise e1) _ (Return resp2));
                   eauto.
              ** cbn [fst snd].
                 pose proof (run_primary_then_fallback env self req kw (Raise e1) _
                   (Raise e2) Hp Hk (eq_sym Hs) Ha Hl eq_refl (eq_sym Hs2)) as R.
                 cbn [surfaced] in R.
                 destruct (translate env e2); cbn; exact R.
           ++ cbn. eapply (run_primary_then_nothing _ _ _ _ (Raise e1)); eauto.
        -- pose proof (run_primary env self req kw (Raise e1) Hp Hk (eq_sym Hs) Ha)
             as R.
           cbn [surfaced] in R.
           destruct (translate env e1); cbn; exact R.
  - rewrite missing_attribute_caught.
    rewrite fallback_dispatch_run. cbn [kwargs opened calls trace fst snd].
    destruct (has_run_sync_in_worker_thread env) eqn:Hl.
    + destruct (repeated_keyword (leftover kw)) as [k|] eqn:Hk.
      * cbn. apply run_repeated_keyword; [by rewrite Hp, Hl | done].
      * cbn zeta.
        destruct (session_request self 0%nat _) as [resp2|e2] eqn:Hs2.
        -- cbn. eapply (run_fallback _ _ _ _ _ (Return resp2)); eauto.
        -- pose proof (run_fallback env self req kw _ (Raise e2) Hp Hl Hk eq_refl
             (eq_sym Hs2)) as R.
           cbn [surfaced] in R.
           destruct (translate env e2); cbn; exact R.
    + cbn. by apply run_no_primitive.
Qed.

(** An exception of a blocking call that [except AttributeError] does
    not catch is the one the outer handlers see: the call was the last
    one of the run. *)
Lemma blocking_error_surfaced env self req kw p l c e :
  In (EvRequest p l c (Raise e))
     (trace (snd (send env self req (call_frame kw)))) ->
  isinstance e AttributeError = false ->
  fst (send env self req (call_frame kw)) = surfaced env self req (Raise e).
Proof.
  intros Hin Ha.
  pose proof (send_runs env self req kw) as R.
  inversion R as [ | k | r | r | r c2 r2 | c2 r2 ];
    match goal with
    | H : _ = trace _ |- _ => rewrite <- H in Hin
    end; cbn [In] in Hin.
  - contradiction.
  - contradiction.
  - destruct Hin as [Hin|[]]. injection Hin as _ _ _ Hr. rewrite Hr. reflexivity.
  - destruct Hin as [Hin|[]]. injection Hin as _ _ _ Hr.
    match goal with H : raises_AttributeError _ = true |- _ => rewrite Hr in H; cbn [raises_AttributeError] in H end.
    congruence.
  - destruct Hin as [Hin|[Hin|[]]]; injection Hin as _ _ _ Hr.
    + match goal with H : raises_AttributeError r = true |- _ => rewrite Hr in H; cbn [raises_AttributeError] in H end.
      congruence.
    + rewrite Hr. reflexivity.
  - destruct Hin as [Hin|[]]. injection Hin as _ _ _ Hr. rewrite Hr. reflexivity.
Qed.

(** ** Translation of the failures of the blocking call *)

(** A connect timeout of [urllib3] that is no [NewConnectionError] is
    named by no handler. *)
Lemma connect_timeout_untranslated env e :
  isinstance e urllib3_ConnectTimeoutError = true ->
  isinstance e urllib3_NewConnectionError = false ->
  translate env e = None /\ isinstance e AttributeError = false.
Proof.
  destruct e as [c a i]. unfold translate, isinstance. cbn [exc_type].
  intros H H'.
  destruct c; try discriminate H; try discriminate H'; split; reflexivity.
Qed.

(** A first argument that is a read timeout of [urllib3] is no
    [ProtocolError]. *)
Lemma read_timeout_is_no_protocol_error e :
  first_arg_isinstance e urllib3_ReadTimeoutError = true ->
  first_arg_is_protocol_error e = false.
Proof.
  unfold first_arg_isinstance, first_arg_is_protocol_error.
  destruct (exc_args e) as [|a args]; [discriminate|].
  destruct a as [| | | | |[c a' i]]; try discriminate.
  unfold isinstance_obj, isinstance. cbn [exc_type].
  intros H. destruct c; try discriminate H; reflexivity.
Qed.

(** What [Kind(err, error=err)] is made of. *)
Lemma wrap_spec env kind e :
  exc_type (wrap env kind e) = kind
  /\ exc_args (wrap env kind e) = [PyStr (str env e)]
  /\ inner_exception (wrap env kind e) = Some e.
Proof. repeat split. Qed.

(** C3, as amended.  When the blocking call fails at the connection
    level and reports it as a [urllib3] [NewConnectionError] or as a
    [requests] [ConnectionError] (a [ConnectTimeout], a [ProxyError]
    and an [SSLError] are such) whose first argument is not a
    [ProtocolError], [send] raises a [ServiceRequestError] whose
    message is [str] of the error and whose inner exception is the
    error, and returns no response. *)
Theorem send_connect_failure env self req kw p l c e :
  In (EvRequest p l c (Raise e))
     (trace (snd (send env self req (call_frame kw)))) ->
  isinstance e urllib3_NewConnectionError = true
  \/ (isinstance e requests_ConnectionError = true
      /\ first_arg_is_protocol_error e = false) ->
  (exists w,
     fst (send env self req (call_frame kw)) = Raise w
     /\ exc_type w = ServiceRequestError
     /\ exc_args w = [PyStr (str env e)]
     /\ inner_exception w = Some e)
  /\ forall response,
       fst (send env self req (call_frame kw)) <> Return response.
Proof.
  intros Hin He. apply (connect_failure_translated env) in He as [Ht Ha].
  rewrite (blocking_error_surfaced _ _ _ _ _ _ _ _ Hin Ha).
  cbn [surfaced]. rewrite Ht. split; [|discriminate].
  exists (wrap env ServiceRequestError e).
  split; [reflexivity | apply wrap_spec].
Qed.

Lemma send_connect_failure_witness :
  (exists w,
     fst (send trio_current (failing_transport connection_refused) get_request
            (call_frame ∅)) = Raise w
     /\ exc_type w = ServiceRequestError
     /\ exc_args w = [PyStr (str trio_current connection_refused)]
     /\ inner_exception w = Some connection_refused)
  /\ forall response,
       fst (send trio_current (failing_transport connection_refused) get_request
              (call_frame ∅)) <> Return response.
Proof.
  apply (send_connect_failure trio_current (failing_transport connection_refused)
           get_request ∅ to_thread_run_sync PyNone
           (request_arguments trio_current (failing_transport connection_refused)
              get_request NoData ∅)).
  - vm_compute. left. reflexivity.
  - right. split; reflexivity.
Defined.

(** C3, as written, fails: a connect timeout that [urllib3] raises is a
    failure at the connection level, and [send] raises it as it is,
    which is no [ServiceRequestError]. *)
Lemma connect_timeout_not_a_request_failure :
  ~ connection_failures_become_request_failures.
Proof.
  intros H.
  destruct (H trio_current (failing_transport connect_timed_out) get_request ∅
              to_thread_run_sync PyNone
              (request_arguments trio_current
                 (failing_transport connect_timed_out) get_request NoData ∅)
              connect_timed_out) as [(w & Hw & Hk) _].
  - vm_compute. left. reflexivity.
  - reflexivity.
  - vm_compute in Hw. injection Hw as <-. discriminate Hk.
Qed.

(** So it is for every connect timeout of [urllib3] that is no
    [NewConnectionError]: no handler names it. *)
Lemma connect_timeout_passes_through env self req kw p l c e :
  In (EvRequest p l c (Raise e))
     (trace (snd (send env self req (call_frame kw)))) ->
  isinstance e urllib3_ConnectTimeoutError = true ->
  isinstance e urllib3_NewConnectionError = false ->
  fst (send env self req (call_frame kw)) = Raise e.
Proof.
  intros Hin He Hn.
  destruct (connect_timeout_untranslated env e He Hn) as [Ht Ha].
  rewrite (blocking_error_surfaced _ _ _ _ _ _ _ _ Hin Ha).
  cbn [surfaced]. rewrite Ht. reflexivity.
Qed.

(** C4, as amended.  When the blocking call reports a read timeout as a
    [requests] [ReadTimeout], [send] raises a [ServiceResponseError]
    whose message is [str] of the error and whose inner exception is
    the error. *)
Theorem send_read_timeout env self req kw p l c e :
  In (EvRequest p l c (Raise e))
     (trace (snd (send env self req (call_frame kw)))) ->
  isinstance e requests_ReadTimeout = true ->
  exists w,
    fst (send env self req (call_frame kw)) = Raise w
    /\ exc_type w = ServiceResponseError
    /\ exc_args w = [PyStr (str env e)]
    /\ inner_exception w = Some e.
Proof.
  intros Hin He. apply (read_timeout_translated env) in He as [Ht Ha].
  rewrite (blocking_error_surfaced _ _ _ _ _ _ _ _ Hin Ha).
  cbn [surfaced]. rewrite Ht.
  exists (wrap env ServiceResponseError e).
  split; [reflexivity | apply wrap_spec].
Qed.

Lemma send_read_timeout_witness :
  exists w,
    fst (send trio_current (failing_transport read_timed_out) get_request
           (call_frame ∅)) = Raise w
    /\ exc_type w = ServiceResponseError
    /\ exc_args w = [PyStr (str trio_current read_timed_out)]
    /\ inner_exception w = Some read_timed_out.
Proof.
  apply (send_read_timeout trio_current (failing_transport read_timed_out)
           get_request ∅ to_thread_run_sync PyNone
           (request_arguments trio_current (failing_transport read_timed_out)
              get_request NoData ∅)).
  - vm_compute. left. reflexivity.
  - reflexivity.
Defined.

(** C4, as written, fails: a read timeout on the body reaches [send] as
    a [ConnectionError] that carries the [ReadTimeoutError], and [send]
    raises a [ServiceRequestError], which is no [ServiceResponseError]. *)
Lemma read_timeout_not_a_response_failure :
  ~ read_timeouts_become_response_failures.
Proof.
  intros H.
  destruct (H trio_current (failing_transport body_read_timed_out) get_request ∅
              to_thread_run_sync PyNone
              (request_arguments trio_current
                 (failing_transport body_read_timed_out) get_request NoData ∅)
              body_read_timed_out) as (w & Hw & Hk).
  - vm_compute. left. reflexivity.
  - reflexivity.
  - vm_compute in Hw. injection Hw as <-. discriminate Hk.
Qed.

(** So it is for every [ConnectionError] that carries a read timeout:
    the handler of connection errors looks for a [ProtocolError] only. *)
Lemma carried_read_timeout_is_a_request_failure env self req kw p l c e :
  In (EvRequest p l c (Raise e))
     (trace (snd (send env self req (call_frame kw)))) ->
  isinstance e requests_ConnectionError = true ->
  first_arg_isinstance e urllib3_ReadTimeoutError = true ->
  exists w,
    fst (send env self req (call_frame kw)) = Raise w
    /\ exc_type w = ServiceRequestError
    /\ inner_exception w = Some e.
Proof.
  intros Hin He Hr. apply read_timeout_is_no_protocol_error in Hr.
  destruct (connect_failure_translated env e (or_intror (conj He Hr)))
    as [Ht Ha].
  rewrite (blocking_error_surfaced _ _ _ _ _ _ _ _ Hin Ha).
  cbn [surfaced]. rewrite Ht.
  exists (wrap env ServiceRequestError e). repeat split.
Qed.

(** C5.  When the blocking call reports a transfer cut short, as a
    [ChunkedEncodingError], [send] raises an [IncompleteReadError]
    whose message is [str] of the error and whose inner exception is
    the error. *)
Theorem send_truncated_transfer env self req kw p l c e :
  In (EvRequest p l c (Raise e))
     (trace (snd (send env self req (call_frame kw)))) ->
  isinstance e requests_ChunkedEncodingError = true ->
  exists w,
    fst (send env self req (call_frame kw)) = Raise w
    /\ exc_type w = IncompleteReadError
    /\ exc_args w = [PyStr (str env e)]
    /\ inner_exception w = Some e.
Proof.
  intros Hin He. apply (chunked_encoding_translated env) in He as [Ht Ha].
  rewrite (blocking_error_surfaced _ _ _ _ _ _ _ _ Hin Ha).
  cbn [surfaced]. rewrite Ht.
  exists (wrap env IncompleteReadError e).
  split; [reflexivity | apply wrap_spec].
Qed.

Lemma send_truncated_transfer_witness :
  exists w,
    fst (send trio_legacy (failing_transport transfer_truncated) get_request
           (call_frame ∅)) = Raise w
    /\ exc_type w = IncompleteReadError
    /\ exc_args w = [PyStr (str trio_legacy transfer_truncated)]
    /\ inner_exception w = Some transfer_truncated.
Proof.
  apply (send_truncated_transfer trio_legacy (failing_transport transfer_truncated)
           get_request ∅ run_sync_in_worker_thread PyNone
           (request_arguments trio_legacy (failing_transport transfer_truncated)
              get_request NoData ∅)).
  - vm_compute. left. reflexivity.
  - reflexivity.
Defined.




(** ** The two dispatch paths *)

(** With the current primitive the session is given the body
    [_retrieve_request_data] prepared; with the older one alone it is
    given [request.data]; every other argument is the same. *)
Lemma dispatched_by_either_path current legacy self req kw :
  has_to_thread current = true ->
  has_to_thread legacy = false ->
  has_run_sync_in_worker_thread legacy = true ->
  _get_request_hooks current = _get_request_hooks legacy ->
  repeated_keyword (leftover kw) = None ->
  exists rest,
    dispatched (trace (snd (send current self req (call_frame kw))))
    = request_arguments current self req (_retrieve_request_data self req) kw
        :: rest
    /\ dispatched (trace (snd (send legacy self req (call_frame kw))))
       = [request_arguments current self req (data req) kw].
Proof.
  intros Hc Hl Hl' Hh Hk.
  pose proof (send_runs current self req kw) as Rc.
  pose proof (send_runs legacy self req kw) as Rl.
  assert (Hargs : forall body,
            request_arguments legacy self req body kw
            = request_arguments current self req body kw).
  { intros body. unfold request_arguments. rewrite Hh. reflexivity. }
  inversion Rl as [ | k | r | r | r c2 r2 | c2 r2 ]; try congruence.
  subst c2. rewrite Hargs.
  inversion Rc as [ | k | r | r | r c3 r3 | c3 r3 ]; try congruence;
    eexists; (split; [reflexivity|reflexivity]).
Qed.

(** C2, at a request whose body is read asynchronously.  With the
    current primitive the session is handed the parts already read, as
    an iterable it can consume; with the older primitive alone it is
    handed the asynchronous body itself.  The body is the one argument
    in which the two calls differ. *)
Theorem fallback_sends_the_unread_body :
  map call_data
    (dispatched (trace (snd (send trio_current answering_transport
                               upload_request (call_frame ∅)))))
  = [IterData [literal "hello "; literal "world!"]]
  /\ map call_data
       (dispatched (trace (snd (send trio_legacy answering_transport
                                  upload_request (call_frame ∅)))))
     = [AsyncIterData [literal "hello "; literal "world!"]].
Proof. split; reflexivity. Qed.

Lemma fallback_not_the_same_call : ~ fallback_issues_the_same_call.
Proof.
  intros H.
  specialize (H trio_current trio_legacy answering_transport upload_request ∅
                eq_refl eq_refl eq_refl eq_refl).
  apply (f_equal (map call_data)) in H.
  vm_compute in H. discriminate H.
Qed.

(** ** The limiter *)

(** C10.  A [trio_limiter] keyword option is handed to the dispatch
    primitive of every blocking call of the run, and it is still among
    the keyword options that call is given: [send] reads it with [get]
    and never removes it. *)
Theorem trio_limiter_forwarded env self req kw lim :
  kw !! "trio_limiter" = Some lim ->
  (forall p l c r,
      In (EvRequest p l c r)
         (trace (snd (send env self req (call_frame kw)))) ->
      l = lim /\ call_kwargs c !! "trio_limiter" = Some lim)
  /\ (has_to_thread env || has_run_sync_in_worker_thread env = true ->
      repeated_keyword (leftover kw) = None ->
      exists p c r,
        In (EvRequest p lim c r)
           (trace (snd (send env self req (call_frame kw))))).
Proof.
  intros Hlim.
  pose proof (send_runs env self req kw) as R.
  assert (Hd : default PyNone (kw !! "trio_limiter") = lim) by (by rewrite Hlim).
  assert (Hk1 : forall body,
            call_kwargs (request_arguments env self req body kw)
              !! "trio_limiter" = Some lim).
  { intros body. cbn [call_kwargs request_arguments].
    by rewrite leftover_keeps_limiter. }
  assert (Hk2 : forall body,
            call_kwargs (request_arguments env self req body (leftover kw))
              !! "trio_limiter" = Some lim).
  { intros body. cbn [call_kwargs request_arguments].
    by rewrite !leftover_keeps_limiter. }
  split.
  - intros p l c r Hin.
    inversion R as [ | k | r0 | r0 | r0 c2 r2 | c2 r2 ];
      match goal with
      | H : _ = trace _ |- _ => rewrite <- H in Hin
      end; cbn [In] in Hin; subst;
      repeat match goal with
             | H : _ \/ _ |- _ => destruct H as [H|H]
             | H : False |- _ => destruct H
             | H : EvRequest _ _ _ _ = EvRequest _ _ _ _ |- _ =>
                 injection H as <- <- <- <-
             end; auto.
  - intros Hprim Hk.
    inversion R as [ Hp Hl | k | r0 | r0 | r0 c2 r2 | c2 r2 ];
      try congruence.
    + rewrite Hp, Hl in Hprim. discriminate Hprim.
    + rewrite Hd. do 3 eexists. left. reflexivity.
    + rewrite Hd. do 3 eexists. left. reflexivity.
    + rewrite Hd. do 3 eexists. left. reflexivity.
    + rewrite Hd. do 3 eexists. left. reflexivity.
Qed.

Lemma trio_limiter_forwarded_witness :
  (forall p l c r,
      In (EvRequest p l c r)
         (trace (snd (send trio_current answering_transport get_request
                        (call_frame {[ "trio_limiter" := PyRef 7 ]})))) ->
      l = PyRef 7 /\ call_kwargs c !! "trio_limiter" = Some (PyRef 7))
  /\ (has_to_thread trio_current || has_run_sync_in_worker_thread trio_current
      = true ->
      repeated_keyword (leftover {[ "trio_limiter" := PyRef 7 ]}) = None ->
      exists p c r,
        In (EvRequest p (PyRef 7) c r)
           (trace (snd (send trio_current answering_transport get_request
                          (call_frame {[ "trio_limiter" := PyRef 7 ]}))))).
Proof.
  apply (trio_limiter_forwarded trio_current answering_transport get_request
           {[ "trio_limiter" := PyRef 7 ]} (PyRef 7)).
  reflexivity.
Defined.

(** ** The runs of [__anext__] *)

Lemma run_sync_run p s :
  Gen.run_sync p s =
  (fst (Gen.next_of (Gen.iter_content_func (Gen.this s))),
   {| Gen.this :=
        Gen.advanced (Gen.this s)
          (snd (Gen.next_of (Gen.iter_content_func (Gen.this s))));
      Gen.trace :=
        Gen.trace s
        ++ [EvPull p (fst (Gen.next_of (Gen.iter_content_func (Gen.this s))))] |}).
Proof.
  unfold Gen.run_sync, Gen._iterate_response_content.
  destruct (Gen.next_of _) as [r rest]. reflexivity.
Qed.

(** The outer [try] of [__anext__] around any inner dispatch [m]. *)
Lemma settle_run (m : M Gen.state (option bytes)) s r s' :
  m s = (r, s') ->
  try_except
    (chunk <~ m ;;
     if not_chunk chunk
     then raise (Exc _ResponseStopIteration [] None)
     else ret chunk)
    (fun err =>
       if isinstance err _ResponseStopIteration then
         Some (Gen.close ;;; raise (Exc StopAsyncIteration [] None))
       else if isinstance err requests_StreamConsumedError then
         Some (raise err)
       else if isinstance err Exception then
         Some (Gen.warning "Unable to stream download: %s" err ;;;
               Gen.close ;;;
               raise err)
       else None) s
  = (fst (Gen.settled r),
     {| Gen.this := Gen.this s';
        Gen.trace := Gen.trace s' ++ snd (Gen.settled r) |}).
Proof.
  intros Hm. destruct s' as [g tr].
  unfold try_except, bind, Gen.settled. rewrite Hm.
  destruct r as [chunk|e]; cbn [fst snd Gen.this Gen.trace].
  - destruct (not_chunk chunk); cbn; rewrite ?app_nil_r; reflexivity.
  - destruct (isinstance e _ResponseStopIteration); [cbn; reflexivity|].
    destruct (isinstance e requests_StreamConsumedError);
      [cbn; rewrite ?app_nil_r; reflexivity|].
    destruct (isinstance e Exception); cbn;
      rewrite ?app_nil_r, <- ?app_assoc; reflexivity.
Qed.

Lemma advanced_same g : Gen.advanced g (Gen.iter_content_func g) = g.
Proof. destruct g; reflexivity. Qed.

Lemma settled_missing name :
  Gen.settled (Raise (missing_attribute name))
  = (Raise (missing_attribute name),
     [EvWarning Gen.unable (missing_attribute name); EvClose]).
Proof. reflexivity. Qed.

(** Every run of [__anext__] is one of the runs of [anext_run]; the
    generator changes in its iterator only, the trace only grows. *)
Lemma anext_runs env g tr :
  exists r rest evs,
    Gen.__anext__ env {| Gen.this := g; Gen.trace := tr |}
    = (r, {| Gen.this := Gen.advanced g rest; Gen.trace := tr ++ evs |})
    /\ Gen.anext_run env (Gen.iter_content_func g) r rest evs.
Proof.
  unfold Gen.__anext__.
  match goal with
  | |- context [try_except (bind ?m _) _ ?s] => set (inner := m); set (s0 := s)
  end.
  destruct (Gen.next_of (Gen.iter_content_func g)) as [r1 rest1] eqn:H1.
  assert (Hfirst : forall p,
            Gen.run_sync p s0
            = (r1, {| Gen.this := Gen.advanced g rest1;
                      Gen.trace := tr ++ [EvPull p r1] |})).
  { intros p. rewrite run_sync_run. subst s0. cbn [Gen.this Gen.trace].
    rewrite H1. reflexivity. }
  destruct (has_to_thread env) eqn:Hp.
  - destruct (raises_AttributeError r1) eqn:Ha.
    + destruct r1 as [c1|e1]; [discriminate Ha|].
      cbn [raises_AttributeError] in Ha.
      destruct (has_run_sync_in_worker_thread env) eqn:Hl.
      * destruct (Gen.next_of rest1) as [r2 rest2] eqn:H2.
        assert (Hm : inner s0
                     = (r2, {| Gen.this := Gen.advanced g rest2;
                               Gen.trace :=
                                 tr ++ [EvPull to_thread_run_sync (Raise e1);
                                        EvPull run_sync_in_worker_thread r2] |})).
        { subst inner. unfold try_except, bind, trio_attribute, ret.
          rewrite Hfirst, Ha, run_sync_run.
          cbn [Gen.this Gen.trace Gen.advanced Gen.iter_content_func].
          rewrite H2, <- app_assoc. reflexivity. }
        rewrite (settle_run _ _ _ _ Hm). eexists _, _, _.
        cbn [Gen.this Gen.trace]. rewrite <- app_assoc.
        split; [reflexivity|].
        eapply Gen.pull_primary_then_fallback; eauto.
      * assert (Hm : inner s0
                     = (Raise (missing_attribute "run_sync_in_worker_thread"),
                        {| Gen.this := Gen.advanced g rest1;
                           Gen.trace :=
                             tr ++ [EvPull to_thread_run_sync (Raise e1)] |})).
        { subst inner. unfold try_except, bind, trio_attribute, ret, raise.
          rewrite Hfirst, Ha. reflexivity. }
        rewrite (settle_run _ _ _ _ Hm). eexists _, _, _.
        rewrite settled_missing. cbn [Gen.this Gen.trace fst snd].
        rewrite <- app_assoc.
        split; [reflexivity|].
        eapply (Gen.pull_primary_then_nothing _ _ (Raise e1)); eauto.
    + assert (Hm : inner s0
                   = (r1, {| Gen.this := Gen.advanced g rest1;
                             Gen.trace := tr ++ [EvPull to_thread_run_sync r1] |})).
      { subst inner. unfold try_except, bind, trio_attribute, ret.
        rewrite Hfirst.
        destruct r1 as [c1|e1]; [reflexivity|].
        cbn [raises_AttributeError] in Ha. rewrite Ha. reflexivity. }
      rewrite (settle_run _ _ _ _ Hm). eexists _, _, _.
      cbn [Gen.this Gen.trace]. rewrite <- app_assoc.
      split; [reflexivity|].
      eapply Gen.pull_primary; eauto.
  - destruct (has_run_sync_in_worker_thread env) eqn:Hl.
    + assert (Hm : inner s0
                   = (r1, {| Gen.this := Gen.advanced g rest1;
                             Gen.trace :=
                               tr ++ [EvPull run_sync_in_worker_thread r1] |})).
      { subst inner. unfold try_except, bind, trio_attribute, ret, raise.
        rewrite missing_attribute_caught, Hfirst. reflexivity. }
      rewrite (settle_run _ _ _ _ Hm). eexists _, _, _.
      cbn [Gen.this Gen.trace]. rewrite <- app_assoc.
      split; [reflexivity|].
      eapply Gen.pull_fallback; eauto.
    + assert (Hm : inner s0
                   = (Raise (missing_attribute "run_sync_in_worker_thread"),
                      {| Gen.this := Gen.advanced g (Gen.iter_content_func g);
                         Gen.trace := tr |})).
      { subst inner s0. unfold try_except, bind, trio_attribute, ret, raise.
        rewrite missing_attribute_caught, advanced_same. reflexivity. }
      rewrite (settle_run _ _ _ _ Hm). eexists _, _, _.
      rewrite settled_missing. cbn [Gen.this Gen.trace fst snd].
      split; [reflexivity|].
      eapply Gen.pull_no_primitive; eauto.
Qed.

(** A pull never touches the length captured by [__init__]. *)
Lemma anext_keeps_length env s :
  Gen.__len__ (Gen.this (snd (Gen.__anext__ env s))) = Gen.__len__ (Gen.this s).
Proof.
  destruct s as [g tr].
  destruct (anext_runs env g tr) as (r & rest & evs & Hrun & _).
  rewrite Hrun. reflexivity.
Qed.

Lemma pulls_keep_length env n s :
  Gen.__len__ (Gen.this (Gen.pulls env n s)) = Gen.__len__ (Gen.this s).
Proof.
  revert s. induction n as [|n IH]; intros s; cbn [Gen.pulls].
  - reflexivity.
  - rewrite IH. apply anext_keeps_length.
Qed.

(** The run of a pull on a generator with an empty trace. *)
Lemma fresh_anext_runs env g :
  Gen.anext_run env (Gen.iter_content_func g)
    (fst (Gen.__anext__ env (Gen.fresh g)))
    (Gen.iter_content_func (Gen.this (snd (Gen.__anext__ env (Gen.fresh g)))))
    (Gen.trace (snd (Gen.__anext__ env (Gen.fresh g)))).
Proof.
  unfold Gen.fresh.
  destruct (anext_runs env g []) as (r & rest & evs & Hrun & R).
  rewrite Hrun. exact R.
Qed.

Lemma settled_events r ev :
  In ev (snd (Gen.settled r)) -> ev = EvClose \/ exists e, ev = EvWarning Gen.unable e.
Proof.
  unfold Gen.settled. destruct r as [chunk|e].
  - destruct (not_chunk chunk); cbn; intuition.
  - destruct (isinstance e _ResponseStopIteration); [cbn; intuition|].
    destruct (isinstance e requests_StreamConsumedError); [cbn; intuition|].
    destruct (isinstance e Exception); cbn; intuition eauto.
Qed.

Lemma settled_no_pull r p r' : ~ In (EvPull p r') (snd (Gen.settled r)).
Proof.
  intros H. apply settled_events in H as [H | [e H]]; discriminate H.
Qed.

(** The pull whose outcome decides: an outcome that
    [except AttributeError] does not catch is the last one of the run,
    and the run ends as [settled] says. *)
Lemma deciding_pull env g p r :
  In (EvPull p r) (Gen.trace (snd (Gen.__anext__ env (Gen.fresh g)))) ->
  raises_AttributeError r = false ->
  fst (Gen.__anext__ env (Gen.fresh g)) = fst (Gen.settled r)
  /\ exists before,
       Gen.trace (snd (Gen.__anext__ env (Gen.fresh g)))
       = (before ++ snd (Gen.settled r))%list
       /\ forall ev, In ev before -> exists q r0, ev = EvPull q r0.
Proof.
  intros Hin Ha.
  pose proof (fresh_anext_runs env g) as R.
  inversion R as [ | r1 rest | r1 rest | r1 rest r2 rest2 | r1 rest ];
    match goal with
    | H : _ = Gen.trace _ |- _ => rewrite <- H in Hin
    end; cbn [In] in Hin.
  - destruct Hin as [Hin|[Hin|[]]]; discriminate Hin.
  - destruct Hin as [Hin|Hin]; [|by apply settled_no_pull in Hin].
    injection Hin as _ Hr. subst r1. split; [reflexivity|].
    exists [EvPull to_thread_run_sync r]. split; [reflexivity|].
    intros ev [<-|[]]. eauto.
  - destruct Hin as [Hin|[Hin|[Hin|[]]]]; try discriminate Hin.
    injection Hin as _ Hr. congruence.
  - destruct Hin as [Hin|[Hin|Hin]]; [| |by apply settled_no_pull in Hin].
    + injection Hin as _ Hr. congruence.
    + injection Hin as _ Hr. subst r2. split; [reflexivity|].
      exists [EvPull to_thread_run_sync r1; EvPull run_sync_in_worker_thread r].
      split; [reflexivity|].
      intros ev [<-|[<-|[]]]; eauto.
  - destruct Hin as [Hin|Hin]; [|by apply settled_no_pull in Hin].
    injection Hin as _ Hr. subst r1. split; [reflexivity|].
    exists [EvPull run_sync_in_worker_thread r]. split; [reflexivity|].
    intros ev [<-|[]]. eauto.
Qed.

Lemma only_pulls_no_effect before :
  (forall ev, In ev before -> exists q r0, ev = EvPull q r0) ->
  existsb Gen.is_close before = false /\ existsb Gen.is_warning before = false.
Proof.
  induction before as [|ev before IH]; intros H; [split; reflexivity|].
  destruct (H ev (or_introl eq_refl)) as (q & r0 & ->).
  cbn [existsb Gen.is_close Gen.is_warning orb].
  apply IH. intros ev' Hev'. apply H. by right.
Qed.

Lemma stream_consumed_class e :
  isinstance e requests_StreamConsumedError = true ->
  isinstance e AttributeError = false
  /\ isinstance e _ResponseStopIteration = false.
Proof.
  destruct e as [c a i]. unfold isinstance. cbn [exc_type].
  intros H. destruct c; try discriminate H; split; reflexivity.
Qed.

(** ** The streaming pull *)

(** The read errors that reach the outer handlers are dealt with as
    the specification says: an [Exception] of a pull that is neither
    the end of the iterator, nor [StreamConsumedError], nor an
    [AttributeError], is logged at warning level, then the connection is
    closed, then the same exception is raised. *)
Lemma read_error_logged_closed_surfaced env g p e :
  In (EvPull p (Raise e)) (Gen.trace (snd (Gen.__anext__ env (Gen.fresh g)))) ->
  isinstance e Exception = true ->
  isinstance e _ResponseStopIteration = false ->
  isinstance e requests_StreamConsumedError = false ->
  isinstance e AttributeError = false ->
  fst (Gen.__anext__ env (Gen.fresh g)) = Raise e
  /\ exists before,
       Gen.trace (snd (Gen.__anext__ env (Gen.fresh g)))
       = (before ++ [EvWarning Gen.unable e; EvClose])%list
       /\ existsb Gen.is_close before = false.
Proof.
  intros Hin He Hs Hc Ha.
  destruct (deciding_pull env g p (Raise e) Hin Ha) as (Hr & before & Ht & Hb).
  unfold Gen.settled in Hr, Ht. rewrite Hs, Hc, He in Hr, Ht.
  split; [exact Hr|]. exists before. split; [exact Ht|].
  by apply only_pulls_no_effect.
Qed.

(** C6, at a read that fails with an [AttributeError] while trio has
    both dispatch primitives.  [except AttributeError], meant for a trio
    without [to_thread], catches the error of the read and pulls again:
    when the iterator then gives a chunk, the chunk is returned; when it
    is at its end, the stream ends.  Either way the error never reaches
    the caller and nothing is logged. *)
Theorem attribute_error_of_a_read_is_swallowed :
  Gen.__anext__ trio_transitional
    (Gen.fresh (generator_over
                  [Throw no_read_attribute; Yield (Some (literal "data"))]))
  = (Return (Some (literal "data")),
     {| Gen.this := generator_over [];
        Gen.trace :=
          [EvPull to_thread_run_sync (Raise no_read_attribute);
           EvPull run_sync_in_worker_thread (Return (Some (literal "data")))] |})
  /\ Gen.__anext__ trio_transitional
       (Gen.fresh (generator_over [Throw no_read_attribute]))
     = (Raise (Exc StopAsyncIteration [] None),
        {| Gen.this := generator_over [];
           Gen.trace :=
             [EvPull to_thread_run_sync (Raise no_read_attribute);
              EvPull run_sync_in_worker_thread
                (Raise (Exc _ResponseStopIteration [] None));
              EvClose] |}).
Proof. split; reflexivity. Qed.

Lemma read_errors_not_all_surfaced : ~ read_errors_logged_closed_surfaced.
Proof.
  intros H.
  destruct (H trio_transitional
              (generator_over
                 [Throw no_read_attribute; Yield (Some (literal "data"))])
              to_thread_run_sync no_read_attribute) as [Hr _].
  - left. reflexivity.
  - reflexivity.
  - reflexivity.
  - reflexivity.
  - discriminate Hr.
Qed.

(** C7.  A [StreamConsumedError] of the pull is raised again as it is;
    the connection is not closed and nothing is logged. *)
Theorem stream_consumed_reraised env g p e :
  In (EvPull p (Raise e)) (Gen.trace (snd (Gen.__anext__ env (Gen.fresh g)))) ->
  isinstance e requests_StreamConsumedError = true ->
  fst (Gen.__anext__ env (Gen.fresh g)) = Raise e
  /\ existsb Gen.is_close (Gen.trace (snd (Gen.__anext__ env (Gen.fresh g))))
     = false
  /\ existsb Gen.is_warning (Gen.trace (snd (Gen.__anext__ env (Gen.fresh g))))
     = false.
Proof.
  intros Hin He.
  destruct (stream_consumed_class e He) as [Ha Hs].
  destruct (deciding_pull env g p (Raise e) Hin Ha) as (Hr & before & Ht & Hb).
  unfold Gen.settled in Hr, Ht. rewrite Hs, He in Hr, Ht.
  cbn [fst snd] in Hr, Ht. rewrite app_nil_r in Ht. rewrite Ht.
  split; [exact Hr|]. by apply only_pulls_no_effect.
Qed.

Lemma stream_consumed_reraised_witness :
  fst (Gen.__anext__ trio_current (Gen.fresh (generator_over [Throw stream_consumed])))
  = Raise stream_consumed
  /\ existsb Gen.is_close
       (Gen.trace (snd (Gen.__anext__ trio_current
                          (Gen.fresh (generator_over [Throw stream_consumed])))))
     = false
  /\ existsb Gen.is_warning
       (Gen.trace (snd (Gen.__anext__ trio_current
                          (Gen.fresh (generator_over [Throw stream_consumed])))))
     = false.
Proof.
  apply (stream_consumed_reraised trio_current
           (generator_over [Throw stream_consumed]) to_thread_run_sync
           stream_consumed).
  - left. reflexivity.
  - reflexivity.
Defined.

(** C8.  When the pull gives an empty or absent chunk, [__anext__] ends
    the iteration with [StopAsyncIteration], the connection is closed
    as the last effect of the pull, and nothing is logged. *)
Theorem empty_chunk_ends_stream env g p chunk :
  In (EvPull p (Return chunk))
     (Gen.trace (snd (Gen.__anext__ env (Gen.fresh g)))) ->
  not_chunk chunk = true ->
  fst (Gen.__anext__ env (Gen.fresh g)) = Raise (Exc StopAsyncIteration [] None)
  /\ (exists before,
        Gen.trace (snd (Gen.__anext__ env (Gen.fresh g)))
        = (before ++ [EvClose])%list)
  /\ existsb Gen.is_warning (Gen.trace (snd (Gen.__anext__ env (Gen.fresh g))))
     = false.
Proof.
  intros Hin Hc.
  destruct (deciding_pull env g p (Return chunk) Hin eq_refl)
    as (Hr & before & Ht & Hb).
  unfold Gen.settled in Hr, Ht. rewrite Hc in Hr, Ht. cbn [fst snd] in Hr, Ht.
  split; [exact Hr|]. split; [by exists before|].
  rewrite Ht, existsb_app. cbn [existsb Gen.is_warning orb].
  rewrite orb_false_r. by apply only_pulls_no_effect.
Qed.

Lemma empty_chunk_ends_stream_witness :
  fst (Gen.__anext__ trio_current
         (Gen.fresh (generator_over [Yield (Some [])])))
  = Raise (Exc StopAsyncIteration [] None)
  /\ (exists before,
        Gen.trace (snd (Gen.__anext__ trio_current
                          (Gen.fresh (generator_over [Yield (Some [])]))))
        = (before ++ [EvClose])%list)
  /\ existsb Gen.is_warning
       (Gen.trace (snd (Gen.__anext__ trio_current
                          (Gen.fresh (generator_over [Yield (Some [])])))))
     = false.
Proof.
  apply (empty_chunk_ends_stream trio_current
           (generator_over [Yield (Some [])]) to_thread_run_sync (Some [])).
  - left. reflexivity.
  - reflexivity.
Defined.

(** ** The declared length *)

(** *** The header lookup *)

Lemma lower_content_length : lower "Content-Length" = "content-length".
Proof. reflexivity. Qed.

(** Fields of other names leave the entry of a name as it is. *)
Lemma setitems_other items key (self : gmap string (string * string)) :
  (forall name v, In (name, v) items -> lower name <> key) ->
  fold_left (fun self item =>
               CaseInsensitiveDict.__setitem__ self (fst item) (snd item))
            items self !! key
  = self !! key.
Proof.
  revert self. induction items as [|[name v] items IH]; intros self H.
  - reflexivity.
  - cbn [fold_left fst snd]. rewrite IH.
    + unfold CaseInsensitiveDict.__setitem__, CaseInsensitiveDict.t.
      apply lookup_insert_ne. apply (H name v). left. reflexivity.
    + intros name' v' Hin. apply (H name' v'). right. exact Hin.
Qed.

(** The lookup gives nothing when no field has the name, whatever the
    case of its letters, and the value set last otherwise. *)
Lemma get_absent items key dflt :
  (forall name v, In (name, v) items -> lower name <> lower key) ->
  CaseInsensitiveDict.get (CaseInsensitiveDict.of_items items) key dflt = dflt.
Proof.
  intros H.
  unfold CaseInsensitiveDict.get, CaseInsensitiveDict.__getitem__,
    CaseInsensitiveDict.of_items, CaseInsensitiveDict.t.
  rewrite (setitems_other _ _ _ H). unfold CaseInsensitiveDict.t.
  rewrite lookup_empty. reflexivity.
Qed.

Lemma get_last before name v after key dflt :
  lower name = lower key ->
  (forall name' v', In (name', v') after -> lower name' <> lower key) ->
  CaseInsensitiveDict.get
    (CaseInsensitiveDict.of_items (before ++ (name, v) :: after)) key dflt
  = PyStr v.
Proof.
  intros Hn H.
  unfold CaseInsensitiveDict.get, CaseInsensitiveDict.__getitem__,
    CaseInsensitiveDict.of_items, CaseInsensitiveDict.t.
  rewrite fold_left_app. cbn [fold_left fst snd].
  rewrite (setitems_other _ _ _ H).
  unfold CaseInsensitiveDict.__setitem__, CaseInsensitiveDict.t.
  rewrite Hn, lookup_insert_eq.
  reflexivity.
Qed.

(** *** The characters [int] accepts *)

Lemma is_space_white c :
  is_space c = true <-> In (nat_of_ascii c) white_space.
Proof.
  unfold is_space, white_space. cbn [In].
  rewrite !orb_true_iff, andb_true_iff, !Nat.leb_le, !Nat.eqb_eq. lia.
Qed.

Lemma digit_of_alphabet c d :
  digit_of c = Some d -> In (nat_of_ascii c) (seq 48 10).
Proof.
  unfold digit_of.
  destruct ((48 <=? nat_of_ascii c)%nat && (nat_of_ascii c <=? 57)%nat) eqn:H;
    [|discriminate].
  intros _. apply andb_prop in H as [H1 H2].
  apply Nat.leb_le in H1, H2. apply in_seq. lia.
Qed.

Lemma lstrip_in c l :
  In c l -> is_space c = true \/ In c (lstrip l).
Proof.
  induction l as [|c' l IH]; [intros []|].
  intros [->|Hin]; cbn [lstrip].
  - destruct (is_space c) eqn:Hc; [by left | right; by left].
  - destruct (is_space c') eqn:Hc; [by apply IH | right; by right].
Qed.

Lemma strip_in c l :
  In c l -> is_space c = true \/ In c (strip l).
Proof.
  intros Hin. unfold strip.
  destruct (lstrip_in c l Hin) as [Hs|Hin']; [by left|].
  apply in_rev in Hin'.
  destruct (lstrip_in c _ Hin') as [Hs|Hin'']; [by left|].
  right. by apply in_rev in Hin''.
Qed.

Lemma digits_value_in l acc after_digit n c :
  digits_value acc after_digit l = Some n ->
  In c l ->
  In (nat_of_ascii c) (seq 48 10) \/ c = "_"%char.
Proof.
  revert acc after_digit.
  induction l as [|c' l IH]; intros acc after_digit H; [intros []|].
  cbn [digits_value] in H. intros [->|Hin].
  - destruct (digit_of c) as [d|] eqn:Hd.
    + left. by apply (digit_of_alphabet c d).
    + right. destruct (bool_decide (c = "_"%char)) eqn:Hu; [|discriminate H].
      by apply bool_decide_eq_true in Hu.
  - destruct (digit_of c') as [d|].
    + by apply (IH _ _ H).
    + destruct (bool_decide (c' = "_"%char) && after_digit); [|discriminate H].
      by apply (IH _ _ H).
Qed.

(** A string that [int] takes is made of the characters of integers. *)
Lemma int_of_str_alphabet s n c :
  int_of_str s = Some n ->
  In c (list_ascii_of_string s) ->
  In (nat_of_ascii c) integer_alphabet.
Proof.
  unfold int_of_str, integer_alphabet. intros H Hin.
  apply in_or_app.
  destruct (strip_in c _ Hin) as [Hs|Hin']; [left; by apply is_space_white|].
  right. apply in_or_app.
  destruct (strip (list_ascii_of_string s)) as [|c0 l]; [discriminate H|].
  assert (Hd : forall m l', digits_value 0 false l' = Some m -> In c l' ->
               In (nat_of_ascii c) [43; 45; 95]%nat
               \/ In (nat_of_ascii c) (seq 48 10)).
  { intros m l' Hm Hl.
    destruct (digits_value_in _ _ _ _ _ Hm Hl) as [Hc| ->]; [by right|].
    left. right. right. left. reflexivity. }
  destruct (bool_decide (c0 = "+"%char)) eqn:Hplus.
  { apply bool_decide_eq_true in Hplus. subst c0.
    destruct Hin' as [<-|Hin']; [left; left; reflexivity|].
    by apply (Hd n l). }
  destruct (bool_decide (c0 = "-"%char)) eqn:Hminus.
  { apply bool_decide_eq_true in Hminus. subst c0.
    destruct Hin' as [<-|Hin']; [left; right; left; reflexivity|].
    destruct (digits_value 0 false l) as [m|] eqn:Hm; [|discriminate H].
    by apply (Hd m l). }
  by apply (Hd n (c0 :: l)).
Qed.

(** *** The number [int] reads *)

Lemma digit_char_spec d :
  (d < 10)%nat ->
  is_space (digit_char d) = false
  /\ digit_of (digit_char d) = Some (Z.of_nat d)
  /\ digit_char d <> "+"%char
  /\ digit_char d <> "-"%char.
Proof.
  intros H.
  do 10 (destruct d as [|d]; [repeat split; discriminate|]).
  lia.
Qed.

Lemma lstrip_white pre l :
  Forall (fun c => In (nat_of_ascii c) white_space) pre ->
  lstrip (pre ++ l) = lstrip l.
Proof.
  induction 1 as [|c pre Hc _ IH]; [reflexivity|].
  cbn [app lstrip]. apply is_space_white in Hc. rewrite Hc. exact IH.
Qed.

Lemma lstrip_digits ds l :
  Forall (fun d => (d < 10)%nat) ds ->
  ds <> [] ->
  lstrip (map digit_char ds ++ l) = (map digit_char ds ++ l)%list.
Proof.
  intros Hds Hne. destruct ds as [|d ds]; [done|].
  apply Forall_cons_1 in Hds as [Hd _].
  cbn [map app lstrip].
  destruct (digit_char_spec d Hd) as (-> & _). reflexivity.
Qed.

Lemma strip_digits pre ds post :
  Forall (fun c => In (nat_of_ascii c) white_space) pre ->
  Forall (fun c => In (nat_of_ascii c) white_space) post ->
  Forall (fun d => (d < 10)%nat) ds ->
  ds <> [] ->
  strip (pre ++ map digit_char ds ++ post) = map digit_char ds.
Proof.
  intros Hpre Hpost Hds Hne. unfold strip.
  rewrite (lstrip_white _ _ Hpre), (lstrip_digits _ _ Hds Hne).
  rewrite rev_app_distr, lstrip_white by (by apply Forall_rev).
  rewrite <- map_rev, <- (app_nil_r (map digit_char (rev ds))).
  rewrite lstrip_digits.
  - rewrite app_nil_r, map_rev. apply rev_involutive.
  - by apply Forall_rev.
  - intros Hr. apply Hne. rewrite <- (rev_involutive ds), Hr. reflexivity.
Qed.

Lemma digits_value_digits ds acc after_digit :
  Forall (fun d => (d < 10)%nat) ds ->
  digits_value acc after_digit (map digit_char ds)
  = match ds with
    | [] => if after_digit then Some acc else None
    | _ => Some (fold_left (fun acc d => 10 * acc + Z.of_nat d) ds acc)
    end.
Proof.
  intros Hds. revert acc after_digit.
  induction Hds as [|d ds Hd _ IH]; intros acc after_digit; [reflexivity|].
  cbn [map digits_value fold_left].
  destruct (digit_char_spec d Hd) as (_ & -> & _).
  rewrite IH. destruct ds; reflexivity.
Qed.

(** Digits, with white space around them, are read as the number they
    spell in base ten. *)
Lemma int_of_str_decimal pre ds post :
  Forall (fun c => In (nat_of_ascii c) white_space) pre ->
  Forall (fun c => In (nat_of_ascii c) white_space) post ->
  Forall (fun d => (d < 10)%nat) ds ->
  ds <> [] ->
  int_of_str (string_of_list_ascii (pre ++ map digit_char ds ++ post))
  = Some (decimal_value ds).
Proof.
  intros Hpre Hpost Hds Hne. unfold int_of_str, decimal_value.
  rewrite list_ascii_of_string_of_list_ascii.
  rewrite (strip_digits _ _ _ Hpre Hpost Hds Hne).
  pose proof (digits_value_digits ds 0 false Hds) as Hv.
  destruct ds as [|d ds]; [done|].
  apply Forall_cons_1 in Hds as [Hd _].
  destruct (digit_char_spec d Hd) as (_ & _ & Hplus & Hminus).
  cbn [map] in Hv |- *.
  rewrite !bool_decide_eq_false_2 by done. exact Hv.
Qed.

(** *** The length *)

(** What [__init__] makes of the header when [stream_download] gives a
    generator. *)
Lemma declared_length response pipeline kw g :
  stream_download response pipeline kw = Return g ->
  int (CaseInsensitiveDict.get (Gen.headers_of response) "Content-Length"
         (PyInt 0))
  = Return (Gen.__len__ g).
Proof.
  unfold stream_download, Gen.__init__. intros Hg.
  destruct (map_to_list _) as [|[k o] rest]; [|discriminate Hg].
  destruct (int _) as [n|e]; [|discriminate Hg].
  injection Hg as <-. reflexivity.
Qed.

(** C9.  The length of a generator [stream_download] produced is the
    declared length, read when the generator was built from the header
    field named [Content-Length] in whatever case of the letters, the
    last one set: 0 when the response has no such field, and otherwise
    the integer that [int] reads in its value, which is made of the
    characters of integers only and, when it is digits with white space
    around them, is the number they spell in base ten.  No number of
    pulls changes the length. *)
Theorem length_is_declared_and_static response pipeline kw g :
  stream_download response pipeline kw = Return g ->
  ((forall name v,
      In (name, v) (resp_headers (internal_response response)) ->
      lower name <> "content-length") ->
   Gen.__len__ g = 0)
  /\ (forall before name v after,
        resp_headers (internal_response response)
        = (before ++ (name, v) :: after)%list ->
        lower name = "content-length" ->
        (forall name' v', In (name', v') after ->
                          lower name' <> "content-length") ->
        int_of_str v = Some (Gen.__len__ g)
        /\ (forall c, In c (list_ascii_of_string v) ->
                      In (nat_of_ascii c) integer_alphabet)
        /\ forall pre ds post,
             v = string_of_list_ascii (pre ++ map digit_char ds ++ post)%list ->
             Forall (fun c => In (nat_of_ascii c) white_space) pre ->
             Forall (fun c => In (nat_of_ascii c) white_space) post ->
             Forall (fun d => (d < 10)%nat) ds ->
             ds <> [] ->
             Gen.__len__ g = decimal_value ds)
  /\ forall env n tr,
       Gen.__len__ (Gen.this (Gen.pulls env n {| Gen.this := g; Gen.trace := tr |}))
       = Gen.__len__ g.
Proof.
  intros Hg. pose proof (declared_length _ _ _ _ Hg) as Hd.
  unfold Gen.headers_of, _get_internal_response in Hd.
  split; [|split].
  - intros Hn. rewrite get_absent in Hd by exact Hn.
    cbn [int] in Hd. by injection Hd as <-.
  - intros before name v after Hf Hn Hlast.
    rewrite Hf in Hd.
    rewrite (get_last before name v after "Content-Length" (PyInt 0) Hn Hlast)
      in Hd.
    cbn [int] in Hd.
    destruct (int_of_str v) as [n|] eqn:Hv; [|discriminate Hd].
    injection Hd as ->.
    split; [reflexivity|]. split.
    + intros c. by apply (int_of_str_alphabet v (Gen.__len__ g)).
    + intros pre ds post -> Hpre Hpost Hds Hne.
      rewrite (int_of_str_decimal _ _ _ Hpre Hpost Hds Hne) in Hv.
      by injection Hv as <-.
  - intros env n tr. apply pulls_keep_length.
Qed.

Lemma length_is_declared_and_static_witness :
  ((forall name v,
      In (name, v) (resp_headers (internal_response hello)) ->
      lower name <> "content-length") ->
   Gen.__len__ (generator_over (iter_content hello_response 4096)) = 0)
  /\ (forall before name v after,
        resp_headers (internal_response hello)
        = (before ++ (name, v) :: after)%list ->
        lower name = "content-length" ->
        (forall name' v', In (name', v') after ->
                          lower name' <> "content-length") ->
        int_of_str v
        = Some (Gen.__len__ (generator_over (iter_content hello_response 4096)))
        /\ (forall c, In c (list_ascii_of_string v) ->
                      In (nat_of_ascii c) integer_alphabet)
        /\ forall pre ds post,
             v = string_of_list_ascii (pre ++ map digit_char ds ++ post)%list ->
             Forall (fun c => In (nat_of_ascii c) white_space) pre ->
             Forall (fun c => In (nat_of_ascii c) white_space) post ->
             Forall (fun d => (d < 10)%nat) ds ->
             ds <> [] ->
             Gen.__len__ (generator_over (iter_content hello_response 4096))
             = decimal_value ds)
  /\ forall env n tr,
       Gen.__len__
         (Gen.this (Gen.pulls env n
            {| Gen.this := generator_over (iter_content hello_response 4096);
               Gen.trace := tr |}))
       = Gen.__len__ (generator_over (iter_content hello_response 4096)).
Proof.
  apply (length_is_declared_and_static hello PyNone ∅).
  reflexivity.
Defined.

(** The field is found under any spelling of its name, the value set
    last counts, white space around the number is skipped, and a value
    that spells no integer gives no generator but the [ValueError] of
    [int]; without the field the length is 0. *)
Example length_from_the_header :
  Gen.__len__ <$> result_value
    (stream_download (with_headers [("content-length", "12")]) PyNone ∅)
  = Some 12
  /\ Gen.__len__ <$> result_value
       (stream_download
          (with_headers [("CONTENT-LENGTH", "7"); ("Content-length", " 0012 ")])
          PyNone ∅)
     = Some 12
  /\ Gen.__len__ <$> result_value
       (stream_download (with_headers [("Content-Type", "text/plain")])
          PyNone ∅)
     = Some 0
  /\ (exists e,
        stream_download
          (with_headers [("Content-Length", twelve_then_separator)]) PyNone ∅
        = Raise e
        /\ exc_type e = ValueError).
Proof.
  repeat split; try reflexivity.
  eexists. split; reflexivity.
Qed.

(** The scenario of the specification: twelve bytes in three chunks. *)
Example hello_in_three_chunks :
  stream_download hello PyNone ∅
  = Return (generator_over (iter_content hello_response 4096))
  /\ (let '(chunks, err, s) :=
        Gen.collect trio_current 10
          (Gen.fresh (generator_over (iter_content hello_response 4096))) in
      concat (omap id chunks) = literal "hello world!"
      /\ length chunks = 3%nat
      /\ err = None
      /\ Gen.__len__ (Gen.this s) = 12
      /\ existsb Gen.is_close (Gen.trace s) = true).
Proof. vm_compute. repeat split. Qed.

(** * Further properties of the transport *)

(** ** More on [send] *)

(** The outcome of a blocking call that [except AttributeError] does not
    catch decides the run. *)
Lemma blocking_outcome_surfaced env self req kw p l c r :
  In (EvRequest p l c r)
     (trace (snd (send env self req (call_frame kw)))) ->
  raises_AttributeError r = false ->
  fst (send env self req (call_frame kw)) = surfaced env self req r.
Proof.
  intros Hin Ha.
  pose proof (send_runs env self req kw) as R.
  inversion R as [ | k | r0 | r0 | r0 c2 r2 | c2 r2 ];
    match goal with
    | H : _ = trace _ |- _ => rewrite <- H in Hin
    end; cbn [In] in Hin.
  - contradiction.
  - contradiction.
  - destruct Hin as [Hin|[]]. injection Hin as _ _ _ Hr. rewrite Hr. reflexivity.
  - destruct Hin as [Hin|[]]. injection Hin as _ _ _ Hr. congruence.
  - destruct Hin as [Hin|[Hin|[]]]; injection Hin as _ _ _ Hr.
    + congruence.
    + rewrite Hr. reflexivity.
  - destruct Hin as [Hin|[]]. injection Hin as _ _ _ Hr. rewrite Hr. reflexivity.
Qed.

(** X1.  When a blocking call of the run returns, [send] returns the
    transport response built from the request it was given, the
    response of the session and the block size of the connection
    configuration. *)
Theorem send_returns_the_response env self req kw p l c response :
  In (EvRequest p l c (Return response))
     (trace (snd (send env self req (call_frame kw)))) ->
  fst (send env self req (call_frame kw))
  = Return {| request := req; internal_response := response;
              block_size := data_block_size (connection_config self) |}.
Proof.
  intros Hin.
  exact (blocking_outcome_surfaced _ _ _ _ _ _ _ _ Hin eq_refl).
Qed.

Lemma send_returns_the_response_witness :
  fst (send trio_current answering_transport get_request (call_frame ∅))
  = Return {| request := get_request; internal_response := hello_response;
              block_size := 4096 |}.
Proof.
  apply (send_returns_the_response trio_current answering_transport get_request
           ∅ to_thread_run_sync PyNone
           (request_arguments trio_current answering_transport get_request
              NoData ∅) hello_response).
  vm_compute. left. reflexivity.
Defined.

Lemma in_dispatched c tr :
  In c (dispatched tr) <-> exists p l r, In (EvRequest p l c r) tr.
Proof.
  unfold dispatched. rewrite in_flat_map. split.
  - intros (ev & Hev & Hc). destruct ev as [p l c' r| | |]; cbn in Hc;
      try contradiction.
    destruct Hc as [<-|[]]. eauto.
  - intros (p & l & r & Hin). eexists. split; [exact Hin|]. by left.
Qed.

(** X2.  Every blocking call [send] issues, on either dispatch path,
    has redirects switched off and carries the method, the URL, the
    headers and the files of the request. *)
Theorem every_call_carries_the_request env self req kw c :
  In c (dispatched (trace (snd (send env self req (call_frame kw))))) ->
  call_allow_redirects c = false
  /\ call_method c = method req
  /\ call_url c = url req
  /\ call_headers c = headers req
  /\ call_files c = files req.
Proof.
  intros Hin.
  pose proof (send_runs env self req kw) as R.
  inversion R as [ | k | r0 | r0 | r0 c2 r2 | c2 r2 ];
    match goal with
    | H : _ = trace _ |- _ => rewrite <- H in Hin
    end; cbn in Hin; subst;
    repeat match goal with
           | H : _ \/ _ |- _ => destruct H as [H|H]
           | H : False |- _ => destruct H
           end; subst; repeat split.
Qed.

Lemma every_call_carries_the_request_witness :
  let c := request_arguments trio_legacy answering_transport upload_request
             (data upload_request) ∅ in
  call_allow_redirects c = false
  /\ call_method c = method upload_request
  /\ call_url c = url upload_request
  /\ call_headers c = headers upload_request
  /\ call_files c = files upload_request.
Proof.
  apply (every_call_carries_the_request trio_legacy answering_transport
           upload_request ∅).
  vm_compute. left. reflexivity.
Defined.

Lemma leftover_drops kw k :
  In k connection_options -> leftover kw !! k = None.
Proof.
  unfold leftover, connection_options. cbn [In].
  intros [<-|[<-|[<-|[<-|[]]]]]; rewrite !lookup_delete;
    repeat case_decide; congruence.
Qed.

Lemma leftover_keeps kw k :
  ~ In k connection_options -> leftover kw !! k = kw !! k.
Proof.
  unfold leftover, connection_options. cbn [In]. intros Hk.
  rewrite !lookup_delete. repeat case_decide; subst; tauto.
Qed.

(** The first blocking call of a run, whichever path issues it. *)
Lemma first_dispatched env self req kw c rest :
  dispatched (trace (snd (send env self req (call_frame kw)))) = c :: rest ->
  exists body, c = request_arguments env self req body kw.
Proof.
  intros Hd.
  pose proof (send_runs env self req kw) as R.
  inversion R as [ | k | r0 | r0 | r0 c2 r2 | c2 r2 ];
    match goal with
    | H : _ = trace _ |- _ => rewrite <- H in Hd
    end; cbn in Hd; try discriminate Hd;
    injection Hd as <- _; subst; eauto.
Qed.

(** X3.  The first blocking call takes [verify], [timeout] and [cert]
    from the options [connection_verify], [connection_timeout] and
    [connection_cert] where the caller gives them and from the
    connection configuration where not; these options and [hooks] are
    taken out of the keyword options, and every other keyword option is
    handed to the blocking call as it is. *)
Theorem overrides_then_defaults env self req kw c rest :
  dispatched (trace (snd (send env self req (call_frame kw)))) = c :: rest ->
  call_verify c
  = default (verify (connection_config self)) (kw !! "connection_verify")
  /\ call_timeout c
     = default (timeout (connection_config self)) (kw !! "connection_timeout")
  /\ call_cert c
     = default (cert (connection_config self)) (kw !! "connection_cert")
  /\ call_hooks c = _get_request_hooks env (default PyNone (kw !! "hooks"))
  /\ (forall k, In k connection_options -> call_kwargs c !! k = None)
  /\ (forall k, ~ In k connection_options -> call_kwargs c !! k = kw !! k).
Proof.
  intros Hd. destruct (first_dispatched _ _ _ _ _ _ Hd) as [body ->].
  cbn [call_verify call_timeout call_cert call_hooks call_kwargs
       request_arguments].
  repeat split.
  - intros k Hk. by apply leftover_drops.
  - intros k Hk. by apply leftover_keeps.
Qed.

Lemma overrides_then_defaults_witness :
  let kw : gmap string pyobj :=
    {[ "connection_timeout" := PyInt 5; "proxies" := PyRef 3 ]} in
  let c := request_arguments trio_current answering_transport get_request
             NoData kw in
  call_verify c = PyBool true
  /\ call_timeout c = PyInt 5
  /\ call_cert c = PyNone
  /\ call_hooks c = PyNone
  /\ (forall k, In k connection_options -> call_kwargs c !! k = None)
  /\ (forall k, ~ In k connection_options -> call_kwargs c !! k = kw !! k).
Proof.
  exact (overrides_then_defaults trio_current answering_transport get_request
           {[ "connection_timeout" := PyInt 5; "proxies" := PyRef 3 ]}
           (request_arguments trio_current answering_transport get_request
              NoData {[ "connection_timeout" := PyInt 5; "proxies" := PyRef 3 ]})
           [] eq_refl).
Defined.

(** X4.  When [send] issues a second blocking call, it is the call of
    the older primitive after the first one raised an [AttributeError]:
    the per-call options were taken out of [kwargs] for the first call,
    so the second one runs with [verify], [timeout] and [cert] of the
    connection configuration and without hooks of the caller, on
    [request.data], with the same remaining keyword options. *)
Theorem second_call_runs_on_defaults env self req kw c1 c2 rest :
  dispatched (trace (snd (send env self req (call_frame kw))))
  = c1 :: c2 :: rest ->
  call_verify c2 = verify (connection_config self)
  /\ call_timeout c2 = timeout (connection_config self)
  /\ call_cert c2 = cert (connection_config self)
  /\ call_hooks c2 = _get_request_hooks env PyNone
  /\ call_data c2 = data req
  /\ call_kwargs c2 = call_kwargs c1
  /\ rest = [].
Proof.
  intros Hd.
  pose proof (send_runs env self req kw) as R.
  inversion R as [ | k | r0 | r0 | r0 c3 r2 | c3 r2 ];
    match goal with
    | H : _ = trace _ |- _ => rewrite <- H in Hd
    end; cbn in Hd; try discriminate Hd.
  injection Hd as <- <- <-. subst c3.
  cbn [call_verify call_timeout call_cert call_hooks call_kwargs call_data
       request_arguments].
  rewrite !leftover_drops, leftover_idemp by (cbn; tauto). repeat split.
Qed.

(** A session whose blocking call fails with an [AttributeError] of its
    own. *)
Lemma second_call_runs_on_defaults_witness :
  let self := failing_transport no_read_attribute in
  let kw : gmap string pyobj := {[ "connection_verify" := PyBool false ]} in
  let c2 := request_arguments trio_transitional self get_request NoData
              (leftover kw) in
  call_verify c2 = PyBool true
  /\ call_timeout c2 = PyInt 300
  /\ call_cert c2 = PyNone
  /\ call_hooks c2 = PyNone
  /\ call_data c2 = NoData
  /\ call_kwargs c2
     = call_kwargs (request_arguments trio_transitional self get_request
                      NoData kw)
  /\ @nil blocking_call = [].
Proof.
  exact (second_call_runs_on_defaults trio_transitional
           (failing_transport no_read_attribute) get_request
           {[ "connection_verify" := PyBool false ]}
           (request_arguments trio_transitional
              (failing_transport no_read_attribute) get_request NoData
              {[ "connection_verify" := PyBool false ]})
           (request_arguments trio_transitional
              (failing_transport no_read_attribute) get_request NoData
              (leftover {[ "connection_verify" := PyBool false ]}))
           [] eq_refl).
Defined.

(** X5.  [send] issues at most two blocking calls, and a second one
    only where trio has both dispatch primitives and the first call
    raised an [AttributeError]: no other failure is tried again. *)
Theorem no_retry_but_on_attribute_error env self req kw :
  (length (trace (snd (send env self req (call_frame kw)))) <= 2)%nat
  /\ ((1 < length (trace (snd (send env self req (call_frame kw)))))%nat ->
      has_to_thread env = true
      /\ has_run_sync_in_worker_thread env = true
      /\ exists l c e,
           head (trace (snd (send env self req (call_frame kw))))
           = Some (EvRequest to_thread_run_sync l c (Raise e))
           /\ isinstance e AttributeError = true).
Proof.
  pose proof (send_runs env self req kw) as R.
  inversion R as [ | k | r0 | r0 Hp Hk Hr Ha | r0 c3 r2 Hp Hk Hr Ha Hl | c3 r2 ];
    cbn [length head]; (split; [lia|]); try (intros; lia).
  intros _. split; [exact Hp|]. split; [exact Hl|].
  destruct r0 as [resp|e]; [discriminate Ha|]. eauto.
Qed.

Lemma protocol_error_translated env e :
  isinstance e requests_ConnectionError = true ->
  first_arg_is_protocol_error e = true ->
  translate env e = Some (wrap env ServiceResponseError e)
  /\ isinstance e AttributeError = false.
Proof.
  destruct e as [c a i]. unfold translate, isinstance. cbn [exc_type].
  intros H Hp. rewrite Hp.
  destruct c; try discriminate H; split; reflexivity.
Qed.

(** X6.  A [requests] [ConnectionError] whose first argument is a
    [urllib3] [ProtocolError] (the connection broke while bytes were
    exchanged) leaves [send] as a [ServiceResponseError] whose message
    is [str] of the error and whose inner exception is the error;
    unlike for every other connection error, what [send] raises is no
    [ServiceRequestError]. *)
Theorem send_broken_connection env self req kw p l c e :
  In (EvRequest p l c (Raise e))
     (trace (snd (send env self req (call_frame kw)))) ->
  isinstance e requests_ConnectionError = true ->
  first_arg_is_protocol_error e = true ->
  exists w,
    fst (send env self req (call_frame kw)) = Raise w
    /\ exc_type w = ServiceResponseError
    /\ exc_args w = [PyStr (str env e)]
    /\ inner_exception w = Some e
    /\ isinstance w ServiceRequestError = false.
Proof.
  intros Hin He Hp.
  destruct (protocol_error_translated env e He Hp) as [Ht Ha].
  rewrite (blocking_outcome_surfaced _ _ _ _ _ _ _ _ Hin Ha).
  cbn [surfaced]. rewrite Ht.
  exists (wrap env ServiceResponseError e).
  destruct (wrap_spec env ServiceResponseError e) as (Hk & Hargs & Hi).
  do 3 (split; [done|]). split; [done|].
  unfold isinstance. rewrite Hk. reflexivity.
Qed.

Lemma no_retry_but_on_attribute_error_witness :
  (length (trace (snd (send trio_transitional (failing_transport no_read_attribute)
                         get_request (call_frame ∅)))) <= 2)%nat
  /\ ((1 < length (trace (snd (send trio_transitional
                                 (failing_transport no_read_attribute)
                                 get_request (call_frame ∅)))))%nat ->
      has_to_thread trio_transitional = true
      /\ has_run_sync_in_worker_thread trio_transitional = true
      /\ exists l c e,
           head (trace (snd (send trio_transitional
                               (failing_transport no_read_attribute)
                               get_request (call_frame ∅))))
           = Some (EvRequest to_thread_run_sync l c (Raise e))
           /\ isinstance e AttributeError = true).
Proof.
  exact (no_retry_but_on_attribute_error trio_transitional
           (failing_transport no_read_attribute) get_request ∅).
Defined.

Lemma send_broken_connection_witness :
  exists w,
    fst (send trio_current (failing_transport connection_aborted) get_request
           (call_frame ∅)) = Raise w
    /\ exc_type w = ServiceResponseError
    /\ exc_args w = [PyStr (str trio_current connection_aborted)]
    /\ inner_exception w = Some connection_aborted
    /\ isinstance w ServiceRequestError = false.
Proof.
  apply (send_broken_connection trio_current
           (failing_transport connection_aborted) get_request ∅
           to_thread_run_sync PyNone
           (request_arguments trio_current (failing_transport connection_aborted)
              get_request NoData ∅)).
  - vm_compute. left. reflexivity.
  - reflexivity.
  - reflexivity.
Defined.

(** X7.  Where trio has neither dispatch primitive, [send] raises the
    [AttributeError] of the missing attribute and the session is never
    asked, whatever the request and the keyword options. *)
Theorem send_without_primitive env self req kw :
  has_to_thread env = false ->
  has_run_sync_in_worker_thread env = false ->
  fst (send env self req (call_frame kw))
  = Raise (missing_attribute "run_sync_in_worker_thread")
  /\ trace (snd (send env self req (call_frame kw))) = [].
Proof.
  intros Hp Hl.
  pose proof (send_runs env self req kw) as R.
  inversion R as [ | k Hor | r0 | r0 | r0 c3 r2 | c3 r2 ]; try congruence.
  - split; reflexivity.
  - rewrite Hp, Hl in Hor. discriminate Hor.
Qed.

Lemma send_without_primitive_witness :
  fst (send trio_without_primitives answering_transport get_request
         (call_frame ∅))
  = Raise (missing_attribute "run_sync_in_worker_thread")
  /\ trace (snd (send trio_without_primitives answering_transport get_request
                   (call_frame ∅))) = [].
Proof.
  apply (send_without_primitive trio_without_primitives answering_transport
           get_request ∅); reflexivity.
Defined.

Lemma reserved_keyword_survives kw k :
  In k reserved_keywords -> leftover kw !! k = kw !! k.
Proof.
  intros Hk. apply leftover_keeps. revert Hk.
  unfold reserved_keywords, connection_options. cbn [In].
  intuition (subst; discriminate).
Qed.

Lemma reserved_keyword_repeated kw k v :
  In k reserved_keywords -> kw !! k = Some v ->
  exists k', repeated_keyword (leftover kw) = Some k'.
Proof.
  intros Hk Hv. unfold repeated_keyword.
  destruct (find _ named_keywords) as [k'|] eqn:Hf; [eauto|].
  exfalso.
  assert (Hn : In k named_keywords).
  { revert Hk. unfold reserved_keywords, named_keywords. cbn [In]. tauto. }
  pose proof (find_none _ _ Hf k Hn) as Hb. cbn beta in Hb.
  apply bool_decide_eq_false_1 in Hb. apply Hb.
  rewrite reserved_keyword_survives by done. eauto.
Qed.

(** X8.  A keyword option named like one of the keywords [send] fixes
    itself ([headers], [data], [files], [verify], [timeout], [cert],
    [allow_redirects]) makes [send] raise a [TypeError] before any
    blocking call, where trio has a dispatch primitive: the per-call
    timeout is [connection_timeout], not [timeout]. *)
Theorem reserved_keyword_is_a_type_error env self req kw k v :
  has_to_thread env || has_run_sync_in_worker_thread env = true ->
  In k reserved_keywords ->
  kw !! k = Some v ->
  (exists k', fst (send env self req (call_frame kw))
              = Raise (repeated_keyword_error k'))
  /\ trace (snd (send env self req (call_frame kw))) = [].
Proof.
  intros Hprim Hk Hv.
  destruct (reserved_keyword_repeated kw k v Hk Hv) as [k' Hk'].
  pose proof (send_runs env self req kw) as R.
  inversion R as [ Hp Hl | k0 Hor Hk0 | r0 | r0 | r0 c3 r2 | c3 r2 ];
    try congruence.
  - rewrite Hp, Hl in Hprim. discriminate Hprim.
  - split; [eauto | reflexivity].
Qed.

Lemma reserved_keyword_is_a_type_error_witness :
  (exists k', fst (send trio_current answering_transport get_request
                     (call_frame {[ "timeout" := PyInt 5 ]}))
              = Raise (repeated_keyword_error k'))
  /\ trace (snd (send trio_current answering_transport get_request
                   (call_frame {[ "timeout" := PyInt 5 ]}))) = [].
Proof.
  apply (reserved_keyword_is_a_type_error trio_current answering_transport
           get_request {[ "timeout" := PyInt 5 ]} "timeout" (PyInt 5)).
  - reflexivity.
  - cbn. tauto.
  - reflexivity.
Defined.

(** ** More on the streaming download *)

(** The run of [__anext__] whose first pull is not caught by
    [except AttributeError]. *)
Lemma anext_first_pull env g tr r rest :
  has_to_thread env || has_run_sync_in_worker_thread env = true ->
  Gen.next_of (Gen.iter_content_func g) = (r, rest) ->
  raises_AttributeError r = false ->
  Gen.__anext__ env {| Gen.this := g; Gen.trace := tr |}
  = (fst (Gen.settled r),
     {| Gen.this := Gen.advanced g rest;
        Gen.trace :=
          (tr ++ EvPull (first_primitive env) r :: snd (Gen.settled r))%list |}).
Proof.
  intros Hprim Hnext Ha.
  destruct (anext_runs env g tr) as (r' & rest' & evs & Hrun & R).
  rewrite Hrun. unfold first_primitive.
  inversion R as [ Hp Hl | r1 rest1 Hp H1 Ha1 | r1 rest1 Hp H1 Ha1 Hl
                 | r1 rest1 r2 rest2 Hp H1 Ha1 Hl H2 | r1 rest1 Hp Hl H1 ];
    subst.
  - rewrite Hp, Hl in Hprim. discriminate Hprim.
  - rewrite Hnext in H1. injection H1 as <- <-. rewrite Hp. reflexivity.
  - rewrite Hnext in H1. injection H1 as <- <-. congruence.
  - rewrite Hnext in H1. injection H1 as <- <-. congruence.
  - rewrite Hnext in H1. injection H1 as <- <-. rewrite Hp. reflexivity.
Qed.

(** X9.  A pull that gives a non-empty chunk returns that chunk and
    moves the iterator on by one; the connection stays open and nothing
    is logged. *)
Theorem chunk_is_handed_over env g b bs rest :
  has_to_thread env || has_run_sync_in_worker_thread env = true ->
  Gen.iter_content_func g = Yield (Some (b :: bs)) :: rest ->
  Gen.__anext__ env (Gen.fresh g)
  = (Return (Some (b :: bs)),
     {| Gen.this := Gen.advanced g rest;
        Gen.trace := [EvPull (first_primitive env) (Return (Some (b :: bs)))] |}).
Proof.
  intros Hprim Hit. unfold Gen.fresh.
  rewrite (anext_first_pull env g [] (Return (Some (b :: bs))) rest Hprim);
    [reflexivity | by rewrite Hit | reflexivity].
Qed.

Lemma chunk_is_handed_over_witness :
  Gen.__anext__ trio_current
    (Gen.fresh (generator_over (iter_content hello_response 4096)))
  = (Return (Some (literal "hell")),
     {| Gen.this :=
          Gen.advanced (generator_over (iter_content hello_response 4096))
            [Yield (Some (literal "o wo")); Yield (Some (literal "rld!"))];
        Gen.trace :=
          [EvPull (first_primitive trio_current)
             (Return (Some (literal "hell")))] |}).
Proof.
  exact (chunk_is_handed_over trio_current
           (generator_over (iter_content hello_response 4096))
           _ _ _ eq_refl eq_refl).
Defined.

Lemma exhausted_pull env g tr :
  has_to_thread env || has_run_sync_in_worker_thread env = true ->
  Gen.iter_content_func g = [] ->
  Gen.__anext__ env {| Gen.this := g; Gen.trace := tr |}
  = (Raise (Exc StopAsyncIteration [] None),
     {| Gen.this := Gen.advanced g [];
        Gen.trace :=
          (tr ++ [EvPull (first_primitive env)
                    (Raise (Exc _ResponseStopIteration [] None));
                  EvClose])%list |}).
Proof.
  intros Hprim Hit.
  rewrite (anext_first_pull env g tr
             (Raise (Exc _ResponseStopIteration [] None)) [] Hprim);
    [reflexivity | by rewrite Hit | reflexivity].
Qed.

(** X10.  An exhausted stream stays exhausted: once the iterator is at
    its end, every further pull raises [StopAsyncIteration], however
    many pulls came before, and no chunk is ever produced again. *)
Theorem exhausted_stream_stays_exhausted env g n :
  has_to_thread env || has_run_sync_in_worker_thread env = true ->
  Gen.iter_content_func g = [] ->
  fst (Gen.__anext__ env (Gen.pulls env n (Gen.fresh g)))
  = Raise (Exc StopAsyncIteration [] None)
  /\ Gen.iter_content_func (Gen.this (Gen.pulls env n (Gen.fresh g))) = [].
Proof.
  intros Hprim. unfold Gen.fresh. generalize (@nil event) as tr.
  revert g. induction n as [|n IH]; intros g tr Hit; cbn [Gen.pulls].
  - rewrite exhausted_pull by done. split; [reflexivity | exact Hit].
  - rewrite exhausted_pull by done. cbn [snd]. apply IH. reflexivity.
Qed.

Lemma exhausted_stream_stays_exhausted_witness :
  fst (Gen.__anext__ trio_current
         (Gen.pulls trio_current 3 (Gen.fresh (generator_over []))))
  = Raise (Exc StopAsyncIteration [] None)
  /\ Gen.iter_content_func
       (Gen.this (Gen.pulls trio_current 3 (Gen.fresh (generator_over []))))
     = [].
Proof.
  apply (exhausted_stream_stays_exhausted trio_current (generator_over []) 3);
    reflexivity.
Defined.

Lemma collect_yielding env chunks :
  has_to_thread env || has_run_sync_in_worker_thread env = true ->
  Forall (fun chunk => chunk <> []) chunks ->
  forall fuel g tr,
    (length chunks < fuel)%nat ->
    Gen.iter_content_func g = yielding chunks ->
    exists evs,
      Gen.collect env fuel {| Gen.this := g; Gen.trace := tr |}
      = (map Some chunks, None,
         {| Gen.this := Gen.advanced g [];
            Gen.trace := (tr ++ evs ++ [EvClose])%list |})
      /\ existsb Gen.is_warning evs = false
      /\ existsb Gen.is_close evs = false.
Proof.
  intros Hprim Hne. induction Hne as [|chunk chunks Hc Hne IH];
    intros fuel g tr Hfuel Hit.
  - destruct fuel as [|fuel]; [cbn in Hfuel; lia|]. cbn [Gen.collect].
    rewrite exhausted_pull by done.
    change (isinstance (Exc StopAsyncIteration [] None) StopAsyncIteration)
      with true. cbv iota.
    exists [EvPull (first_primitive env)
              (Raise (Exc _ResponseStopIteration [] None))].
    split; [reflexivity|]. split; reflexivity.
  - destruct fuel as [|fuel]; [cbn in Hfuel; lia|]. cbn [Gen.collect].
    destruct chunk as [|b bs]; [congruence|].
    rewrite (anext_first_pull env g tr (Return (Some (b :: bs)))
               (yielding chunks) Hprim);
      [| by rewrite Hit | reflexivity].
    cbn [Gen.settled not_chunk fst snd].
    destruct (IH fuel (Gen.advanced g (yielding chunks))
                (tr ++ [EvPull (first_primitive env) (Return (Some (b :: bs)))])%list)
      as (evs & Hcol & Hw & Hcl).
    + cbn in Hfuel. lia.
    + reflexivity.
    + rewrite Hcol.
      exists (EvPull (first_primitive env) (Return (Some (b :: bs))) :: evs).
      split; [|split; cbn [existsb Gen.is_warning Gen.is_close orb]; assumption].
      cbn [map]. rewrite <- app_assoc. reflexivity.
Qed.

(** X11.  A consumer of a stream whose iterator gives non-empty chunks
    and then ends collects exactly these chunks, in the order of the
    iterator, sees no error, and finds the connection closed, once, as
    the last effect, with nothing logged. *)
Theorem stream_delivers_the_chunks_in_order env chunks fuel g :
  has_to_thread env || has_run_sync_in_worker_thread env = true ->
  Forall (fun chunk => chunk <> []) chunks ->
  (length chunks < fuel)%nat ->
  Gen.iter_content_func g = yielding chunks ->
  exists evs,
    Gen.collect env fuel (Gen.fresh g)
    = (map Some chunks, None,
       {| Gen.this := Gen.advanced g [];
          Gen.trace := (evs ++ [EvClose])%list |})
    /\ existsb Gen.is_warning evs = false
    /\ existsb Gen.is_close evs = false.
Proof.
  intros Hprim Hne Hfuel Hit.
  exact (collect_yielding env chunks Hprim Hne fuel g [] Hfuel Hit).
Qed.

Lemma stream_delivers_the_chunks_in_order_witness :
  exists evs,
    Gen.collect trio_legacy 4
      (Gen.fresh (generator_over
                    (yielding [literal "hell"; literal "o wo"; literal "rld!"])))
    = (map Some [literal "hell"; literal "o wo"; literal "rld!"], None,
       {| Gen.this :=
            Gen.advanced
              (generator_over
                 (yielding [literal "hell"; literal "o wo"; literal "rld!"])) [];
          Gen.trace := (evs ++ [EvClose])%list |})
    /\ existsb Gen.is_warning evs = false
    /\ existsb Gen.is_close evs = false.
Proof.
  apply (stream_delivers_the_chunks_in_order trio_legacy
           [literal "hell"; literal "o wo"; literal "rld!"] 4
           (generator_over
              (yielding [literal "hell"; literal "o wo"; literal "rld!"]))).
  - reflexivity.
  - repeat constructor; discriminate.
  - cbn. lia.
  - reflexivity.
Defined.

Lemma not_an_exception_class e :
  isinstance e Exception = false ->
  isinstance e AttributeError = false
  /\ isinstance e _ResponseStopIteration = false
  /\ isinstance e requests_StreamConsumedError = false.
Proof.
  destruct e as [c a i]. unfold isinstance. cbn [exc_type].
  intros H. destruct c; try discriminate H; repeat split.
Qed.

(** X12.  An exception of a pull that is no [Exception] (the
    cancellation of the task, a keyboard interrupt) leaves [__anext__]
    as it is: no handler matches, so the connection is not closed and
    nothing is logged. *)
Theorem non_exception_passes_through env g p e :
  In (EvPull p (Raise e)) (Gen.trace (snd (Gen.__anext__ env (Gen.fresh g)))) ->
  isinstance e Exception = false ->
  fst (Gen.__anext__ env (Gen.fresh g)) = Raise e
  /\ existsb Gen.is_close (Gen.trace (snd (Gen.__anext__ env (Gen.fresh g))))
     = false
  /\ existsb Gen.is_warning (Gen.trace (snd (Gen.__anext__ env (Gen.fresh g))))
     = false.
Proof.
  intros Hin He.
  destruct (not_an_exception_class e He) as (Ha & Hs & Hc).
  destruct (deciding_pull env g p (Raise e) Hin Ha) as (Hr & before & Ht & Hb).
  unfold Gen.settled in Hr, Ht. rewrite Hs, Hc, He in Hr, Ht.
  cbn [fst snd] in Hr, Ht. rewrite app_nil_r in Ht. rewrite Ht.
  split; [exact Hr|]. by apply only_pulls_no_effect.
Qed.

Lemma non_exception_passes_through_witness :
  fst (Gen.__anext__ trio_current (Gen.fresh (generator_over [Throw cancelled])))
  = Raise cancelled
  /\ existsb Gen.is_close
       (Gen.trace (snd (Gen.__anext__ trio_current
                          (Gen.fresh (generator_over [Throw cancelled])))))
     = false
  /\ existsb Gen.is_warning
       (Gen.trace (snd (Gen.__anext__ trio_current
                          (Gen.fresh (generator_over [Throw cancelled])))))
     = false.
Proof.
  apply (non_exception_passes_through trio_current
           (generator_over [Throw cancelled]) to_thread_run_sync cancelled).
  - left. reflexivity.
  - reflexivity.
Defined.

(** X13.  Where trio has neither dispatch primitive, a pull does not
    touch the iterator: the [AttributeError] of the missing attribute is
    logged at warning level, the connection is closed, and the error is
    raised. *)
Theorem pull_without_primitive env g :
  has_to_thread env = false ->
  has_run_sync_in_worker_thread env = false ->
  Gen.__anext__ env (Gen.fresh g)
  = (Raise (missing_attribute "run_sync_in_worker_thread"),
     {| Gen.this := g;
        Gen.trace :=
          [EvWarning Gen.unable (missing_attribute "run_sync_in_worker_thread");
           EvClose] |}).
Proof.
  intros Hp Hl. unfold Gen.fresh.
  destruct (anext_runs env g []) as (r & rest & evs & Hrun & R).
  rewrite Hrun.
  inversion R; subst; try congruence.
  rewrite advanced_same. reflexivity.
Qed.

Lemma pull_without_primitive_witness :
  Gen.__anext__ trio_without_primitives
    (Gen.fresh (generator_over (iter_content hello_response 4096)))
  = (Raise (missing_attribute "run_sync_in_worker_thread"),
     {| Gen.this := generator_over (iter_content hello_response 4096);
        Gen.trace :=
          [EvWarning Gen.unable (missing_attribute "run_sync_in_worker_thread");
           EvClose] |}).
Proof.
  apply (pull_without_primitive trio_without_primitives
           (generator_over (iter_content hello_response 4096)));
    reflexivity.
Defined.

(** X14.  [stream_download] accepts no keyword but [decompress]: any
    other one makes it raise a [TypeError] instead of producing a
    generator. *)
Theorem unexpected_keyword_rejected response pipeline kw k v :
  k <> "decompress" ->
  kw !! k = Some v ->
  exists e,
    stream_download response pipeline kw = Raise e
    /\ exc_type e = TypeError.
Proof.
  intros Hk Hv. unfold stream_download, Gen.__init__.
  destruct (map_to_list (delete "decompress" kw)) as [|[k' v'] rest] eqn:Hl.
  - apply map_to_list_empty_iff in Hl.
    assert (Hd : delete "decompress" kw !! k = Some v)
      by (by rewrite lookup_delete_ne).
    rewrite Hl, lookup_empty in Hd. discriminate Hd.
  - eexists. split; reflexivity.
Qed.

Lemma unexpected_keyword_rejected_witness :
  exists e,
    stream_download hello PyNone {[ "chunk_size" := PyInt 10 ]} = Raise e
    /\ exc_type e = TypeError.
Proof.
  apply (unexpected_keyword_rejected hello PyNone
           {[ "chunk_size" := PyInt 10 ]} "chunk_size" (PyInt 10)).
  - discriminate.
  - reflexivity.
Defined.

Lemma send_returned env self req kw r :
  fst (send env self req (call_frame kw)) = Return r ->
  exists p l c response,
    In (EvRequest p l c (Return response))
       (trace (snd (send env self req (call_frame kw))))
    /\ r = {| request := req; internal_response := response;
              block_size := data_block_size (connection_config self) |}.
Proof.
  intros Hr.
  pose proof (send_runs env self req kw) as R.
  assert (Hs : forall r0, surfaced env self req r0 = Return r ->
             exists response, r0 = Return response
               /\ r = {| request := req; internal_response := response;
                         block_size := data_block_size (connection_config self) |}).
  { intros [response|e]; cbn [surfaced].
    - intros [= <-]. eauto.
    - destruct (translate env e); discriminate. }
  inversion R as [ H1 H2 Hres | k H1 H2 Hres | r0 H1 H2 H3 H4 Hres
                 | r0 H1 H2 H3 H4 H5 Hres | r0 c3 r2 H1 H2 H3 H4 H5 H6 H7 Hres
                 | c3 r2 H1 H2 H3 H4 H5 Hres ];
    rewrite <- Hres in Hr; try discriminate Hr;
    destruct (Hs _ Hr) as (response & Heq & ->).
  - rewrite Heq. do 4 eexists. split; [left; reflexivity | reflexivity].
  - rewrite Heq. do 4 eexists. split; [right; left; reflexivity | reflexivity].
  - rewrite Heq. do 4 eexists. split; [left; reflexivity | reflexivity].
Qed.

(** X15.  The download of a response [send] returned reads, with
    default options, the decoded content of the session's response in
    blocks of the size the connection configuration of the transport
    sets, for the request that was sent. *)
Theorem download_follows_the_transport env self req kw r pipeline g :
  fst (send env self req (call_frame kw)) = Return r ->
  stream_download r pipeline ∅ = Return g ->
  Gen.request g = req
  /\ Gen.block_size g = data_block_size (connection_config self)
  /\ exists p l c response,
       In (EvRequest p l c (Return response))
          (trace (snd (send env self req (call_frame kw))))
       /\ Gen.iter_content_func g
          = iter_content response (data_block_size (connection_config self)).
Proof.
  intros Hr Hg.
  destruct (send_returned _ _ _ _ _ Hr) as (p & l & c & response & Hin & ->).
  unfold stream_download, Gen.__init__, _get_internal_response, _get_block_size,
    Gen.request_of in Hg.
  cbn [internal_response block_size request] in Hg.
  rewrite delete_empty, map_to_list_empty, lookup_empty in Hg.
  cbn [default truthy] in Hg.
  destruct (int _) as [n|e]; [|discriminate Hg].
  injection Hg as <-. repeat split. eauto 6.
Qed.

Lemma download_follows_the_transport_witness :
  Gen.request (generator_over (iter_content hello_response 4096)) = get_request
  /\ Gen.block_size (generator_over (iter_content hello_response 4096))
     = data_block_size (connection_config answering_transport)
  /\ exists p l c response,
       In (EvRequest p l c (Return response))
          (trace (snd (send trio_current answering_transport get_request
                         (call_frame ∅))))
       /\ Gen.iter_content_func (generator_over (iter_content hello_response 4096))
          = iter_content response
              (data_block_size (connection_config answering_transport)).
Proof.
  apply (download_follows_the_transport trio_current answering_transport
           get_request ∅ hello PyNone
           (generator_over (iter_content hello_response 4096)));
    reflexivity.
Defined.

(** ** The models *)

Ltac model_lookup :=
  repeat (rewrite lookup_insert_eq
          || rewrite lookup_insert_ne by discriminate).

Lemma keyword_insert (kw : gmap string pyobj) k v :
  Models.keyword (<[k := v]> kw) k = v.
Proof. unfold Models.keyword. by rewrite lookup_insert_eq. Qed.

Lemma tracked_resource_init M c kw self :
  Models.TrackedResource___init__ M c kw = Return self ->
  exists location,
    kw !! "location" = Some location
    /\ self = <["location" := location]>
               (<["tags" := Models.keyword kw "tags"]>
                  (<["type" := PyNone]> (<["name" := PyNone]> (<["id" := PyNone]>
                     (M c (Models.others ["location"; "tags"] kw)))))).
Proof.
  unfold Models.TrackedResource___init__, Models.Resource___init__.
  destruct (kw !! "location") as [location|]; [|discriminate].
  intros [= <-]. eauto.
Qed.

Lemma sap_monitor_init M c kw self :
  Models.SapMonitor___init__ M c kw = Return self ->
  exists location base,
    kw !! "location" = Some location
    /\ self
       = <["monitor_subnet" := Models.keyword kw "monitor_subnet"]>
           (<["sap_monitor_collector_version" := PyNone]>
           (<["log_analytics_workspace_shared_key" :=
                Models.keyword kw "log_analytics_workspace_shared_key"]>
           (<["log_analytics_workspace_id" :=
                Models.keyword kw "log_analytics_workspace_id"]>
           (<["enable_customer_analytics" :=
                Models.keyword kw "enable_customer_analytics"]>
           (<["log_analytics_workspace_arm_id" :=
                Models.keyword kw "log_analytics_workspace_arm_id"]>
           (<["managed_resource_group_name" := PyNone]>
           (<["provisioning_state" := PyNone]>
           (<["location" := location]>
           (<["tags" := Models.keyword kw "tags"]>
           (<["type" := PyNone]> (<["name" := PyNone]> (<["id" := PyNone]>
              base)))))))))))).
Proof.
  unfold Models.SapMonitor___init__.
  destruct (kw !! "location") as [location|]; [|discriminate].
  match goal with
  | |- context [Models.TrackedResource___init__ M c ?k] =>
      destruct (Models.TrackedResource___init__ M c k) as [tracked|e] eqn:Ht
  end; [|discriminate].
  apply tracked_resource_init in Ht as (location' & Hl & ->).
  rewrite lookup_insert_ne, lookup_insert_eq in Hl by discriminate.
  injection Hl as <-.
  rewrite keyword_insert. intros [= <-]. eauto.
Qed.

(** X16.  Whatever keyword arguments a model is built with, and
    whatever [Model.__init__] does with them, every attribute the
    class's [_validation] marks [readonly] is [None] on the new object:
    values for server-populated attributes are never taken from the
    caller. *)
Theorem readonly_attributes_start_as_None M c kw self a :
  Models.construct M c kw = Return self ->
  Models.marked Models.readonly c a ->
  self !! a = Some PyNone.
Proof.
  unfold Models.marked.
  destruct c; cbn [Models.construct Models._validation In];
    intros Hc Ha;
    try (apply sap_monitor_init in Hc as (location & base & _ & ->));
    try (apply tracked_resource_init in Hc as (location & _ & ->));
    try (revert Hc;
         unfold Models.AzureEntityResource___init__,
           Models.ProviderInstance___init__, Models.ProxyResource___init__,
           Models.Resource___init__, Models.CloudError___init__,
           Models.Display___init__, Models.ErrorResponse___init__,
           Models.ErrorResponseError___init__, Models.Operation___init__,
           Models.Tags___init__;
         intros [= <-]);
    repeat match goal with
           | H : _ \/ _ |- _ => destruct H as [H|H]
           | H : False |- _ => destruct H
           | H : (_, _) = (_, _) |- _ => discriminate H
           | H : (_, _) = (_, _) |- _ => injection H as <-
           end;
    model_lookup; reflexivity.
Qed.

Lemma readonly_attributes_start_as_None_witness :
  built (Models.construct Models.sets_everything Models.ProviderInstance
           provider_instance_arguments) !! "id"
  = Some PyNone.
Proof.
  apply (readonly_attributes_start_as_None Models.sets_everything
           Models.ProviderInstance provider_instance_arguments
           (built (Models.construct Models.sets_everything
                     Models.ProviderInstance provider_instance_arguments))
           "id").
  - reflexivity.
  - cbn. tauto.
Defined.

(** X17.  Every attribute of a class's [_attribute_map] that is not
    marked [readonly] holds, on the new object, the keyword argument of
    its name, [None] where the caller gave none, whatever
    [Model.__init__] does: what is built can be read back. *)
Theorem parameters_are_stored M c kw self a :
  Models.construct M c kw = Return self ->
  In a (Models.attributes c) ->
  ~ Models.marked Models.readonly c a ->
  self !! a = Some (Models.keyword kw a).
Proof.
  unfold Models.marked, Models.attributes.
  destruct c; cbn [Models.construct Models._validation Models._attribute_map
                   map fst In];
    intros Hc Ha Hn;
    try (apply sap_monitor_init in Hc as (location & base & Hl & ->));
    try (apply tracked_resource_init in Hc as (location & Hl & ->));
    try (revert Hc;
         unfold Models.AzureEntityResource___init__,
           Models.ProviderInstance___init__, Models.ProxyResource___init__,
           Models.Resource___init__, Models.CloudError___init__,
           Models.Display___init__, Models.ErrorResponse___init__,
           Models.ErrorResponseError___init__, Models.Operation___init__,
           Models.Tags___init__;
         intros [= <-]);
    repeat match goal with
           | H : _ \/ _ |- _ => destruct H as [H|H]
           | H : False |- _ => destruct H
           end; subst a;
    try (exfalso; apply Hn; tauto);
    model_lookup; try reflexivity;
    unfold Models.keyword; rewrite Hl; reflexivity.
Qed.

Lemma parameters_are_stored_witness :
  built (Models.construct Models.sets_nothing Models.SapMonitor
           sap_monitor_arguments) !! "enable_customer_analytics"
  = Some (Models.keyword sap_monitor_arguments "enable_customer_analytics").
Proof.
  apply (parameters_are_stored Models.sets_nothing Models.SapMonitor
           sap_monitor_arguments
           (built (Models.construct Models.sets_nothing Models.SapMonitor
                     sap_monitor_arguments))
           "enable_customer_analytics").
  - reflexivity.
  - cbn. tauto.
  - unfold Models.marked. cbn. intuition discriminate.
Defined.

(** X18.  Building a model fails exactly when an attribute its
    [_validation] marks [required] is not among the keyword arguments,
    and then with the [TypeError] of the missing keyword: of the classes
    of the module only [TrackedResource] and [SapMonitor] can fail, on
    [location]. *)
Theorem construction_fails_on_missing_required M c kw :
  (forall e,
      Models.construct M c kw = Raise e ->
      exists a, Models.marked Models.required c a
                /\ kw !! a = None
                /\ e = Models.missing_keyword a)
  /\ (forall a,
        Models.marked Models.required c a ->
        kw !! a = None ->
        Models.construct M c kw = Raise (Models.missing_keyword a)).
Proof.
  unfold Models.marked. split.
  - intros e.
    destruct c; cbn [Models.construct Models._validation In];
      unfold Models.AzureEntityResource___init__,
        Models.ProviderInstance___init__, Models.ProxyResource___init__,
        Models.Resource___init__, Models.CloudError___init__,
        Models.Display___init__, Models.ErrorResponse___init__,
        Models.ErrorResponseError___init__, Models.Operation___init__,
        Models.Tags___init__;
      try discriminate.
    + unfold Models.TrackedResource___init__, Models.Resource___init__.
      destruct (kw !! "location") eqn:Hl; [discriminate|].
      intros [= <-]. exists "location". cbn. tauto.
    + unfold Models.SapMonitor___init__, Models.TrackedResource___init__,
        Models.Resource___init__.
      destruct (kw !! "location") eqn:Hl.
      * rewrite lookup_insert_ne, lookup_insert_eq by discriminate.
        discriminate.
      * intros [= <-]. exists "location". cbn. tauto.
  - intros a.
    destruct c; cbn [Models.construct Models._validation In]; intros Ha Hn;
      repeat match goal with
             | H : _ \/ _ |- _ => destruct H as [H|H]
             | H : False |- _ => destruct H
             | H : (_, _) = (_, _) |- _ => discriminate H
             | H : (_, _) = (_, _) |- _ => injection H as <-
             end.
    + unfold Models.TrackedResource___init__. by rewrite Hn.
    + unfold Models.SapMonitor___init__. by rewrite Hn.
Qed.

(** ** The aggregated-cost operations *)

Lemma answered_run svc cls error_map pr tr :
  let wanted := Ops.model_name "ManagementGroupAggregatedCostResult" in
  (Ops.check_status svc (Ops.http_response pr) error_map ;;;
   deserialized <~
     Ops.perform (Ops.Deserialize wanted (inr pr))
       (Ops.deserialize svc wanted (inr pr)) ;;
   if Ops.truthy_value cls then Ops.call_cls svc cls pr deserialized
   else ret deserialized) tr
  = (fst (Ops.answered svc cls error_map pr),
     (tr ++ snd (Ops.answered svc cls error_map pr))%list).
Proof.
  cbv zeta.
  unfold Ops.answered, Ops.check_status, Ops.call_cls, Ops.perform, bind, ret,
    raise.
  cbn [In].
  destruct (decide (Ops.status_code (Ops.http_response pr) = 200)) as [Hs|Hs].
  - rewrite (bool_decide_eq_true_2 (Ops.status_code _ = 200)) by done.
    rewrite (bool_decide_eq_true_2 (_ \/ False)) by (by left).
    cbn [negb].
    destruct (Ops.deserialize svc _ (inr pr)) as [d|e]; [|reflexivity].
    destruct (Ops.truthy_value cls); [|reflexivity].
    destruct cls; cbn [fst snd]; rewrite <- ?app_assoc; reflexivity.
  - rewrite (bool_decide_eq_false_2 (Ops.status_code _ = 200)) by done.
    rewrite (bool_decide_eq_false_2 (_ \/ False)) by (intros [?|[]]; congruence).
    cbn [negb].
    destruct (Ops.map_error svc _ _ _) as [u|e]; [|reflexivity].
    destruct (Ops.deserialize svc _ (inl _)) as [model|e]; cbn [fst snd];
      rewrite <- ?app_assoc; reflexivity.
Qed.

(** Either operation runs as [amounts_to] says. *)
Lemma invoke_amounts_to svc op id kw :
  Ops.invoke svc op id kw [] = Ops.amounts_to svc op id kw.
Proof.
  unfold Ops.amounts_to, Ops.forwarded.
  destruct op as [filter|period]; cbn [Ops.invoke];
    [unfold Ops.get_by_management_group
    |unfold Ops.get_for_billing_period_by_management_group];
    rewrite (lookup_delete_ne kw "cls" "error_map") by discriminate;
    unfold bind at 1; unfold Ops.lift at 1;
    (destruct (Ops.update _ _) as [error_map|e]; [|reflexivity]);
    unfold Ops.prepared.
  - unfold bind at 1, Ops.lift at 1.
    destruct (Ops.serialize_url svc _ id _) as [mg|e]; [|reflexivity].
    unfold bind at 1, Ops.lift at 1.
    destruct (Ops.format_url svc _ _) as [url|e]; [|reflexivity].
    unfold bind at 1, Ops.lift at 1.
    destruct (Ops.serialize_query svc "api_version" _ _) as [version|e];
      [|reflexivity].
    unfold bind at 1.
    destruct filter as [f|].
    + unfold bind at 1, Ops.lift at 1.
      destruct (Ops.serialize_query svc "filter" f _) as [fv|e]; [|reflexivity].
      unfold ret at 1.
      unfold bind at 1, Ops.lift at 1.
      destruct (Ops.serialize_header svc _ _ _) as [accept|e]; [|reflexivity].
      unfold bind at 1, Ops.perform at 1.
      destruct (Ops.client_get svc _ _ _) as [request|e]; [|reflexivity].
      unfold bind at 1, Ops.run_pipeline.
      destruct (_ !! "stream"); [reflexivity|].
      unfold Ops.perform at 1.
      destruct (Ops.pipeline_run svc _ _ _) as [pr|e]; [|reflexivity].
      rewrite answered_run.
      destruct (Ops.answered _ _ _ _); reflexivity.
    + unfold ret at 1.
      unfold bind at 1, Ops.lift at 1.
      destruct (Ops.serialize_header svc _ _ _) as [accept|e]; [|reflexivity].
      unfold bind at 1, Ops.perform at 1.
      destruct (Ops.client_get svc _ _ _) as [request|e]; [|reflexivity].
      unfold bind at 1, Ops.run_pipeline.
      destruct (_ !! "stream"); [reflexivity|].
      unfold Ops.perform at 1.
      destruct (Ops.pipeline_run svc _ _ _) as [pr|e]; [|reflexivity].
      rewrite answered_run.
      destruct (Ops.answered _ _ _ _); reflexivity.
  - unfold bind at 1, Ops.lift at 1.
    destruct (Ops.serialize_url svc _ id _) as [mg|e]; [|reflexivity].
    unfold bind at 1, Ops.lift at 1.
    destruct (Ops.serialize_url svc _ period _) as [bp|e]; [|reflexivity].
    unfold bind at 1, Ops.lift at 1.
    destruct (Ops.format_url svc _ _) as [url|e]; [|reflexivity].
    unfold bind at 1, Ops.lift at 1.
    destruct (Ops.serialize_query svc "api_version" _ _) as [version|e];
      [|reflexivity].
    unfold bind at 1, Ops.lift at 1.
    destruct (Ops.serialize_header svc _ _ _) as [accept|e]; [|reflexivity].
    unfold bind at 1, Ops.perform at 1.
    destruct (Ops.client_get svc _ _ _) as [request|e]; [|reflexivity].
    unfold bind at 1, Ops.run_pipeline.
    destruct (_ !! "stream"); [reflexivity|].
    unfold Ops.perform at 1.
    destruct (Ops.pipeline_run svc _ _ _) as [pr|e]; [|reflexivity].
    rewrite answered_run.
    destruct (Ops.answered _ _ _ _); reflexivity.
Qed.

(** The stages of an operation that got as far as the pipeline. *)
Lemma reached_pipeline svc op id kw rq st kw' :
  In (Ops.Run rq st kw') (snd (Ops.invoke svc op id kw [])) ->
  st = false /\ kw' = Ops.forwarded kw
  /\ Ops.forwarded kw !! "stream" = None
  /\ exists error_map url query headers,
       Ops.update Ops.default_error_map
         (default (Ops.VDict ∅) (kw !! "error_map")) = Return error_map
       /\ Ops.prepared svc op id = Return (url, query, headers)
       /\ Ops.client_get svc url query headers = Return rq
       /\ forall pr,
            Ops.pipeline_run svc rq false (Ops.forwarded kw) = Return pr ->
            Ops.invoke svc op id kw []
            = (fst (Ops.answered svc (default Ops.VNone (kw !! "cls"))
                      error_map pr),
               Ops.Get url query headers
               :: Ops.Run rq false (Ops.forwarded kw)
               :: snd (Ops.answered svc (default Ops.VNone (kw !! "cls"))
                         error_map pr)).
Proof.
  rewrite invoke_amounts_to. unfold Ops.amounts_to.
  destruct (Ops.update _ _) as [error_map|e] eqn:Hu; [|intros []].
  destruct (Ops.prepared svc op id) as [[[url query] headers]|e] eqn:Hpre;
    [|intros []].
  destruct (Ops.client_get svc url query headers) as [request|e] eqn:Hget;
    [|intros [Hin|[]]; discriminate Hin].
  destruct (Ops.forwarded kw !! "stream") as [v|] eqn:Hs;
    [intros [Hin|[]]; discriminate Hin|].
  assert (Hcalls : forall r calls,
             Ops.answered svc (default Ops.VNone (kw !! "cls")) error_map r
             = calls -> ~ In (Ops.Run rq st kw') (snd calls)).
  { intros r calls <-. unfold Ops.answered.
    repeat match goal with
           | |- context [match ?r with Return _ => _ | Raise _ => _ end] =>
               destruct r
           | |- context [if ?b then _ else _] => destruct b
           | |- context [match ?v with Ops.VCallable _ => _ | _ => _ end] =>
               destruct v
           end; cbn [snd In]; intuition discriminate. }
  destruct (Ops.pipeline_run svc request false (Ops.forwarded kw)) as [pr|e] eqn:Hp.
  - destruct (Ops.answered _ _ _ pr) as [r calls] eqn:Ha.
    intros [Hin|[Hin|Hin]]; [discriminate Hin| |].
    + injection Hin as <- <- <-.
      do 3 (split; [reflexivity|]).
      exists error_map, url, query, headers.
      do 3 (split; [first [assumption|reflexivity]|]).
      intros pr' Hp'. rewrite Hp in Hp'. injection Hp' as <-.
      rewrite Ha. reflexivity.
    + exfalso. exact (Hcalls pr _ Ha Hin).
  - intros [Hin|[Hin|[]]]; [discriminate Hin|].
    injection Hin as <- <- <-.
    do 3 (split; [reflexivity|]).
    exists error_map, url, query, headers.
    do 3 (split; [first [assumption|reflexivity]|]).
    intros pr' Hp'. rewrite Hp in Hp'. discriminate Hp'.
Qed.

Lemma returned_value svc op id kw x :
  fst (Ops.invoke svc op id kw []) = Return x ->
  exists rq pr error_map url query headers,
    Ops.pipeline_run svc rq false (Ops.forwarded kw) = Return pr
    /\ Ops.invoke svc op id kw []
       = (fst (Ops.answered svc (default Ops.VNone (kw !! "cls")) error_map pr),
          Ops.Get url query headers
          :: Ops.Run rq false (Ops.forwarded kw)
          :: snd (Ops.answered svc (default Ops.VNone (kw !! "cls"))
                    error_map pr)).
Proof.
  rewrite invoke_amounts_to. unfold Ops.amounts_to.
  destruct (Ops.update _ _) as [error_map|e]; [|discriminate].
  destruct (Ops.prepared svc op id) as [[[url query] headers]|e]; [|discriminate].
  destruct (Ops.client_get svc url query headers) as [request|e]; [|discriminate].
  destruct (Ops.forwarded kw !! "stream") as [v|]; [discriminate|].
  destruct (Ops.pipeline_run svc request false (Ops.forwarded kw)) as [pr|e] eqn:Hp;
    [|discriminate].
  destruct (Ops.answered _ _ _ pr) as [r calls] eqn:Ha. intros _.
  exists request, pr, error_map, url, query, headers. split; [exact Hp|].
  rewrite Ha. reflexivity.
Qed.

Lemma answered_value svc cls error_map pr x :
  fst (Ops.answered svc cls error_map pr) = Return x ->
  Ops.status_code (Ops.http_response pr) = 200
  /\ exists d,
       Ops.deserialize svc
         (Ops.model_name "ManagementGroupAggregatedCostResult") (inr pr)
       = Return d
       /\ (if Ops.truthy_value cls
           then exists f, cls = Ops.VCallable f
                          /\ Ops.apply_callable svc f pr d = Return x
           else x = d)
       /\ forall status response m,
            ~ In (Ops.MapError status response m)
                 (snd (Ops.answered svc cls error_map pr)).
Proof.
  unfold Ops.answered. case_bool_decide as Hs.
  - destruct (Ops.deserialize svc _ (inr pr)) as [d|e]; [|discriminate].
    destruct (Ops.truthy_value cls) eqn:Ht.
    + destruct cls; try discriminate. cbn [fst snd]. intros Hx.
      split; [exact Hs|]. exists d. split; [reflexivity|].
      split; [eauto|]. cbn [In]. intuition discriminate.
    + cbn [fst snd]. intros [= ->].
      split; [exact Hs|]. exists x. split; [reflexivity|].
      split; [reflexivity|]. cbn [In]. intuition discriminate.
  - destruct (Ops.map_error svc _ _ _); [|discriminate].
    destruct (Ops.deserialize svc _ (inl _)); discriminate.
Qed.

(** X19.  Either operation returns a value only when the pipeline
    answered with status 200: the value is then what the deserializer
    built from the pipeline response, or, with a [cls] callback, what the
    callback made of it, and [map_error] was never asked. *)
Theorem returns_only_on_200 svc op id kw x :
  fst (Ops.invoke svc op id kw []) = Return x ->
  exists rq pr d,
    In (Ops.Run rq false (Ops.forwarded kw)) (snd (Ops.invoke svc op id kw []))
    /\ Ops.pipeline_run svc rq false (Ops.forwarded kw) = Return pr
    /\ Ops.status_code (Ops.http_response pr) = 200
    /\ Ops.deserialize svc
         (Ops.model_name "ManagementGroupAggregatedCostResult") (inr pr)
       = Return d
    /\ (if Ops.truthy_value (default Ops.VNone (kw !! "cls"))
        then exists f, default Ops.VNone (kw !! "cls") = Ops.VCallable f
                       /\ Ops.apply_callable svc f pr d = Return x
        else x = d)
    /\ forall status response error_map,
         ~ In (Ops.MapError status response error_map)
              (snd (Ops.invoke svc op id kw [])).
Proof.
  intros H.
  destruct (returned_value _ _ _ _ _ H)
    as (rq & pr & error_map & url & query & headers & Hp & Hrun).
  rewrite Hrun in H |- *. cbn [fst snd] in *.
  destruct (answered_value _ _ _ _ _ H) as (Hs & d & Hd & Hx & Hm).
  exists rq, pr, d. split; [right; left; reflexivity|].
  repeat (split; [assumption|]).
  intros status response m [Hin|[Hin|Hin]]; try discriminate Hin.
  exact (Hm _ _ _ Hin).
Qed.

Lemma returns_only_on_200_witness :
  exists rq pr d,
    In (Ops.Run rq false (Ops.forwarded ∅))
       (snd (Ops.invoke (Ops.answering 200) (Ops.by_management_group None)
               "group" ∅ []))
    /\ Ops.pipeline_run (Ops.answering 200) rq false (Ops.forwarded ∅) = Return pr
    /\ Ops.status_code (Ops.http_response pr) = 200
    /\ Ops.deserialize (Ops.answering 200)
         (Ops.model_name "ManagementGroupAggregatedCostResult") (inr pr)
       = Return d
    /\ (if Ops.truthy_value (default Ops.VNone ((∅ : gmap string Ops.value) !! "cls"))
        then exists f,
               default Ops.VNone ((∅ : gmap string Ops.value) !! "cls")
               = Ops.VCallable f
               /\ Ops.apply_callable (Ops.answering 200) f pr d = Return 7%nat
        else 7%nat = d)
    /\ forall status response error_map,
         ~ In (Ops.MapError status response error_map)
              (snd (Ops.invoke (Ops.answering 200)
                      (Ops.by_management_group None) "group" ∅ [])).
Proof.
  apply (returns_only_on_200 (Ops.answering 200) (Ops.by_management_group None)
           "group" ∅ 7%nat).
  reflexivity.
Defined.







(** X22.  The pipeline is run without streaming and with the keyword
    options of the caller except [cls] and [error_map], which the
    operation keeps for itself. *)
Theorem pipeline_gets_the_other_options svc op id kw rq st kw' :
  In (Ops.Run rq st kw') (snd (Ops.invoke svc op id kw [])) ->
  st = false
  /\ kw' !! "cls" = None
  /\ kw' !! "error_map" = None
  /\ forall k, k <> "cls" -> k <> "error_map" -> kw' !! k = kw !! k.
Proof.
  intros Hin.
  destruct (reached_pipeline _ _ _ _ _ _ _ Hin) as (-> & -> & _).
  unfold Ops.forwarded. split; [reflexivity|].
  split; [by rewrite lookup_delete_ne, lookup_delete_eq|].
  split; [by rewrite lookup_delete_eq|].
  intros k H1 H2. by rewrite !lookup_delete_ne.
Qed.

Lemma pipeline_gets_the_other_options_witness :
  let kw : gmap string Ops.value :=
    {[ "cls" := Ops.VCallable 5; "retry_total" := Ops.VInt 3 ]} in
  false = false
  /\ Ops.forwarded kw !! "cls" = None
  /\ Ops.forwarded kw !! "error_map" = None
  /\ forall k, k <> "cls" -> k <> "error_map" -> Ops.forwarded kw !! k = kw !! k.
Proof.
  apply (pipeline_gets_the_other_options (Ops.answering 200)
           (Ops.by_management_group (Some "properties/usageStart ge '2020'"))
           "group"
           {[ "cls" := Ops.VCallable 5; "retry_total" := Ops.VInt 3 ]}
           1%nat).
  vm_compute. right. left. reflexivity.
Defined.

(** X23.  A [stream] keyword option repeats the [stream=False] of the
    call of the pipeline: the operation raises and the pipeline is never
    run. *)
Theorem stream_option_never_reaches_the_pipeline svc op id kw v :
  kw !! "stream" = Some v ->
  (exists e, fst (Ops.invoke svc op id kw []) = Raise e)
  /\ forall rq st kw', ~ In (Ops.Run rq st kw') (snd (Ops.invoke svc op id kw [])).
Proof.
  intros Hv.
  assert (Hf : Ops.forwarded kw !! "stream" = Some v).
  { unfold Ops.forwarded. by rewrite !lookup_delete_ne. }
  assert (Hno : forall rq st kw',
             ~ In (Ops.Run rq st kw') (snd (Ops.invoke svc op id kw []))).
  { intros rq st kw' Hin.
    destruct (reached_pipeline _ _ _ _ _ _ _ Hin) as (_ & _ & Hs & _).
    congruence. }
  split; [|exact Hno].
  destruct (fst (Ops.invoke svc op id kw [])) as [x|e] eqn:Hr; [|eauto].
  exfalso.
  destruct (returned_value _ _ _ _ _ Hr)
    as (rq & pr & error_map & url & query & headers & _ & Hrun).
  apply (Hno rq false (Ops.forwarded kw)). rewrite Hrun. right. left. reflexivity.
Qed.

Lemma stream_option_never_reaches_the_pipeline_witness :
  (exists e,
      fst (Ops.invoke (Ops.answering 200) (Ops.for_billing_period "202001")
             "group" {[ "stream" := Ops.VBool true ]} []) = Raise e)
  /\ forall rq st kw',
       ~ In (Ops.Run rq st kw')
            (snd (Ops.invoke (Ops.answering 200)
                    (Ops.for_billing_period "202001") "group"
                    {[ "stream" := Ops.VBool true ]} [])).
Proof.
  apply (stream_option_never_reaches_the_pipeline (Ops.answering 200)
           (Ops.for_billing_period "202001") "group"
           {[ "stream" := Ops.VBool true ]} (Ops.VBool true)).
  reflexivity.
Defined.

Lemma got svc op id kw url query headers :
  In (Ops.Get url query headers) (snd (Ops.invoke svc op id kw [])) ->
  Ops.prepared svc op id = Return (url, query, headers).
Proof.
  rewrite invoke_amounts_to. unfold Ops.amounts_to.
  destruct (Ops.update _ _) as [error_map|e]; [|intros []].
  destruct (Ops.prepared svc op id) as [[[url' query'] headers']|e]; [|intros []].
  assert (Hans : forall cls pr,
             ~ In (Ops.Get url query headers)
                  (snd (Ops.answered svc cls error_map pr))).
  { intros cls pr. unfold Ops.answered.
    repeat match goal with
           | |- context [match ?r with Return _ => _ | Raise _ => _ end] =>
               destruct r
           | |- context [if ?b then _ else _] => destruct b
           | |- context [match ?v with Ops.VCallable _ => _ | _ => _ end] =>
               destruct v
           end; cbn [snd In]; intuition discriminate. }
  destruct (Ops.client_get svc url' query' headers') as [request|e];
    [|intros [[= <- <- <-]|[]]; reflexivity].
  destruct (Ops.forwarded kw !! "stream");
    [intros [[= <- <- <-]|[]]; reflexivity|].
  destruct (Ops.pipeline_run svc request false (Ops.forwarded kw)) as [pr|e];
    [|intros [[= <- <- <-]|[Hin|[]]]; [reflexivity|discriminate Hin]].
  destruct (Ops.answered _ _ _ pr) as [r calls] eqn:Ha.
  intros [[= <- <- <-]|[Hin|Hin]]; [reflexivity|discriminate Hin|].
  exfalso. apply (Hans (default Ops.VNone (kw !! "cls")) pr).
  rewrite Ha. exact Hin.
Qed.

(** X24.  The request either operation asks the client for carries the
    query parameter [api-version], serialized from [2019-10-01], and the
    header [Accept], serialized from [application/json]; it carries a
    [$filter] exactly when it is [get_by_management_group] called with a
    filter, and no other query parameter or header. *)
Theorem request_parameters svc op id kw url query headers :
  In (Ops.Get url query headers) (snd (Ops.invoke svc op id kw [])) ->
  (exists v,
      Ops.serialize_query svc "api_version" "2019-10-01" "str" = Return v
      /\ query !! "api-version" = Some v)
  /\ (exists v,
        Ops.serialize_header svc "accept" "application/json" "str" = Return v
        /\ headers = {[ "Accept" := v ]})
  /\ (is_Some (query !! "$filter")
      <-> exists f, op = Ops.by_management_group (Some f))
  /\ (forall f,
        op = Ops.by_management_group (Some f) ->
        exists v, Ops.serialize_query svc "filter" f "str" = Return v
                  /\ query !! "$filter" = Some v)
  /\ (forall k, k <> "api-version" -> k <> "$filter" -> query !! k = None).
Proof.
  intros Hin. apply got in Hin. unfold Ops.prepared in Hin.
  destruct op as [[f|]|period].
  - destruct (Ops.serialize_url svc _ id _); [|discriminate].
    destruct (Ops.format_url svc _ _); [|discriminate].
    destruct (Ops.serialize_query svc "api_version" _ _) as [version|];
      [|discriminate].
    destruct (Ops.serialize_query svc "filter" f _) as [fv|] eqn:Hf;
      [|discriminate].
    destruct (Ops.serialize_header svc _ _ _) as [accept|]; [|discriminate].
    injection Hin as <- <- <-.
    split; [exists version; split; [reflexivity|];
            by rewrite lookup_insert_ne, lookup_singleton_eq|].
    split; [eauto|].
    split; [split; [eauto | intros _; rewrite lookup_insert_eq; eauto]|].
    split; [intros f' [= <-]; exists fv; split; [exact Hf|];
            by rewrite lookup_insert_eq|].
    intros k H1 H2. by rewrite lookup_insert_ne, lookup_singleton_ne.
  - destruct (Ops.serialize_url svc _ id _); [|discriminate].
    destruct (Ops.format_url svc _ _); [|discriminate].
    destruct (Ops.serialize_query svc "api_version" _ _) as [version|];
      [|discriminate].
    destruct (Ops.serialize_header svc _ _ _) as [accept|]; [|discriminate].
    injection Hin as <- <- <-.
    split; [exists version; split; [reflexivity|];
            by rewrite lookup_singleton_eq|].
    split; [eauto|].
    split; [split; [rewrite lookup_singleton_ne by discriminate;
                    intros [? ?]; discriminate
                   | intros [f' ?]; discriminate]|].
    split; [intros f' ?; discriminate|].
    intros k H1 H2. by rewrite lookup_singleton_ne.
  - destruct (Ops.serialize_url svc _ id _); [|discriminate].
    destruct (Ops.serialize_url svc _ period _); [|discriminate].
    destruct (Ops.format_url svc _ _); [|discriminate].
    destruct (Ops.serialize_query svc "api_version" _ _) as [version|];
      [|discriminate].
    destruct (Ops.serialize_header svc _ _ _) as [accept|]; [|discriminate].
    injection Hin as <- <- <-.
    split; [exists version; split; [reflexivity|];
            by rewrite lookup_singleton_eq|].
    split; [eauto|].
    split; [split; [rewrite lookup_singleton_ne by discriminate;
                    intros [? ?]; discriminate
                   | intros [f' ?]; discriminate]|].
    split; [intros f' ?; discriminate|].
    intros k H1 H2. by rewrite lookup_singleton_ne.
Qed.

Lemma request_parameters_witness :
  let svc := Ops.answering 200 in
  let query : gmap string string :=
    <["$filter" := "properties/usageStart ge '2020'"]>
      {[ "api-version" := "2019-10-01" ]} in
  let headers : gmap string string := {[ "Accept" := "application/json" ]} in
  let op := Ops.by_management_group (Some "properties/usageStart ge '2020'") in
  (exists v,
      Ops.serialize_query svc "api_version" "2019-10-01" "str" = Return v
      /\ query !! "api-version" = Some v)
  /\ (exists v,
        Ops.serialize_header svc "accept" "application/json" "str" = Return v
        /\ headers = {[ "Accept" := v ]})
  /\ (is_Some (query !! "$filter")
      <-> exists f, op = Ops.by_management_group (Some f))
  /\ (forall f,
        op = Ops.by_management_group (Some f) ->
        exists v, Ops.serialize_query svc "filter" f "str" = Return v
                  /\ query !! "$filter" = Some v)
  /\ (forall k, k <> "api-version" -> k <> "$filter" -> query !! k = None).
Proof.
  apply (request_parameters (Ops.answering 200)
           (Ops.by_management_group (Some "properties/usageStart ge '2020'"))
           "group" ∅
           "/providers/Microsoft.Management/managementGroups/{managementGroupId}/providers/Microsoft.Consumption/aggregatedcost").
  vm_compute. left. reflexivity.
Defined.
